(** * VisEkai: the OCR job orchestration subsystem

    A shallow embedding of the Go backend's job repository, result
    repository, job service and job handlers, with the PostgreSQL tables
    they use as an explicit store.

    - [models]: the records of [internal/models].
    - [DB]: the three tables the job subsystem touches.
    - [JobRepository], [ResultRepository], [DocumentRepository]: one pure
      function per SQL statement, explicit store passing.
    - [Prog]: a program is a tree of store/engine operations; goroutines
      and request handlers interleave at the granularity of one operation.
    - [JobService], [JobHandler]: the service and HTTP layer as programs. *)

From Stdlib Require Import ZArith Lia.
From stdpp Require Import gmap list sorting strings.

Local Open Scope Z_scope.
Local Open Scope string_scope.

(** ** Base types *)

(** [uuid.UUID]: 128 opaque bits; the code only compares ids for equality. *)
Abbreviation uuid := N (only parsing).

(** [time.Time] as an instant on a linear time line (nanoseconds). *)
Abbreviation time := Z (only parsing).

(** [time.Duration] counts nanoseconds. *)
Definition Second : Z := 1000000000.

(** [float64] values are stored and returned, never computed with: the
    bit pattern is enough. *)
Abbreviation float64 := Z (only parsing).

(** [map[string]any] payloads ([metadata], [json_data]) are opaque to the
    subsystem: kept in serialised form. *)
Abbreviation json := string (only parsing).

(** Go's [int] on the 64-bit targets the service is built for. *)
Definition min_int : Z := - 2 ^ 63.
Definition max_int : Z := 2 ^ 63 - 1.
Definition wrap_int (z : Z) : Z := (z + 2 ^ 63) mod 2 ^ 64 - 2 ^ 63.

(** PostgreSQL [INTEGER] columns are 32 bits wide. *)
Definition max_int4 : Z := 2147483647.
Definition min_int4 : Z := - 2147483648.

(** A Go [int] that can be stored in an [INTEGER] column. *)
Definition fits_int4 (z : Z) : Prop := min_int4 <= z <= max_int4.

#[global] Instance fits_int4_dec z : Decision (fits_int4 z).
Proof. unfold fits_int4. apply _. Defined.

(** A Go [(T, error)] result; the error carries its message. *)
Inductive Res (A : Type) : Type :=
| Ok (a : A)
| Err (msg : string).
Arguments Ok {A} a.
Arguments Err {A} msg.

Definition is_ok {A} (r : Res A) : bool :=
  match r with Ok _ => true | Err _ => false end.

(** ** internal/models *)

Inductive JobStatus : Set :=
| JobStatusPending
| JobStatusProcessing
| JobStatusCompleted
| JobStatusFailed
| JobStatusCancelled.

#[global] Instance JobStatus_eq_dec : EqDecision JobStatus.
Proof. solve_decision. Defined.

Definition JobStatus_string (s : JobStatus) : string :=
  match s with
  | JobStatusPending => "pending"
  | JobStatusProcessing => "processing"
  | JobStatusCompleted => "completed"
  | JobStatusFailed => "failed"
  | JobStatusCancelled => "cancelled"
  end.

Inductive OCRMode : Set :=
| OCRModeDocument | OCRModeHandwritten | OCRModeGeneral | OCRModeFigure.

Inductive ResolutionMode : Set :=
| ResolutionTiny | ResolutionSmall | ResolutionBase | ResolutionLarge
| ResolutionGundam.

Module OCRJob.
Record t : Type := mk {
  ID : uuid;
  DocumentID : uuid;
  UserID : uuid;
  Status : JobStatus;
  Mode : OCRMode;
  Resolution : ResolutionMode;
  Priority : Z;
  RetryCount : Z;
  MaxRetries : Z;
  ProgressPercentage : Z;
  CreatedAt : time;
  StartedAt : option time;
  CompletedAt : option time;
  ErrorMessage : option string;
  Metadata : json
}.
End OCRJob.

Module OCRJobRequest.
Record t : Type := mk {
  DocumentID : uuid;
  Mode : OCRMode;
  Resolution : ResolutionMode;
  Priority : Z
}.
End OCRJobRequest.

Module BatchOCRJobRequest.
Record t : Type := mk {
  DocumentIDs : list uuid;
  Mode : OCRMode;
  Resolution : ResolutionMode
}.
End BatchOCRJobRequest.

Module JobSubmissionRequest.
Record t : Type := mk {
  DocumentID : uuid;
  Mode : OCRMode;
  Resolution : ResolutionMode;
  Priority : Z;
  Metadata : json
}.
End JobSubmissionRequest.

Module OCRResult.
Record t : Type := mk {
  ID : uuid;
  JobID : uuid;
  DocumentID : uuid;
  RawText : string;
  MarkdownText : string;
  JSONData : json;
  ConfidenceScore : float64;
  ProcessingTimeMs : Z;
  NumPages : Z;
  CreatedAt : time
}.
End OCRResult.

Module Document.
Record t : Type := mk {
  ID : uuid;
  UserID : uuid;
  FilePath : string;
  DeletedAt : option time
}.
End Document.

(** The engine's answer ([ocr.OCRResponse]), as far as the service reads it. *)
Module OCRResponse.
Record t : Type := mk {
  Text : string;
  Markdown : string;
  StructuredData : json;
  Confidence : float64;
  ProcessingTime : Z;
  NumPages : Z
}.
End OCRResponse.

Module Pagination.
Record t : Type := mk {
  Page : Z;
  PerPage : Z;
  Total : Z;
  TotalPages : Z;
  HasNext : bool;
  HasPrev : bool
}.
End Pagination.

(** ** The store: tables [ocr_jobs], [ocr_results], [documents]

    [ocr_jobs] and [documents] are keyed by their primary key.  The schema
    puts no uniqueness constraint on [ocr_results.job_id] (only an index),
    so results are a list of rows in insertion order. *)

Record DB : Type := mkDB {
  ocr_jobs : gmap N OCRJob.t;
  ocr_results : list OCRResult.t;
  documents : gmap N Document.t
}.

Definition with_jobs (db : DB) (jobs : gmap N OCRJob.t) : DB :=
  mkDB jobs (ocr_results db) (documents db).

Definition with_results (db : DB) (rs : list OCRResult.t) : DB :=
  mkDB (ocr_jobs db) rs (documents db).

Definition with_documents (db : DB) (docs : gmap N Document.t) : DB :=
  mkDB (ocr_jobs db) (ocr_results db) docs.

(** What the environment decides for one operation: the clock reading, the
    next value of [uuid.New()], whether the database driver fails (and with
    which message), and the answer of the OCR engine.

    For a query read row by row, [fault] is the error [Query] itself
    returns; [cut] is a failure after that, while the rows are read:
    [Some k] when the stream breaks after [k] rows.  For a single-row
    [SELECT] without [ORDER BY], [pick] is the server's choice among the
    rows that match. *)
Record Env : Type := mkEnv {
  now : time;
  fresh : uuid;
  fault : option string;
  ocr : Res OCRResponse.t;
  cut : option nat;
  pick : nat
}.

(** What a [for rows.Next() { ... }] loop collects from the stream of a
    query: every row, or the rows before the stream breaks.  No function of
    the repositories reads [rows.Err()] after its loop, so a broken stream
    is a shorter answer, not an error. *)
Definition rows_read {A} (e : Env) (l : list A) : list A :=
  match cut e with
  | None => l
  | Some k => take k l
  end.

(** ** internal/repository/job_repo.go *)

Module JobRepository.
Import OCRJob.

(** The [SET] clauses of the four [UPDATE] statements, on one row. *)

(** [SET status = $1, started_at = $2] *)
Definition set_status_started (s : JobStatus) (at_ : time) (j : t) : t :=
  mk (ID j) (DocumentID j) (UserID j) s (Mode j) (Resolution j)
     (Priority j) (RetryCount j) (MaxRetries j) (ProgressPercentage j)
     (CreatedAt j) (Some at_) (CompletedAt j) (ErrorMessage j) (Metadata j).

(** [SET status = $1, completed_at = $2, error_message = $3,
    progress_percentage = $4] *)
Definition set_status_completed_error
    (s : JobStatus) (at_ : time) (msg : string) (progress : Z) (j : t) : t :=
  mk (ID j) (DocumentID j) (UserID j) s (Mode j) (Resolution j)
     (Priority j) (RetryCount j) (MaxRetries j) progress
     (CreatedAt j) (StartedAt j) (Some at_) (Some msg) (Metadata j).

(** [SET status = $1, completed_at = $2, progress_percentage = $3] *)
Definition set_status_completed
    (s : JobStatus) (at_ : time) (progress : Z) (j : t) : t :=
  mk (ID j) (DocumentID j) (UserID j) s (Mode j) (Resolution j)
     (Priority j) (RetryCount j) (MaxRetries j) progress
     (CreatedAt j) (StartedAt j) (Some at_) (ErrorMessage j) (Metadata j).

(** [SET status = $1] *)
Definition set_status (s : JobStatus) (j : t) : t :=
  mk (ID j) (DocumentID j) (UserID j) s (Mode j) (Resolution j)
     (Priority j) (RetryCount j) (MaxRetries j) (ProgressPercentage j)
     (CreatedAt j) (StartedAt j) (CompletedAt j) (ErrorMessage j) (Metadata j).

(** [SET progress_percentage = $1] *)
Definition set_progress (progress : Z) (j : t) : t :=
  mk (ID j) (DocumentID j) (UserID j) (Status j) (Mode j) (Resolution j)
     (Priority j) (RetryCount j) (MaxRetries j) progress
     (CreatedAt j) (StartedAt j) (CompletedAt j) (ErrorMessage j) (Metadata j).

(** [SET retry_count = retry_count + 1] *)
Definition set_retry_incremented (j : t) : t :=
  mk (ID j) (DocumentID j) (UserID j) (Status j) (Mode j) (Resolution j)
     (Priority j) (RetryCount j + 1) (MaxRetries j) (ProgressPercentage j)
     (CreatedAt j) (StartedAt j) (CompletedAt j) (ErrorMessage j) (Metadata j).

(** The assignments [Create] makes to the caller's struct before the
    [INSERT]: id, status, creation time, progress. *)
Definition stamped (id : uuid) (at_ : time) (j : t) : t :=
  mk id (DocumentID j) (UserID j) JobStatusPending (Mode j) (Resolution j)
     (Priority j) (RetryCount j) (MaxRetries j) 0
     at_ None None None (Metadata j).

(** [Create]: the struct is stamped, then inserted; the primary key
    rejects an id already in the table.  (The foreign keys to [documents]
    and [users] are not modelled: [SubmitJob] has just read the document,
    and the code never removes a row of either table.) *)
Definition Create (e : Env) (db : DB) (job : t) : Res t * DB :=
  let job' := stamped (fresh e) (now e) job in
  match fault e with
  | Some err => (Err ("failed to create job: " ++ err), db)
  | None =>
    match ocr_jobs db !! ID job' with
    | Some _ =>
      (Err ("failed to create job: "
            ++ "duplicate key value violates unique constraint"), db)
    | None => (Ok job', with_jobs db (<[ID job' := job']> (ocr_jobs db)))
    end
  end.

(** [GetByID] *)
Definition GetByID (e : Env) (db : DB) (id : uuid) : Res t :=
  match fault e with
  | Some err => Err ("failed to get job: " ++ err)
  | None =>
    match ocr_jobs db !! id with
    | None => Err "job not found"
    | Some job => Ok job
    end
  end.

(** The row update [UpdateStatus] picks for a target status: the
    [switch] of lines 165-199. *)
Definition status_update
    (status : JobStatus) (errorMessage : option string) (at_ : time)
    : t -> t :=
  match status with
  | JobStatusProcessing => set_status_started status at_
  | JobStatusCompleted | JobStatusFailed | JobStatusCancelled =>
    match errorMessage with
    | Some msg =>
      let progress :=
        if decide (status = JobStatusCompleted) then 100 else 0 in
      set_status_completed_error status at_ msg progress
    | None =>
      let progress := 100 in
      set_status_completed status at_ progress
    end
  | JobStatusPending => set_status status
  end.

(** [UpdateStatus]: the update is keyed on the id alone ([WHERE id = $n]);
    no row affected is reported as "job not found". *)
Definition UpdateStatus
    (e : Env) (db : DB) (jobID : uuid) (status : JobStatus)
    (errorMessage : option string) : Res unit * DB :=
  match fault e with
  | Some err => (Err ("failed to update job status: " ++ err), db)
  | None =>
    match ocr_jobs db !! jobID with
    | None => (Err "job not found", db)
    | Some j =>
      (Ok tt,
       with_jobs db
         (<[jobID := status_update status errorMessage (now e) j]>
            (ocr_jobs db)))
    end
  end.

(** [UpdateProgress]; the column's [CHECK] keeps it within 0..100. *)
Definition UpdateProgress
    (e : Env) (db : DB) (jobID : uuid) (progress : Z) : Res unit * DB :=
  match fault e with
  | Some err => (Err ("failed to update job progress: " ++ err), db)
  | None =>
    match ocr_jobs db !! jobID with
    | None => (Err "job not found", db)
    | Some j =>
      if decide (0 <= progress <= 100) then
        (Ok tt, with_jobs db (<[jobID := set_progress progress j]> (ocr_jobs db)))
      else
        (Err ("failed to update job progress: "
              ++ "new row violates check constraint"), db)
    end
  end.

(** [IncrementRetryCount]; the column is a 32-bit [INTEGER]. *)
Definition IncrementRetryCount
    (e : Env) (db : DB) (jobID : uuid) : Res unit * DB :=
  match fault e with
  | Some err => (Err ("failed to increment retry count: " ++ err), db)
  | None =>
    match ocr_jobs db !! jobID with
    | None => (Err "job not found", db)
    | Some j =>
      if decide (RetryCount j + 1 <= max_int4) then
        (Ok tt, with_jobs db (<[jobID := set_retry_incremented j]> (ocr_jobs db)))
      else
        (Err ("failed to increment retry count: " ++ "integer out of range"), db)
    end
  end.

(** [Delete]; [ocr_results.job_id] is declared [ON DELETE CASCADE]. *)
Definition Delete (e : Env) (db : DB) (jobID : uuid) : Res unit * DB :=
  match fault e with
  | Some err => (Err ("failed to delete job: " ++ err), db)
  | None =>
    match ocr_jobs db !! jobID with
    | None => (Err "job not found", db)
    | Some _ =>
      (Ok tt,
       mkDB (delete jobID (ocr_jobs db))
            (filter (fun r => OCRResult.JobID r <> jobID) (ocr_results db))
            (documents db))
    end
  end.

(** The rows of the table, as a sequential scan returns them. *)
Definition rows (db : DB) : list t := (map_to_list (ocr_jobs db)).*2.

(** [ORDER BY priority DESC, created_at ASC]: [a] may come before [b]. *)
Definition pending_order (a b : t) : Prop :=
  Priority b < Priority a
  \/ (Priority a = Priority b /\ CreatedAt a <= CreatedAt b).

#[global] Instance pending_order_dec a b : Decision (pending_order a b).
Proof. unfold pending_order. apply _. Defined.

(** [ORDER BY created_at DESC] *)
Definition newest_first (a b : t) : Prop := CreatedAt b <= CreatedAt a.

#[global] Instance newest_first_dec a b : Decision (newest_first a b).
Proof. unfold newest_first. apply _. Defined.

(** The rows a statement ending in [LIMIT n OFFSET m] streams to the
    client.  PostgreSQL rejects a negative count when it executes the
    statement, after [Query] has returned without an error: the stream then
    carries no row, and the error is only in the [rows.Err()] that nobody
    reads. *)
Definition limit_offset {A} (lim off : Z) (l : list A) : list A :=
  if decide (lim < 0 \/ off < 0) then []
  else take (Z.to_nat lim) (drop (Z.to_nat off) l).

(** [GetPendingJobs]: [WHERE status = 'pending' ORDER BY priority DESC,
    created_at ASC LIMIT $2], then the row loop. *)
Definition GetPendingJobs (e : Env) (db : DB) (limit : Z) : Res (list t) :=
  match fault e with
  | Some err => Err ("failed to get pending jobs: " ++ err)
  | None =>
    Ok (rows_read e
          (limit_offset limit 0
             (merge_sort pending_order
                (filter (fun j => Status j = JobStatusPending) (rows db)))))
  end.

(** The two statements of [GetByUserID]: the count, then the page. *)
Definition CountByUserID (e : Env) (db : DB) (userID : uuid) : Res Z :=
  match fault e with
  | Some err => Err ("failed to count jobs: " ++ err)
  | None =>
    let n := Z.of_nat (length (filter (fun j => UserID j = userID) (rows db))) in
    (* COUNT is a bigint scanned into a Go int *)
    if decide (n <= max_int) then Ok n
    else Err ("failed to count jobs: " ++ "value out of range")
  end.

Definition SelectByUserID
    (e : Env) (db : DB) (userID : uuid) (perPage offset : Z)
    : Res (list t) :=
  match fault e with
  | Some err => Err ("failed to get jobs: " ++ err)
  | None =>
    Ok (rows_read e
          (limit_offset perPage offset
             (merge_sort newest_first
                (filter (fun j => UserID j = userID) (rows db)))))
  end.


End JobRepository.

(** ** The result repository (Create, GetByJobID) *)

Module ResultRepository.
Import OCRResult.

Definition stamped (id : uuid) (at_ : time) (r : t) : t :=
  mk id (JobID r) (DocumentID r) (RawText r) (MarkdownText r) (JSONData r)
     (ConfidenceScore r) (ProcessingTimeMs r) (NumPages r) at_.

(** [Create]: [processing_time_ms] and [num_pages] are [INTEGER]
    columns, so a Go [int] outside 32 bits is refused; [job_id] references
    [ocr_jobs(id)], so the insert fails when the job row is gone; the
    primary key rejects a reused id. *)
Definition Create (e : Env) (db : DB) (result : t) : Res t * DB :=
  let result' := stamped (fresh e) (now e) result in
  match fault e with
  | Some err => (Err ("failed to create result: " ++ err), db)
  | None =>
    if decide (fits_int4 (ProcessingTimeMs result')
               /\ fits_int4 (NumPages result')) then
      match ocr_jobs db !! JobID result' with
      | None =>
        (Err ("failed to create result: "
              ++ "insert violates foreign key constraint"), db)
      | Some _ =>
        if decide (ID result' ∈ ID <$> ocr_results db) then
          (Err ("failed to create result: "
                ++ "duplicate key value violates unique constraint"), db)
        else (Ok result', with_results db (ocr_results db ++ [result']))
      end
    else
      (Err ("failed to create result: " ++ "integer out of range"), db)
  end.

(** [GetByJobID]: [QueryRow] takes the first row of the answer.  The
    statement has no [ORDER BY] and [job_id] is not unique, so which row of
    the job comes first is the server's choice: row number [pick e] of the
    matching ones, if there is one. *)
Definition GetByJobID (e : Env) (db : DB) (jobID : uuid) : Res t :=
  match fault e with
  | Some err => Err ("failed to get result: " ++ err)
  | None =>
    match filter (fun r => JobID r = jobID) (ocr_results db) with
    | [] => Err "result not found"
    | r :: rest => Ok (default r ((r :: rest) !! pick e))
    end
  end.
(** [GetByID] *)
Definition GetByID (e : Env) (db : DB) (id : uuid) : Res t :=
  match fault e with
  | Some err => Err ("failed to get result: " ++ err)
  | None =>
    match filter (fun r => ID r = id) (ocr_results db) with
    | [] => Err "result not found"
    | r :: _ => Ok r
    end
  end.

(** [ORDER BY created_at DESC] *)
Definition newest_first (a b : t) : Prop := CreatedAt b <= CreatedAt a.

#[global] Instance newest_first_dec a b : Decision (newest_first a b).
Proof. unfold newest_first. apply _. Defined.

(** [GetByDocumentID]: no row is an empty answer, not an error. *)
Definition GetByDocumentID (e : Env) (db : DB) (documentID : uuid)
    : Res (list t) :=
  match fault e with
  | Some err => Err ("failed to get results: " ++ err)
  | None =>
    Ok (rows_read e
          (merge_sort newest_first
             (filter (fun r => DocumentID r = documentID) (ocr_results db))))
  end.

(** The [SET] clause of [Update]: the six payload columns. *)
Definition set_payload (result r : t) : t :=
  mk (ID r) (JobID r) (DocumentID r) (RawText result) (MarkdownText result)
     (JSONData result) (ConfidenceScore result) (ProcessingTimeMs result)
     (NumPages result) (CreatedAt r).

(** [Update]: [WHERE id = $7]. *)
Definition Update (e : Env) (db : DB) (result : t) : Res unit * DB :=
  match fault e with
  | Some err => (Err ("failed to update result: " ++ err), db)
  | None =>
    match filter (fun r => ID r = ID result) (ocr_results db) with
    | [] => (Err "result not found", db)
    | _ :: _ =>
      (Ok tt,
       with_results db
         ((fun r => if decide (ID r = ID result) then set_payload result r else r)
            <$> ocr_results db))
    end
  end.

(** [Delete] *)
Definition Delete (e : Env) (db : DB) (id : uuid) : Res unit * DB :=
  match fault e with
  | Some err => (Err ("failed to delete result: " ++ err), db)
  | None =>
    match filter (fun r => ID r = id) (ocr_results db) with
    | [] => (Err "result not found", db)
    | _ :: _ =>
      (Ok tt, with_results db (filter (fun r => ID r <> id) (ocr_results db)))
    end
  end.
End ResultRepository.

(** ** The document repository (GetByID) *)

Module DocumentRepository.
Import Document.

(** [WHERE id = $1 AND deleted_at IS NULL] *)
Definition GetByID (e : Env) (db : DB) (id : uuid) : Res t :=
  match fault e with
  | Some err => Err ("failed to get document: " ++ err)
  | None =>
    match documents db !! id with
    | Some doc =>
      match DeletedAt doc with
      | None => Ok doc
      | Some _ => Err "document not found"
      end
    | None => Err "document not found"
    end
  end.
(** [SoftDelete]: [SET deleted_at = $1 WHERE id = $2 AND deleted_at IS NULL]. *)
Definition SoftDelete (e : Env) (db : DB) (id : uuid) : Res unit * DB :=
  match fault e with
  | Some err => (Err ("failed to delete document: " ++ err), db)
  | None =>
    match documents db !! id with
    | Some doc =>
      match DeletedAt doc with
      | None =>
        (Ok tt,
         with_documents db
           (<[id := mk (ID doc) (UserID doc) (FilePath doc) (Some (now e))]>
              (documents db)))
      | Some _ => (Err "document not found", db)
      end
    | None => (Err "document not found", db)
    end
  end.
End DocumentRepository.

(** ** Programs over the store

    Every call that leaves the Go process (one SQL statement, the HTTP call
    to the OCR engine), [time.Now], [time.Sleep] and the [go] statement is
    an operation; a function of the service is a tree of operations whose
    branches are the Go control flow on the returned values. *)

Inductive Op : Type -> Type :=
| JobCreate (job : OCRJob.t) : Op (Res OCRJob.t)
| JobGetByID (id : uuid) : Op (Res OCRJob.t)
| JobCountByUserID (userID : uuid) : Op (Res Z)
| JobSelectByUserID (userID : uuid) (perPage offset : Z) : Op (Res (list OCRJob.t))
| JobUpdateStatus (jobID : uuid) (status : JobStatus)
    (errorMessage : option string) : Op (Res unit)
| JobIncrementRetryCount (jobID : uuid) : Op (Res unit)
| JobGetPendingJobs (limit : Z) : Op (Res (list OCRJob.t))
| JobDelete (jobID : uuid) : Op (Res unit)
| DocumentGetByID (id : uuid) : Op (Res Document.t)
| ResultCreate (result : OCRResult.t) : Op (Res OCRResult.t)
| ResultGetByJobID (jobID : uuid) : Op (Res OCRResult.t)
| ProcessDocument (filePath : string) (ocrMode : OCRMode)
    (resolutionMode : ResolutionMode) : Op (Res OCRResponse.t)
| TimeNow : Op time
| Sleep (d : Z) : Op unit
| Go (jobID : uuid) : Op unit.

Inductive Prog (A : Type) : Type :=
| Ret (a : A)
| Do {R : Type} (op : Op R) (k : R -> Prog A).
Arguments Ret {A} a.
Arguments Do {A R} op k.

Fixpoint bind {A B} (p : Prog A) (f : A -> Prog B) : Prog B :=
  match p with
  | Ret a => f a
  | Do op k => Do op (fun r => bind (k r) f)
  end.

(** [call x := op in k]: perform [op], continue as [k] with its result.
    [invoke x := p in k]: run the program [p] of another function first. *)
Notation "'call' x := op 'in' k" := (Do op (fun x => k))
  (at level 10, x name, op at level 100, k at level 200, only parsing).
Notation "'invoke' x := p 'in' k" := (bind p (fun x => k))
  (at level 10, x name, p at level 100, k at level 200, only parsing).

(** One operation against the store. *)
Definition exec {R} (op : Op R) (e : Env) (db : DB) : R * DB :=
  match op in Op R return R * DB with
  | JobCreate job => JobRepository.Create e db job
  | JobGetByID id => (JobRepository.GetByID e db id, db)
  | JobCountByUserID userID => (JobRepository.CountByUserID e db userID, db)
  | JobSelectByUserID userID perPage offset =>
    (JobRepository.SelectByUserID e db userID perPage offset, db)
  | JobUpdateStatus jobID status errorMessage =>
    JobRepository.UpdateStatus e db jobID status errorMessage
  | JobIncrementRetryCount jobID => JobRepository.IncrementRetryCount e db jobID
  | JobGetPendingJobs limit => (JobRepository.GetPendingJobs e db limit, db)
  | JobDelete jobID => JobRepository.Delete e db jobID
  | DocumentGetByID id => (DocumentRepository.GetByID e db id, db)
  | ResultCreate result => ResultRepository.Create e db result
  | ResultGetByJobID jobID => (ResultRepository.GetByJobID e db jobID, db)
  | ProcessDocument _ _ _ => (ocr e, db)
  | TimeNow => (now e, db)
  | Sleep _ => (tt, db)
  | Go _ => (tt, db)
  end.

(** The goroutines an operation launches. *)
Definition launched {R} (op : Op R) : list uuid :=
  match op with
  | Go jobID => [jobID]
  | _ => []
  end.

(** An executed operation, with the store it left behind. *)
Inductive Call : Type :=
| Called : forall R : Type, Op R -> Call.
Arguments Called {R} op.

Definition Event : Type := Call * DB.

(** A program run alone, without interleaving: operation number [n] gets
    the environment [env n]. *)
Fixpoint run {A} (p : Prog A) (env : nat -> Env) (n : nat) (db : DB)
    : A * DB * list Event :=
  match p with
  | Ret a => (a, db, [])
  | Do op k =>
    let '(r, db1) := exec op (env n) db in
    let '(a, db2, tr) := run (k r) env (S n) db1 in
    (a, db2, (Called op, db1) :: tr)
  end.

Definition result_of {A} (x : A * DB * list Event) : A := x.1.1.
Definition store_of {A} (x : A * DB * list Event) : DB := x.1.2.
Definition trace_of {A} (x : A * DB * list Event) : list Event := x.2.

(** ** The job service *)

Module JobService.
Import OCRJob.

(** [JobRepository.GetByUserID]: its two statements in sequence. *)
Definition GetByUserID (userID : uuid) (page perPage : Z)
    : Prog (Res (list t * Z)) :=
  let offset := wrap_int (wrap_int (page - 1) * perPage) in
  call c := JobCountByUserID userID in
  match c with
  | Err err => Ret (Err err)
  | Ok total =>
    call r := JobSelectByUserID userID perPage offset in
    match r with
    | Err err => Ret (Err err)
    | Ok jobs => Ret (Ok (jobs, total))
    end
  end.

(** [SubmitJob].  The struct literal leaves the id, status and times at
    their zero values; [Create] overwrites them before the insert. *)
Definition SubmitJob (req : JobSubmissionRequest.t) (userID : uuid)
    : Prog (Res t) :=
  call d := DocumentGetByID (JobSubmissionRequest.DocumentID req) in
  match d with
  | Err err => Ret (Err ("document not found: " ++ err))
  | Ok document =>
    if decide (Document.UserID document <> userID) then
      Ret (Err "unauthorized: document does not belong to user")
    else
      let job :=
        mk 0%N (JobSubmissionRequest.DocumentID req) userID JobStatusPending
           (JobSubmissionRequest.Mode req) (JobSubmissionRequest.Resolution req)
           (JobSubmissionRequest.Priority req) 0 3 0 0 None None None
           (JobSubmissionRequest.Metadata req) in
      call c := JobCreate job in
      match c with
      | Err err => Ret (Err ("failed to create job: " ++ err))
      | Ok job =>
        call _ := Go (ID job) in
        Ret (Ok job)
      end
  end.

(** [GetJob] *)
Definition GetJob (jobID userID : uuid) : Prog (Res t) :=
  call r := JobGetByID jobID in
  match r with
  | Err err => Ret (Err err)
  | Ok job =>
    if decide (UserID job <> userID) then
      Ret (Err "unauthorized: job does not belong to user")
    else Ret (Ok job)
  end.

(** [ListJobs] *)
Definition ListJobs (userID : uuid) (page perPage : Z)
    : Prog (Res (list t * Pagination.t)) :=
  let page := if decide (page < 1) then 1 else page in
  let perPage := if decide (perPage < 1 \/ perPage > 100) then 20 else perPage in
  invoke r := GetByUserID userID page perPage in
  match r with
  | Err err => Ret (Err err)
  | Ok (jobs, total) =>
    let totalPages := Z.quot (wrap_int (wrap_int (total + perPage) - 1)) perPage in
    let pagination :=
      Pagination.mk page perPage total totalPages
        (bool_decide (page < totalPages)) (bool_decide (page > 1)) in
    Ret (Ok (jobs, pagination))
  end.
(** [CancelJob] *)
Definition CancelJob (jobID userID : uuid) : Prog (Res unit) :=
  call r := JobGetByID jobID in
  match r with
  | Err err => Ret (Err err)
  | Ok job =>
    if decide (UserID job <> userID) then
      Ret (Err "unauthorized: job does not belong to user")
    else if decide (Status job = JobStatusCompleted
                    \/ Status job = JobStatusFailed
                    \/ Status job = JobStatusCancelled) then
      Ret (Err ("cannot cancel job with status: " ++ JobStatus_string (Status job)))
    else
      call u := JobUpdateStatus jobID JobStatusCancelled None in
      match u with
      | Err err => Ret (Err ("failed to cancel job: " ++ err))
      | Ok _ => Ret (Ok tt)
      end
  end.

(** [DeleteJob] *)
Definition DeleteJob (jobID userID : uuid) : Prog (Res unit) :=
  call r := JobGetByID jobID in
  match r with
  | Err err => Ret (Err err)
  | Ok job =>
    if decide (UserID job <> userID) then
      Ret (Err "unauthorized: job does not belong to user")
    else if decide (Status job = JobStatusPending
                    \/ Status job = JobStatusProcessing) then
      Ret (Err "cannot delete active job, cancel it first")
    else
      call u := JobDelete jobID in
      match u with
      | Err err => Ret (Err ("failed to delete job: " ++ err))
      | Ok _ => Ret (Ok tt)
      end
  end.

(** [GetJobResult] *)
Definition GetJobResult (jobID userID : uuid) : Prog (Res OCRResult.t) :=
  call r := JobGetByID jobID in
  match r with
  | Err err => Ret (Err err)
  | Ok job =>
    if decide (UserID job <> userID) then
      Ret (Err "unauthorized: job does not belong to user")
    else
      call res := ResultGetByJobID jobID in
      match res with
      | Err err => Ret (Err err)
      | Ok result => Ret (Ok result)
      end
  end.

(** *** [processJob], from its last statements to its first

    The pieces are named so that the state of a goroutine part-way
    through the function can be written down. *)

(** Lines 276-283: the write of [completed]; both outcomes only log. *)
Definition processJob_complete (jobID : uuid) : Prog unit :=
  call _ := JobUpdateStatus jobID JobStatusCompleted None in
  Ret tt.

(** Lines 226 and 271: the write of [failed] with a message, then return. *)
Definition processJob_fail (jobID : uuid) (errorMsg : string) : Prog unit :=
  call _ := JobUpdateStatus jobID JobStatusFailed (Some errorMsg) in
  Ret tt.

(** Lines 256-274: build and save the result. *)
Definition processJob_save
    (jobID : uuid) (job : t) (ocrResponse : OCRResponse.t) : Prog unit :=
  let result :=
    OCRResult.mk 0%N jobID (DocumentID job)
      (OCRResponse.Text ocrResponse) (OCRResponse.Markdown ocrResponse)
      (OCRResponse.StructuredData ocrResponse)
      (OCRResponse.Confidence ocrResponse)
      (OCRResponse.ProcessingTime ocrResponse)
      (OCRResponse.NumPages ocrResponse) 0 in
  call c := ResultCreate result in
  match c with
  | Err err => processJob_fail jobID ("Failed to save result: " ++ err)
  | Ok _ => processJob_complete jobID
  end.

(** Lines 245-246: the back-off sleep and the new goroutine. *)
Definition processJob_backoff (jobID : uuid) : Prog unit :=
  call _ := Sleep (10 * Second) in
  call _ := Go jobID in
  Ret tt.

(** Line 241: back to [pending]. *)
Definition processJob_requeue (jobID : uuid) : Prog unit :=
  call _ := JobUpdateStatus jobID JobStatusPending None in
  processJob_backoff jobID.

(** Lines 240-246: the retry branch. *)
Definition processJob_retry (jobID : uuid) : Prog unit :=
  call _ := JobIncrementRetryCount jobID in
  processJob_requeue jobID.

(** Lines 234-251: the engine failed.  The job is written [failed]
    first; the retry test reads the snapshot [job] taken at line 203. *)
Definition processJob_engine_failed
    (jobID : uuid) (job : t) (err : string) : Prog unit :=
  let errorMsg := "OCR processing failed: " ++ err in
  call _ := JobUpdateStatus jobID JobStatusFailed (Some errorMsg) in
  if decide (RetryCount job < MaxRetries job) then processJob_retry jobID
  else Ret tt.

(** Lines 231-284: the engine call and what follows. *)
Definition processJob_engine
    (jobID : uuid) (job : t) (document : Document.t) : Prog unit :=
  call o := ProcessDocument (Document.FilePath document)
              (Mode job) (Resolution job) in
  match o with
  | Err err => processJob_engine_failed jobID job err
  | Ok ocrResponse => processJob_save jobID job ocrResponse
  end.

(** Lines 222-229: fetch the document. *)
Definition processJob_document (jobID : uuid) (job : t) : Prog unit :=
  call d := DocumentGetByID (DocumentID job) in
  match d with
  | Err err => processJob_fail jobID ("Failed to get document: " ++ err)
  | Ok document => processJob_engine jobID job document
  end.

(** Lines 215-220: claim the job. *)
Definition processJob_claim (jobID : uuid) (job : t) : Prog unit :=
  call u := JobUpdateStatus jobID JobStatusProcessing None in
  match u with
  | Err _ => Ret tt
  | Ok _ => processJob_document jobID job
  end.

(** [processJob] *)
Definition processJob (jobID : uuid) : Prog unit :=
  call r := JobGetByID jobID in
  match r with
  | Err _ => Ret tt
  | Ok job =>
    if decide (Status job <> JobStatusPending) then Ret tt
    else processJob_claim jobID job
  end.

(** [GetPendingJobs] *)
Definition GetPendingJobs (limit : Z) : Prog (Res (list t)) :=
  call r := JobGetPendingJobs limit in
  Ret r.

(** [ProcessNextJob] *)
Definition ProcessNextJob : Prog (Res unit) :=
  invoke r := GetPendingJobs 1 in
  match r with
  | Err err => Ret (Err err)
  | Ok [] => Ret (Ok tt)
  | Ok (job :: _) =>
    call _ := Go (ID job) in
    Ret (Ok tt)
  end.
End JobService.

(** ** The job handlers (HTTP layer)

    A handler receives what the middleware and the router extracted: the
    authenticated user ([middleware.GetUserID]) and the parsed path
    parameter ([uuid.Parse]), each of which may have failed. *)

Inductive Data : Type :=
| DataNil
| DataJob (job : OCRJob.t)
| DataResult (result : OCRResult.t)
| DataPage (items : list OCRJob.t) (pagination : Pagination.t)
| DataBatch (jobs : list OCRJob.t) (success failed : Z) (errors : list string).

(** [models.APIResponse] and [models.ErrorResponse] (no details). *)
Inductive Body : Type :=
| APIResponse (data : Data) (message : string) (timestamp : time)
| ErrorResponse (code message : string) (timestamp : time).

Record HTTPResponse : Type := mkResponse {
  http_status : Z;
  http_body : Body
}.

Definition StatusOK : Z := 200.
Definition StatusCreated : Z := 201.
Definition StatusBadRequest : Z := 400.
Definition StatusUnauthorized : Z := 401.
Definition StatusNotFound : Z := 404.
Definition StatusInternalServerError : Z := 500.

Module JobHandler.

(** [c.JSON(status, models.NewErrorResponse(code, message, nil))] *)
Definition error_json (status : Z) (code message : string) : Prog HTTPResponse :=
  call ts := TimeNow in
  Ret (mkResponse status (ErrorResponse code message ts)).

(** [c.JSON(status, models.NewSuccessResponse(data, message))] *)
Definition success_json (status : Z) (data : Data) (message : string)
    : Prog HTTPResponse :=
  call ts := TimeNow in
  Ret (mkResponse status (APIResponse data message ts)).

(** The common prologue: authenticated user, then the [:id] parameter. *)
Definition with_user_and_id
    (user idParam : Res uuid) (k : uuid -> uuid -> Prog HTTPResponse)
    : Prog HTTPResponse :=
  match user with
  | Err err => error_json StatusUnauthorized "AUTH_003" err
  | Ok userID =>
    match idParam with
    | Err _ => error_json StatusBadRequest "VAL_008" "Invalid job ID"
    | Ok jobID => k userID jobID
    end
  end.

(** [SubmitJob], after binding and validation of the body. *)
Definition SubmitJob (user : Res uuid) (req : OCRJobRequest.t)
    : Prog HTTPResponse :=
  match user with
  | Err err => error_json StatusUnauthorized "AUTH_003" err
  | Ok userID =>
    let submission :=
      JobSubmissionRequest.mk (OCRJobRequest.DocumentID req)
        (OCRJobRequest.Mode req) (OCRJobRequest.Resolution req)
        (OCRJobRequest.Priority req) "" in
    invoke r := JobService.SubmitJob submission userID in
    match r with
    | Err err => error_json StatusBadRequest "JOB_001" err
    | Ok job =>
      success_json StatusCreated (DataJob job) "OCR job submitted successfully"
    end
  end.

(** The loop of [SubmitBatchJob] over the document ids, with the jobs
    and the error messages collected so far; batch jobs get priority 0. *)
Fixpoint submit_each
  (userID : uuid) (req : BatchOCRJobRequest.t) (documentIDs : list uuid)
  (jobs : list OCRJob.t) (errors : list string) : Prog HTTPResponse :=
  match documentIDs with
  | [] =>
    success_json StatusCreated
      (DataBatch jobs (Z.of_nat (length jobs)) (Z.of_nat (length errors)) errors)
      "Batch OCR jobs submitted"
  | documentID :: rest =>
    let submission :=
      JobSubmissionRequest.mk documentID (BatchOCRJobRequest.Mode req)
        (BatchOCRJobRequest.Resolution req) 0 "" in
    invoke r := JobService.SubmitJob submission userID in
    match r with
    | Err err => submit_each userID req rest jobs (errors ++ [err])%list
    | Ok job => submit_each userID req rest (jobs ++ [job])%list errors
    end
  end.

(** [SubmitBatchJob], after binding and validation of the body. *)
Definition SubmitBatchJob (user : Res uuid) (req : BatchOCRJobRequest.t)
    : Prog HTTPResponse :=
  match user with
  | Err err => error_json StatusUnauthorized "AUTH_003" err
  | Ok userID =>
    submit_each userID req (BatchOCRJobRequest.DocumentIDs req) [] []
  end.

(** [ListJobs] *)
Definition ListJobs (user : Res uuid) (page perPage : Z) : Prog HTTPResponse :=
  match user with
  | Err err => error_json StatusUnauthorized "AUTH_003" err
  | Ok userID =>
    let page := if decide (page < 1) then 1 else page in
    let perPage :=
      if decide (perPage < 1 \/ perPage > 100) then 20 else perPage in
    invoke r := JobService.ListJobs userID page perPage in
    match r with
    | Err _ =>
      error_json StatusInternalServerError "SYS_006" "Failed to list jobs"
    | Ok (jobs, pagination) =>
      success_json StatusOK (DataPage jobs pagination)
        "Jobs retrieved successfully"
    end
  end.

(** [GetJob] *)
Definition GetJob (user idParam : Res uuid) : Prog HTTPResponse :=
  with_user_and_id user idParam (fun userID jobID =>
    invoke r := JobService.GetJob jobID userID in
    match r with
    | Err _ => error_json StatusNotFound "RES_003" "Job not found"
    | Ok job => success_json StatusOK (DataJob job) "Job retrieved successfully"
    end).

(** [CancelJob] *)
Definition CancelJob (user idParam : Res uuid) : Prog HTTPResponse :=
  with_user_and_id user idParam (fun userID jobID =>
    invoke r := JobService.CancelJob jobID userID in
    match r with
    | Err err => error_json StatusBadRequest "JOB_002" err
    | Ok _ => success_json StatusOK DataNil "Job cancelled successfully"
    end).

(** [DeleteJob] *)
Definition DeleteJob (user idParam : Res uuid) : Prog HTTPResponse :=
  with_user_and_id user idParam (fun userID jobID =>
    invoke r := JobService.DeleteJob jobID userID in
    match r with
    | Err err => error_json StatusBadRequest "JOB_003" err
    | Ok _ => success_json StatusOK DataNil "Job deleted successfully"
    end).

(** [GetJobResult] *)
Definition GetJobResult (user idParam : Res uuid) : Prog HTTPResponse :=
  with_user_and_id user idParam (fun userID jobID =>
    invoke r := JobService.GetJobResult jobID userID in
    match r with
    | Err _ => error_json StatusNotFound "RES_004" "Result not found"
    | Ok result =>
      success_json StatusOK (DataResult result) "Result retrieved successfully"
    end).
End JobHandler.

(** ** The running system

    The process holds the store, the goroutines started by [go
    s.processJob(...)] and the handlers of the requests being served.  One
    step is one operation of one task, so tasks interleave between any two
    store accesses.  A finished task stays in the pool as [Ret].  The
    process may stop and start again at any time: its goroutines and
    handlers are lost, the store is not.

    [uuid.New()] never returns a value it returned before: [issued] records
    the values handed out.  [JobService.ProcessNextJob] has no caller in the
    repository (no route and no worker), so no step launches it. *)

Inductive Task : Type :=
| Goroutine (jobID : uuid) (p : Prog unit)
| Handler (p : Prog HTTPResponse).

Inductive Request : Type :=
| ReqSubmit (user : Res uuid) (req : OCRJobRequest.t)
| ReqBatch (user : Res uuid) (req : BatchOCRJobRequest.t)
| ReqList (user : Res uuid) (page perPage : Z)
| ReqGet (user idParam : Res uuid)
| ReqCancel (user idParam : Res uuid)
| ReqDelete (user idParam : Res uuid)
| ReqResult (user idParam : Res uuid).

(** The routes of [main]. *)
Definition route (rq : Request) : Prog HTTPResponse :=
  match rq with
  | ReqSubmit user req => JobHandler.SubmitJob user req
  | ReqBatch user req => JobHandler.SubmitBatchJob user req
  | ReqList user page perPage => JobHandler.ListJobs user page perPage
  | ReqGet user idParam => JobHandler.GetJob user idParam
  | ReqCancel user idParam => JobHandler.CancelJob user idParam
  | ReqDelete user idParam => JobHandler.DeleteJob user idParam
  | ReqResult user idParam => JobHandler.GetJobResult user idParam
  end.

Record Sys : Type := mkSys {
  store : DB;
  tasks : list Task;
  issued : gset N
}.

Inductive Label : Type :=
| Run (i : nat) (e : Env)      (* task [i] performs its next operation *)
| Serve (rq : Request)         (* a request arrives and gets a handler *)
| Upsert (doc : Document.t)    (* the document service writes a row *)
| Restart.                     (* the process is restarted *)

(** One operation of a program: the continuation, the store, the job ids
    of the goroutines launched; [None] when the program has returned. *)
Definition step_prog {A} (p : Prog A) (e : Env) (db : DB)
    : option (Prog A * DB * list uuid) :=
  match p with
  | Ret _ => None
  | Do op k => let '(r, db') := exec op e db in Some (k r, db', launched op)
  end.

Definition step_task (t : Task) (e : Env) (db : DB)
    : option (Task * DB * list uuid) :=
  match t with
  | Goroutine jobID p =>
    match step_prog p e db with
    | Some (p', db', l) => Some (Goroutine jobID p', db', l)
    | None => None
    end
  | Handler p =>
    match step_prog p e db with
    | Some (p', db', l) => Some (Handler p', db', l)
    | None => None
    end
  end.

Definition spawn (jobID : uuid) : Task :=
  Goroutine jobID (JobService.processJob jobID).

Definition sys_step (s : Sys) (l : Label) : option Sys :=
  match l with
  | Run i e =>
    if decide (fresh e ∈ issued s) then None
    else
      match tasks s !! i with
      | None => None
      | Some t =>
        match step_task t e (store s) with
        | None => None
        | Some (t', db', ids) =>
          Some (mkSys db' (<[i := t']> (tasks s) ++ (spawn <$> ids))
                      ({[fresh e]} ∪ issued s))
        end
      end
  | Serve rq => Some (mkSys (store s) (tasks s ++ [Handler (route rq)]) (issued s))
  | Upsert doc =>
    Some (mkSys (with_documents (store s)
                   (<[Document.ID doc := doc]> (documents (store s))))
                (tasks s) (issued s))
  | Restart => Some (mkSys (store s) [] (issued s))
  end.

(** The process starts with no job, no result and no task. *)
Definition boot (docs : gmap N Document.t) : Sys :=
  mkSys (mkDB ∅ [] docs) [] ∅.

Fixpoint sys_run (s : Sys) (ls : list Label) : option Sys :=
  match ls with
  | [] => Some s
  | l :: ls' =>
    match sys_step s l with
    | Some s' => sys_run s' ls'
    | None => None
    end
  end.

Inductive reachable : Sys -> Prop :=
| reachable_boot docs : reachable (boot docs)
| reachable_step s l s' :
    reachable s -> sys_step s l = Some s' -> reachable s'.

(** ** Worked data and derived notions used by the properties *)

(** All pending rows, in queue order. *)
Definition pending_queue (db : DB) : list OCRJob.t :=
  merge_sort JobRepository.pending_order
    (filter (fun j => OCRJob.Status j = JobStatusPending) (JobRepository.rows db)).


(** The three jobs of the ordering example: A(priority 5, t = 1),
    B(priority 9, t = 2), C(priority 5, t = 0). *)
Definition queue_job (id : uuid) (priority : Z) (created : time) : OCRJob.t :=
  OCRJob.mk id 7%N 42%N JobStatusPending OCRModeDocument ResolutionBase
    priority 0 3 0 created None None None "".

Definition job_A : OCRJob.t := queue_job 1%N 5 1.
Definition job_B : OCRJob.t := queue_job 2%N 9 2.
Definition job_C : OCRJob.t := queue_job 3%N 5 0.

Definition queue_example : DB :=
  mkDB (<[1%N := job_A]> (<[2%N := job_B]> (<[3%N := job_C]> ∅))) [] ∅.

(** An environment in which nothing fails and the engine answers. *)
Definition engine_answer : OCRResponse.t :=
  OCRResponse.mk "text" "# text" "{}" 99 1200 1.

Definition calm (at_ : time) (id : uuid) : Env :=
  mkEnv at_ id None (Ok engine_answer) None 0.


(** The statuses from which no transition is meant to leave. *)
Definition terminal (s : JobStatus) : Prop :=
  s = JobStatusCompleted \/ s = JobStatusFailed \/ s = JobStatusCancelled.

(** The row of job [id], its status, and its result rows. *)
Definition job_row (db : DB) (id : uuid) : option OCRJob.t := ocr_jobs db !! id.

Definition job_status (db : DB) (id : uuid) : option JobStatus :=
  OCRJob.Status <$> job_row db id.

Definition results_for (db : DB) (id : uuid) : list OCRResult.t :=
  filter (fun r => OCRResult.JobID r = id) (ocr_results db).

(** The operations of a run, each with the status it left job [id] in. *)
Definition job_history (id : uuid) (tr : list Event)
    : list (Call * option JobStatus) :=
  (fun ev : Event => (ev.1, job_status ev.2 id)) <$> tr.

(** The response a finished handler produced. *)
Definition response_of (t : Task) : option HTTPResponse :=
  match t with
  | Handler (Ret r) => Some r
  | _ => None
  end.

(** *** A worked scenario: user 42, document 7, job 101 *)

Definition alice : uuid := 42%N.
Definition mallory : uuid := 43%N.

Definition the_document : Document.t := Document.mk 7%N alice "/data/scan.pdf" None.

Definition the_documents : gmap N Document.t := {[ 7%N := the_document ]}.

Definition the_request : OCRJobRequest.t :=
  OCRJobRequest.mk 7%N OCRModeDocument ResolutionBase 0.

(** The engine is unreachable. *)
Definition engine_down (at_ : time) (id : uuid) : Env :=
  mkEnv at_ id None (Err "connection refused") None 0.

(** Alice submits the request; her handler runs to its response (steps at
    times 1 to 4).  The job gets id 101 and goroutine 1 is launched. *)
Definition submitted : list Label :=
  [Serve (ReqSubmit (Ok alice) the_request);
   Run 0 (calm 1 100%N); Run 0 (calm 2 101%N);
   Run 0 (calm 3 102%N); Run 0 (calm 4 103%N)].

(** Goroutine 1 reads the job, claims it and fetches the document; its
    next operation is the engine call. *)
Definition dispatched : list Label :=
  submitted ++ [Run 1 (calm 5 104%N); Run 1 (calm 6 105%N); Run 1 (calm 7 106%N)].

(** While the engine works, Alice cancels the job (handler 2). *)
Definition cancelled_in_flight : list Label :=
  dispatched ++
  [Serve (ReqCancel (Ok alice) (Ok 101%N));
   Run 2 (calm 8 107%N); Run 2 (calm 9 108%N); Run 2 (calm 10 109%N)].

(** The engine answers and goroutine 1 inserts the result. *)
Definition result_saved (ls : list Label) : list Label :=
  ls ++ [Run 1 (calm 11 110%N); Run 1 (calm 12 111%N)].

(** Goroutine 1 performs its last write. *)
Definition last_write (ls : list Label) : list Label :=
  result_saved ls ++ [Run 1 (calm 13 112%N)].

(** The engine call fails; goroutine 1 goes through its retry branch and
    launches goroutine 2, which claims the job again at time 30. *)
Definition retried : list Label :=
  dispatched ++
  [Run 1 (engine_down 11 110%N); Run 1 (calm 12 111%N); Run 1 (calm 13 112%N);
   Run 1 (calm 14 113%N); Run 1 (calm 24 114%N); Run 1 (calm 25 115%N)].

Definition redispatched : list Label :=
  retried ++ [Run 2 (calm 29 116%N); Run 2 (calm 30 117%N)].

(** The state after a list of steps from the scenario's start. *)
Definition after (ls : list Label) : option Sys :=
  sys_run (boot the_documents) ls.

(** The store with job 101 pending, as [submitted] leaves it. *)
Definition pending_job : OCRJob.t :=
  OCRJob.mk 101%N 7%N alice JobStatusPending OCRModeDocument ResolutionBase
    0 0 3 0 2 None None None "".

Definition pending_store : DB :=
  mkDB {[ 101%N := pending_job ]} [] the_documents.

(** What an operation writes to the store, if the driver lets it. *)
Inductive Write : Type :=
| WNothing
| WCreate (job : OCRJob.t)
| WStatus (jobID : uuid) (status : JobStatus) (errorMessage : option string)
| WRetry (jobID : uuid)
| WDelete (jobID : uuid)
| WResult (result : OCRResult.t).

Definition write_of {R} (op : Op R) : Write :=
  match op with
  | JobCreate job => WCreate job
  | JobUpdateStatus jobID status errorMessage => WStatus jobID status errorMessage
  | JobIncrementRetryCount jobID => WRetry jobID
  | JobDelete jobID => WDelete jobID
  | ResultCreate result => WResult result
  | _ => WNothing
  end.

(** Job 101 after a list of steps of the scenario: its row, its
    [started_at], its status, the ids of its result rows. *)
Definition row_after (ls : list Label) : option OCRJob.t :=
  s ← after ls; job_row (store s) 101%N.

Definition started_after (ls : list Label) : option (option time) :=
  OCRJob.StartedAt <$> row_after ls.

Definition status_after (ls : list Label) : option JobStatus :=
  s ← after ls; job_status (store s) 101%N.

Definition results_after (ls : list Label) : option (list uuid) :=
  s ← after ls; Some (OCRResult.ID <$> results_for (store s) 101%N).

(** An environment whose driver works and whose engine is down. *)
Definition outage (i : nat) : Env := engine_down (Z.of_nat i) 0%N.

(** ** Invariants of the running system *)

Definition returned {A} (p : Prog A) : bool :=
  match p with Ret _ => true | Do _ _ => false end.

(** The goroutine a program is about to launch with its next operation. *)
Definition head_launch {A} (p : Prog A) : option uuid :=
  match p with
  | Ret _ => None
  | Do op _ => head (launched op)
  end.

(** A program that never increments a retry count, never inserts a result,
    writes no status but cancelled, creates only jobs whose retry count is
    within the maximum, and launches a dispatch only of a job it has just
    created, as its very next operation. *)
Fixpoint quiet {A} (p : Prog A) : Prop :=
  match p with
  | Ret _ => True
  | Do op k =>
    match op in Op R return (R -> Prog A) -> Prop with
    | JobCreate job => fun k =>
      OCRJob.RetryCount job <= OCRJob.MaxRetries job
      /\ (forall err, quiet (k (Err err)))
      /\ (forall j,
            match k (Ok j) with
            | Ret _ => False
            | Do op' k' =>
              launched op' = [OCRJob.ID j] /\ forall r, quiet (k' r)
            end)
    | JobUpdateStatus _ status _ => fun k =>
      status = JobStatusCancelled /\ forall r, quiet (k r)
    | JobIncrementRetryCount _ => fun _ => False
    | ResultCreate _ => fun _ => False
    | Go _ => fun _ => False
    | JobGetByID _ => fun k => forall r, quiet (k r)
    | JobCountByUserID _ => fun k => forall r, quiet (k r)
    | JobSelectByUserID _ _ _ => fun k => forall r, quiet (k r)
    | JobGetPendingJobs _ => fun k => forall r, quiet (k r)
    | JobDelete _ => fun k => forall r, quiet (k r)
    | DocumentGetByID _ => fun k => forall r, quiet (k r)
    | ResultGetByJobID _ => fun k => forall r, quiet (k r)
    | ProcessDocument _ _ _ => fun k => forall r, quiet (k r)
    | TimeNow => fun k => forall r, quiet (k r)
    | Sleep _ => fun k => forall r, quiet (k r)
    end k
  end.

(** A program whose next operation launches the dispatch of [id] and which
    is quiet afterwards. *)
Definition launches {A} (id : uuid) (p : Prog A) : Prop :=
  match p with
  | Ret _ => False
  | Do op k => launched op = [id] /\ forall r, quiet (k r)
  end.

(** The snapshot [job] a dispatch took still agrees with the row on the
    two retry columns. *)
Definition snapshot_agrees (db : DB) (id : uuid) (job : OCRJob.t) : Prop :=
  forall j, ocr_jobs db !! id = Some j ->
    OCRJob.RetryCount j = OCRJob.RetryCount job
    /\ OCRJob.MaxRetries j = OCRJob.MaxRetries job.

Definition may_retry (db : DB) (id : uuid) : Prop :=
  forall j, ocr_jobs db !! id = Some j ->
    OCRJob.RetryCount j < OCRJob.MaxRetries j.

(** Where a dispatch goroutine of job [id] can be, and what it can rely on
    there. *)
Inductive dispatch_stage (db : DB) (id : uuid) : Prog unit -> Prop :=
| at_start :
    results_for db id = [] ->
    dispatch_stage db id (JobService.processJob id)
| at_claim job :
    snapshot_agrees db id job -> results_for db id = [] ->
    dispatch_stage db id (JobService.processJob_claim id job)
| at_document job :
    snapshot_agrees db id job -> results_for db id = [] ->
    dispatch_stage db id (JobService.processJob_document id job)
| at_engine job document :
    snapshot_agrees db id job -> results_for db id = [] ->
    dispatch_stage db id (JobService.processJob_engine id job document)
| at_engine_failed job err :
    snapshot_agrees db id job -> results_for db id = [] ->
    dispatch_stage db id (JobService.processJob_engine_failed id job err)
| at_retry :
    may_retry db id -> results_for db id = [] ->
    dispatch_stage db id (JobService.processJob_retry id)
| at_requeue :
    results_for db id = [] ->
    dispatch_stage db id (JobService.processJob_requeue id)
| at_backoff :
    results_for db id = [] ->
    dispatch_stage db id (JobService.processJob_backoff id)
| at_launch :
    results_for db id = [] ->
    dispatch_stage db id (Do (Go id) (fun _ => Ret tt))
| at_save job ocrResponse :
    results_for db id = [] ->
    dispatch_stage db id (JobService.processJob_save id job ocrResponse)
| at_fail errorMsg :
    dispatch_stage db id (JobService.processJob_fail id errorMsg)
| at_complete :
    (is_Some (ocr_jobs db !! id) -> results_for db id <> []) ->
    dispatch_stage db id (JobService.processJob_complete id)
| at_end :
    dispatch_stage db id (Ret tt).

Definition task_ok (db : DB) (t : Task) : Prop :=
  match t with
  | Goroutine jobID p => dispatch_stage db jobID p
  | Handler p =>
    quiet p \/ exists id, launches id p /\ results_for db id = []
  end.

(** The job whose dispatch a task holds: a goroutine that has not returned
    holds its own job; a handler about to launch a dispatch holds that job. *)
Definition owner (t : Task) : option uuid :=
  match t with
  | Goroutine jobID p => if returned p then None else Some jobID
  | Handler p => head_launch p
  end.

(** What holds of the two tables in every reachable state. *)
Record tables_ok (db : DB) : Prop := mkTablesOk {
  retries_bounded :
    forall id j, ocr_jobs db !! id = Some j ->
      OCRJob.RetryCount j <= OCRJob.MaxRetries j;
  results_reference_jobs :
    forall r, r ∈ ocr_results db -> is_Some (ocr_jobs db !! OCRResult.JobID r);
  results_single :
    forall id, (length (results_for db id) <= 1)%nat;
  completed_has_result :
    forall id j, ocr_jobs db !! id = Some j ->
      OCRJob.Status j = JobStatusCompleted -> results_for db id <> []
}.

Record sys_ok (s : Sys) : Prop := mkSysOk {
  sys_tables : tables_ok (store s);
  sys_jobs_issued : forall id, is_Some (ocr_jobs (store s) !! id) -> id ∈ issued s;
  sys_tasks : Forall (task_ok (store s)) (tasks s);
  sys_owners : NoDup (omap owner (tasks s));
  sys_owners_issued : forall t id, t ∈ tasks s -> owner t = Some id -> id ∈ issued s
}.

(** Job [id] is not disturbed between [db] and [db']: if it still exists
    its retry columns are as before, and its result rows are as before or
    it is gone together with them. *)
Definition undisturbed (id : uuid) (db db' : DB) : Prop :=
  (forall j', ocr_jobs db' !! id = Some j' ->
     exists j, ocr_jobs db !! id = Some j
               /\ OCRJob.RetryCount j' = OCRJob.RetryCount j
               /\ OCRJob.MaxRetries j' = OCRJob.MaxRetries j)
  /\ (results_for db' id = results_for db id
      \/ (ocr_jobs db' !! id = None /\ results_for db' id = [])).

(** The next operation of a task, as far as it writes. *)
Definition head_write {A} (p : Prog A) : Write :=
  match p with
  | Ret _ => WNothing
  | Do op _ => write_of op
  end.

Definition next_write (t : Task) : Write :=
  match t with
  | Goroutine _ p => head_write p
  | Handler p => head_write p
  end.

(** Every operation leaves the store as it is or changes it in one of
    five ways. *)
Inductive exec_case (w : Write) (e : Env) (db db' : DB) : Prop :=
| exec_same : db' = db -> exec_case w e db db'
| exec_create job :
    w = WCreate job -> ocr_jobs db !! fresh e = None ->
    db' = with_jobs db
            (<[fresh e := JobRepository.stamped (fresh e) (now e) job]> (ocr_jobs db)) ->
    exec_case w e db db'
| exec_status id status msg j :
    w = WStatus id status msg -> ocr_jobs db !! id = Some j ->
    db' = with_jobs db
            (<[id := JobRepository.status_update status msg (now e) j]> (ocr_jobs db)) ->
    exec_case w e db db'
| exec_retry id j :
    w = WRetry id -> ocr_jobs db !! id = Some j ->
    db' = with_jobs db (<[id := JobRepository.set_retry_incremented j]> (ocr_jobs db)) ->
    exec_case w e db db'
| exec_delete id j :
    w = WDelete id -> ocr_jobs db !! id = Some j ->
    db' = mkDB (delete id (ocr_jobs db))
               (filter (fun r => OCRResult.JobID r <> id) (ocr_results db))
               (documents db) ->
    exec_case w e db db'
| exec_result r j :
    w = WResult r -> ocr_jobs db !! OCRResult.JobID r = Some j ->
    db' = with_results db
            (ocr_results db ++ [ResultRepository.stamped (fresh e) (now e) r]) ->
    exec_case w e db db'.


(** What disturbs job [id]: an increment of its retry count, a result row
    for it, or its creation. *)
Definition disturbs (w : Write) (e : Env) (id : uuid) : Prop :=
  match w with
  | WRetry id' => id' = id
  | WResult r => OCRResult.JobID r = id
  | WCreate _ => fresh e = id
  | _ => False
  end.


(** What the invariants require of a write in store [db]. *)
Definition write_allowed (db : DB) (w : Write) : Prop :=
  match w with
  | WCreate job => OCRJob.RetryCount job <= OCRJob.MaxRetries job
  | WStatus id status _ =>
    status = JobStatusCompleted ->
    is_Some (ocr_jobs db !! id) -> results_for db id <> []
  | WRetry id => may_retry db id
  | WResult r => results_for db (OCRResult.JobID r) = []
  | _ => True
  end.




(** ** Vocabulary for the properties of the repositories and the service *)

(** The columns no statement of the job repository assigns after the
    insert: [j'] has them as [j] has. *)
Definition same_identity (j j' : OCRJob.t) : Prop :=
  OCRJob.ID j' = OCRJob.ID j
  /\ OCRJob.DocumentID j' = OCRJob.DocumentID j
  /\ OCRJob.UserID j' = OCRJob.UserID j
  /\ OCRJob.Mode j' = OCRJob.Mode j
  /\ OCRJob.Resolution j' = OCRJob.Resolution j
  /\ OCRJob.Priority j' = OCRJob.Priority j
  /\ OCRJob.MaxRetries j' = OCRJob.MaxRetries j
  /\ OCRJob.CreatedAt j' = OCRJob.CreatedAt j
  /\ OCRJob.Metadata j' = OCRJob.Metadata j.

(** The goroutines launched in a run, in order. *)
Definition launched_in (tr : list Event) : list uuid :=
  tr ≫= (fun ev : Event => match ev.1 with Called op => launched op end).

(** Every operation a program can reach, whatever the operations before
    it returned, satisfies [P]. *)
Fixpoint all_ops {A} (P : forall R, Op R -> Prop) (p : Prog A) : Prop :=
  match p with
  | Ret _ => True
  | Do op k => P _ op /\ forall r, all_ops P (k r)
  end.

(** An operation that writes at most the row and the results of job [id]
    and launches at most a dispatch of that job. *)
Definition confined_to (id : uuid) (R : Type) (op : Op R) : Prop :=
  match op with
  | JobCreate _ => False
  | JobDelete _ => False
  | JobUpdateStatus jobID _ _ => jobID = id
  | JobIncrementRetryCount jobID => jobID = id
  | ResultCreate result => OCRResult.JobID result = id
  | Go jobID => jobID = id
  | _ => True
  end.

(** The shapes of the writes in [services]: a new job has retry count 0
    and at most 3 retries; only the status failed comes with a message. *)
Definition service_op (R : Type) (op : Op R) : Prop :=
  match op with
  | JobCreate job => OCRJob.RetryCount job = 0 /\ OCRJob.MaxRetries job = 3
  | JobUpdateStatus _ status errorMessage =>
    match status with
    | JobStatusFailed => is_Some errorMessage
    | _ => errorMessage = None
    end
  | _ => True
  end.

Definition task_prog_ok (t : Task) : Prop :=
  match t with
  | Goroutine _ p => all_ops service_op p
  | Handler p => all_ops service_op p
  end.

(** What the columns of a job row stored under [id] satisfy in every
    reachable state. *)
Definition row_ok (id : uuid) (j : OCRJob.t) : Prop :=
  OCRJob.ID j = id
  /\ OCRJob.MaxRetries j = 3
  /\ 0 <= OCRJob.RetryCount j
  /\ (OCRJob.ProgressPercentage j = 0 \/ OCRJob.ProgressPercentage j = 100)
  /\ (OCRJob.Status j = JobStatusProcessing -> is_Some (OCRJob.StartedAt j))
  /\ (OCRJob.Status j = JobStatusCompleted ->
      OCRJob.ProgressPercentage j = 100 /\ is_Some (OCRJob.CompletedAt j))
  /\ (OCRJob.Status j = JobStatusFailed ->
      OCRJob.ProgressPercentage j = 0 /\ is_Some (OCRJob.CompletedAt j)
      /\ is_Some (OCRJob.ErrorMessage j))
  /\ (OCRJob.Status j = JobStatusCancelled ->
      OCRJob.ProgressPercentage j = 100 /\ is_Some (OCRJob.CompletedAt j)).

(** The user a request is made for and the job it names, as the
    middleware and the router hand them to the handler. *)
Definition request_user (rq : Request) : Res uuid :=
  match rq with
  | ReqSubmit user _ => user
  | ReqBatch user _ => user
  | ReqList user _ _ => user
  | ReqGet user _ => user
  | ReqCancel user _ => user
  | ReqDelete user _ => user
  | ReqResult user _ => user
  end.

(** The result row [processJob] builds from the engine's answer (lines
    256-266), with the id and the time [Create] stamps on it. *)
Definition dispatch_result
    (jobID : uuid) (job : OCRJob.t) (answer : OCRResponse.t)
    (id : uuid) (at_ : time) : OCRResult.t :=
  OCRResult.mk id jobID (OCRJob.DocumentID job)
    (OCRResponse.Text answer) (OCRResponse.Markdown answer)
    (OCRResponse.StructuredData answer) (OCRResponse.Confidence answer)
    (OCRResponse.ProcessingTime answer) (OCRResponse.NumPages answer) at_.

(** An operation that writes nothing and launches nothing. *)
Definition reads_only (R : Type) (op : Op R) : Prop :=
  write_of op = WNothing /\ launched op = [].

(** *** More worked data: a steady environment, a finished job *)

(** Nothing fails, the engine answers; operation [i] happens at time [i]
    and draws the id [200 + i]. *)
Definition steady (i : nat) : Env := calm (Z.of_nat i) (200 + N.of_nat i)%N.

(** The driver refuses operation 4 and no other. *)
Definition flaky (i : nat) : Env :=
  mkEnv (Z.of_nat i) (200 + N.of_nat i)%N
    (if decide (i = 4%nat) then Some "connection reset" else None)
    (Ok engine_answer) None 0.

(** The driver works, but the stream of rows of a query breaks before
    its first row. *)
Definition interrupted (at_ : time) : Env :=
  mkEnv at_ 0%N None (Ok engine_answer) (Some 0%nat) 0.

Definition finished_job : OCRJob.t :=
  OCRJob.mk 101%N 7%N alice JobStatusCompleted OCRModeDocument ResolutionBase
    0 0 3 100 2 (Some 6) (Some 13) None "".

Definition the_result_row : OCRResult.t :=
  OCRResult.mk 300%N 101%N 7%N "text" "# text" "{}" 99 1200 1 12.

Definition finished_store : DB :=
  mkDB {[ 101%N := finished_job ]} [the_result_row] the_documents.

(** The document of the scenario after its soft deletion at time 50. *)
Definition orphaned_store : DB :=
  mkDB {[ 101%N := pending_job ]} []
    {[ 7%N := Document.mk 7%N alice "/data/scan.pdf" (Some 50) ]}.

(** The state the scenario is in once Alice's submission has been served:
    job 101 is pending and goroutine 1 has been launched for it. *)
Definition submitted_state : Sys := default (boot the_documents) (after submitted).

(** The request of the scenario as the service receives it. *)
Definition the_submission : JobSubmissionRequest.t :=
  JobSubmissionRequest.mk 7%N OCRModeDocument ResolutionBase 0 "".

(** ** The rate limiter of the auth routes ([middleware/ratelimit.go])

    A [time.Time] is a count of nanoseconds; [Time.Sub] returns a
    [time.Duration], an [int64] on which the difference saturates. *)

Definition Minute : Z := 60 * Second.

Definition Sub (a b : time) : Z := Z.max min_int (Z.min max_int (a - b)).

Module RateLimiter.

Record Visitor : Type := mkVisitor {
  tokens : Z;
  lastSeen : time;
  lastRefill : time
}.

Record t : Type := mk {
  visitors : gmap string Visitor;
  rate : Z;
  window : Z
}.

(** [NewRateLimiter] (its cleanup goroutine is [cleanup] below, run at
    every tick). *)
Definition NewRateLimiter (requests window : Z) : t := mk ∅ requests window.

Definition with_visitor (rl : t) (ip : string) (v : Visitor) : t :=
  mk (<[ip := v]> (visitors rl)) (rate rl) (window rl).

(** [allow], under the mutex; [now] is its reading of the clock. *)
Definition allow (rl : t) (now : time) (ip : string) : bool * t :=
  match visitors rl !! ip with
  | None =>
    (true, with_visitor rl ip (mkVisitor (wrap_int (rate rl - 1)) now now))
  | Some v =>
    let elapsed := Sub now (lastRefill v) in
    let v :=
      if decide (elapsed >= window rl)
      then mkVisitor (rate rl) (lastSeen v) now
      else v in
    let v := mkVisitor (tokens v) now (lastRefill v) in
    if decide (tokens v > 0) then
      (true,
       with_visitor rl ip
         (mkVisitor (wrap_int (tokens v - 1)) (lastSeen v) (lastRefill v)))
    else (false, with_visitor rl ip v)
  end.

(** One round of the loop of [cleanupVisitors], at a tick read as [now]. *)
Definition cleanup (rl : t) (now : time) : t :=
  mk (filter (fun kv => ~ Sub now (lastSeen kv.2) > 10 * Minute) (visitors rl))
     (rate rl) (window rl).

(** The requests of a list of clients, served in order: the answers of
    [allow] and the limiter afterwards. *)
Fixpoint serve (rl : t) (requests : list (time * string)) : list bool * t :=
  match requests with
  | [] => ([], rl)
  | (now, ip) :: rest =>
    let '(ok, rl1) := allow rl now ip in
    let '(oks, rl2) := serve rl1 rest in
    (ok :: oks, rl2)
  end.

(** The answers given to client [ip]. *)
Definition answers_to (ip : string) (requests : list (time * string))
    (answers : list bool) : list bool :=
  (filter (fun x => x.1.2 = ip) (zip requests answers)).*2.
End RateLimiter.

(** The limiter of [main]: 10 requests per minute.  One client sends a
    first request at time 0 and ten more, one per second. *)
Definition auth_limiter : RateLimiter.t := RateLimiter.NewRateLimiter 10 Minute.

Definition client : string := "203.0.113.7".

Definition burst : list (time * string) :=
  (fun i : nat => (Z.of_nat i * Second, client)) <$> seq 1 10.

(** A limiter that saw the client once, at time 0. *)
Definition idle_limiter : RateLimiter.t :=
  RateLimiter.mk {[ client := RateLimiter.mkVisitor 9 0 0 ]} 10 Minute.
(** * Properties *)

(** ** The pending queue *)

Section PendingQueue.
Import OCRJob JobRepository.

#[local] Instance pending_order_total : Total pending_order.
Proof. intros a b. unfold pending_order. lia. Qed.

#[local] Instance pending_order_trans : Transitive pending_order.
Proof. intros a b c. unfold pending_order. lia. Qed.

Lemma limit_offset_ok {A} (lim off : Z) (l : list A) :
  0 <= lim -> 0 <= off ->
  limit_offset lim off l = take (Z.to_nat lim) (drop (Z.to_nat off) l).
Proof.
  intros Hl Ho. unfold limit_offset. by rewrite decide_False by lia.
Qed.


Lemma limit_offset_length {A} (lim off : Z) (l : list A) :
  Z.of_nat (length (limit_offset lim off l)) <= Z.max 0 lim.
Proof.
  unfold limit_offset. case_decide; cbn; [lia|]. rewrite length_take. lia.
Qed.


Lemma rows_read_prefix {A} (e : Env) (l : list A) : rows_read e l `prefix_of` l.
Proof.
  unfold rows_read. destruct (cut e) as [k|]; [|done].
  exists (drop k l). by rewrite take_drop.
Qed.

Lemma rows_read_all {A} (e : Env) (l : list A) :
  cut e = None -> rows_read e l = l.
Proof. intros H. unfold rows_read. by rewrite H. Qed.

Lemma rows_read_cut {A} (e : Env) (l : list A) k :
  cut e = Some k -> length (rows_read e l) = (k `min` length l)%nat.
Proof. intros H. unfold rows_read. rewrite H. apply length_take. Qed.

Lemma pending_queue_sorted db : StronglySorted pending_order (pending_queue db).
Proof. apply StronglySorted_merge_sort; apply _. Qed.

Lemma pending_queue_elem db j :
  j ∈ pending_queue db <-> j ∈ rows db /\ Status j = JobStatusPending.
Proof.
  unfold pending_queue. rewrite merge_sort_Permutation.
  rewrite list_elem_of_filter. tauto.
Qed.

Lemma GetPendingJobs_queue e db limit :
  fault e = None ->
  GetPendingJobs e db limit
  = Ok (rows_read e (limit_offset limit 0 (pending_queue db))).
Proof. intros Hf. unfold GetPendingJobs. by rewrite Hf. Qed.

Lemma GetPendingJobs_inv e db limit jobs :
  GetPendingJobs e db limit = Ok jobs ->
  fault e = None
  /\ jobs = rows_read e (limit_offset limit 0 (pending_queue db)).
Proof.
  unfold GetPendingJobs. destruct (fault e); [discriminate|].
  by intros [= <-].
Qed.

(** What the row loop of [GetPendingJobs] can collect: a head of the
    pending queue. *)
Lemma pending_head_prefix e db limit :
  rows_read e (limit_offset limit 0 (pending_queue db))
    `prefix_of` pending_queue db.
Proof.
  etrans; [apply rows_read_prefix|].
  unfold limit_offset. case_decide; [apply prefix_nil|].
  cbn. exists (drop (Z.to_nat limit) (pending_queue db)). by rewrite take_drop.
Qed.
End PendingQueue.

(** C8. [GetPendingJobs] (the service method forwards to the repository
    query) never changes the store and fails only when [Query] itself
    returns an error.  For every store and every limit its answer holds
    only rows of status pending, every earlier row having a higher priority
    than every later one or the same priority and a creation time not after
    it; the answer is a head of the whole pending queue, of at most [limit]
    rows (none if the limit is negative: the server's refusal is never
    read), and exactly that many when more jobs are pending and the stream
    of rows is not cut; a stream that breaks after [k] rows gives at most
    [k] rows and no error.  For A(5,1), B(9,2), C(5,0) the answer is
    [B; C; A]. *)
Theorem C8_pending_queue_order :
  (forall (env : nat -> Env) (n : nat) (db : DB) (limit : Z),
     store_of (run (JobService.GetPendingJobs limit) env n db) = db /\
     match result_of (run (JobService.GetPendingJobs limit) env n db) with
     | Ok jobs =>
       fault (env n) = None
       /\ Forall (fun j => OCRJob.Status j = JobStatusPending) jobs
       /\ StronglySorted JobRepository.pending_order jobs
       /\ (forall j, j ∈ jobs -> j ∈ JobRepository.rows db)
       /\ Z.of_nat (length jobs) <= Z.max 0 limit
       /\ (forall k, cut (env n) = Some k -> (length jobs <= k)%nat)
       /\ exists rest,
            StronglySorted JobRepository.pending_order (jobs ++ rest)
            /\ jobs ++ rest ≡ₚ
               filter (fun j => OCRJob.Status j = JobStatusPending)
                      (JobRepository.rows db)
            /\ (rest <> [] -> cut (env n) = None ->
                Z.of_nat (length jobs) = Z.max 0 limit)
     | Err msg =>
       exists err, fault (env n) = Some err
                   /\ msg = ("failed to get pending jobs: " ++ err)%string
     end)
  /\ result_of (run (JobService.GetPendingJobs 10) (fun _ => calm 0 0%N) 0
                    queue_example)
     = Ok [job_B; job_C; job_A].
Proof.
  split; [|vm_compute; reflexivity].
  intros env n db limit. cbn.
  split; [reflexivity|].
  destruct (JobRepository.GetPendingJobs (env n) db limit) as [jobs|msg] eqn:E.
  - apply GetPendingJobs_inv in E as [Hf ->].
    pose proof (pending_queue_sorted db) as Hs.
    destruct (pending_head_prefix (env n) db limit) as [rest Hrest].
    set (jobs := rows_read (env n)
                   (JobRepository.limit_offset limit 0 (pending_queue db))) in *.
    rewrite Hrest in Hs.
    assert (Hin : forall j, j ∈ jobs -> j ∈ pending_queue db).
    { intros j Hj. rewrite Hrest. apply elem_of_app. by left. }
    assert (Hlen : Z.of_nat (length jobs) <= Z.max 0 limit).
    { etrans; [|apply (limit_offset_length limit 0 (pending_queue db))].
      apply inj_le, prefix_length, rows_read_prefix. }
    split; [exact Hf|]. split.
    { apply Forall_forall. intros j Hj. apply Hin, pending_queue_elem in Hj.
      tauto. }
    split; [eapply StronglySorted_app_1_l, Hs|]. split.
    { intros j Hj. apply Hin, pending_queue_elem in Hj. tauto. }
    split; [exact Hlen|]. split.
    { intros k Hk. subst jobs. rewrite (rows_read_cut _ _ _ Hk). lia. }
    exists rest. split; [exact Hs|]. split.
    { rewrite <- Hrest. apply merge_sort_Permutation. }
    intros Hne Hcut. subst jobs. rewrite rows_read_all in Hrest |- * by done.
    unfold JobRepository.limit_offset in Hrest |- *.
    case_decide as Hneg; [cbn; lia|].
    change (drop (Z.to_nat 0) (pending_queue db)) with (pending_queue db) in *.
    rewrite length_take.
    destruct (decide (Z.to_nat limit <= length (pending_queue db))%nat);
      [lia|].
    exfalso. apply Hne. rewrite take_ge in Hrest by lia.
    apply (f_equal length) in Hrest. rewrite length_app in Hrest.
    apply nil_length_inv. lia.
  - unfold JobRepository.GetPendingJobs in E.
    destruct (fault (env n)) as [err|] eqn:Hf; [|discriminate].
    injection E as <-. eauto.
Qed.

(** ** Pagination *)

Lemma wrap_int_id z : min_int <= z <= max_int -> wrap_int z = z.
Proof.
  unfold wrap_int, min_int, max_int. intros H.
  rewrite Z.mod_small by lia. lia.
Qed.

Lemma CountByUserID_inv e db userID total :
  JobRepository.CountByUserID e db userID = Ok total ->
  0 <= total <= max_int
  /\ total = Z.of_nat (length (filter (fun j => OCRJob.UserID j = userID)
                                      (JobRepository.rows db))).
Proof.
  unfold JobRepository.CountByUserID. destruct (fault e); [discriminate|].
  case_decide; [|discriminate]. intros [= <-]. split; [lia|reflexivity].
Qed.

(** What [ListJobs] returns, in terms of the two repository statements. *)
Lemma ListJobs_inv env n db userID page perPage jobs pg :
  result_of (run (JobService.ListJobs userID page perPage) env n db)
    = Ok (jobs, pg) ->
  let page' := if decide (page < 1) then 1 else page in
  let perPage' := if decide (perPage < 1 \/ perPage > 100) then 20 else perPage in
  exists total,
    JobRepository.CountByUserID (env n) db userID = Ok total
    /\ pg = Pagination.mk page' perPage' total
              (Z.quot (wrap_int (wrap_int (total + perPage') - 1)) perPage')
              (bool_decide
                 (page' < Z.quot (wrap_int (wrap_int (total + perPage') - 1)) perPage'))
              (bool_decide (page' > 1)).
Proof.
  unfold JobService.ListJobs, JobService.GetByUserID. cbn.
  destruct (JobRepository.CountByUserID (env n) db userID) as [total|] eqn:Ec;
    cbn; [|discriminate].
  destruct (JobRepository.SelectByUserID _ _ _ _ _) as [js|]; cbn;
    [|discriminate].
  intros [= <- <-]. exists total. split; reflexivity.
Qed.

(** C10. When [ListJobs] succeeds (and the user's job count leaves room
    for the addition in a Go [int]), the pagination it returns carries the
    clamped page and page size, the count of the user's jobs, their
    quotient rounded up as the number of pages, [HasNext] exactly when the
    page is before the last one and [HasPrev] exactly when it is after the
    first. *)
Theorem C10_pagination_consistent
    (env : nat -> Env) (n : nat) (db : DB) (userID : uuid) (page perPage : Z)
    (jobs : list OCRJob.t) (pg : Pagination.t) :
  result_of (run (JobService.ListJobs userID page perPage) env n db)
    = Ok (jobs, pg) ->
  Pagination.Total pg <= max_int - 100 ->
  Pagination.Page pg = Z.max 1 page
  /\ Pagination.PerPage pg = (if decide (1 <= perPage <= 100) then perPage else 20)
  /\ Pagination.Total pg
     = Z.of_nat (length (filter (fun j => OCRJob.UserID j = userID)
                                (JobRepository.rows db)))
  /\ (Pagination.TotalPages pg - 1) * Pagination.PerPage pg < Pagination.Total pg
     <= Pagination.TotalPages pg * Pagination.PerPage pg
  /\ (Pagination.HasNext pg = true <-> Pagination.Page pg < Pagination.TotalPages pg)
  /\ (Pagination.HasPrev pg = true <-> Pagination.Page pg > 1).
Proof.
  intros Hrun Hroom.
  apply ListJobs_inv in Hrun as (total & Hc & ->).
  apply CountByUserID_inv in Hc as [Htot Hlen].
  cbn in Hroom |- *.
  set (pp := if decide (perPage < 1 \/ perPage > 100) then 20 else perPage).
  assert (Hpp : 1 <= pp <= 100) by (subst pp; case_decide; lia).
  assert (Hw : wrap_int (wrap_int (total + pp) - 1) = total + pp - 1).
  { unfold max_int, min_int in *.
    rewrite (wrap_int_id (total + pp)) by (unfold max_int, min_int; lia).
    apply wrap_int_id. unfold max_int, min_int. lia. }
  rewrite Hw. rewrite Z.quot_div_nonneg by lia.
  pose proof (Z.div_mod (total + pp - 1) pp ltac:(lia)) as Hdm.
  pose proof (Z.mod_pos_bound (total + pp - 1) pp ltac:(lia)) as Hm.
  repeat split.
  - case_decide; lia.
  - subst pp. repeat case_decide; lia.
  - exact Hlen.
  - nia.
  - nia.
  - intros H. apply bool_decide_eq_true in H. exact H.
  - intros H. apply bool_decide_eq_true. exact H.
  - intros H. apply bool_decide_eq_true in H. exact H.
  - intros H. apply bool_decide_eq_true. exact H.
Qed.

Lemma C10_pagination_consistent_witness :
  exists jobs pg,
    result_of (run (JobService.ListJobs 42%N 1 2) (fun _ => calm 0 0%N) 0
                   queue_example) = Ok (jobs, pg)
    /\ Pagination.Total pg = 3 /\ Pagination.PerPage pg = 2
    /\ (Pagination.TotalPages pg - 1) * 2 < 3 <= Pagination.TotalPages pg * 2
    /\ (Pagination.HasNext pg = true <-> 1 < Pagination.TotalPages pg).
Proof.
  exists [job_B; job_A], (Pagination.mk 1 2 3 2 true false).
  assert (H1 : result_of (run (JobService.ListJobs 42%N 1 2)
                              (fun _ => calm 0 0%N) 0 queue_example)
               = Ok ([job_B; job_A], Pagination.mk 1 2 3 2 true false))
    by (vm_compute; reflexivity).
  assert (H2 : Pagination.Total (Pagination.mk 1 2 3 2 true false)
               <= max_int - 100) by (vm_compute; discriminate).
  destruct (C10_pagination_consistent _ _ _ _ _ _ _ _ H1 H2)
    as (_ & _ & _ & Hc & Hn & _).
  split; [exact H1|]. split; [reflexivity|]. split; [reflexivity|].
  split; [exact Hc|exact Hn].
Defined.

(** ** Simple facts about the repository statements *)

Lemma GetByID_found e db id job :
  fault e = None -> ocr_jobs db !! id = Some job ->
  JobRepository.GetByID e db id = Ok job.
Proof. intros Hf Hj. unfold JobRepository.GetByID. by rewrite Hf, Hj. Qed.

Lemma GetByID_missing e db id :
  fault e = None -> ocr_jobs db !! id = None ->
  JobRepository.GetByID e db id = Err "job not found".
Proof. intros Hf Hj. unfold JobRepository.GetByID. by rewrite Hf, Hj. Qed.

Lemma GetByID_inv e db id job :
  JobRepository.GetByID e db id = Ok job -> ocr_jobs db !! id = Some job.
Proof.
  unfold JobRepository.GetByID. destruct (fault e); [discriminate|].
  destruct (ocr_jobs db !! id); [|discriminate]. by intros [= ->].
Qed.

Lemma UpdateStatus_found e db id status msg job :
  fault e = None -> ocr_jobs db !! id = Some job ->
  JobRepository.UpdateStatus e db id status msg
  = (Ok tt,
     with_jobs db
       (<[id := JobRepository.status_update status msg (now e) job]> (ocr_jobs db))).
Proof. intros Hf Hj. unfold JobRepository.UpdateStatus. by rewrite Hf, Hj. Qed.

(** ** Cancellation by the owner *)

(** C6 (amended). Cancelling a pending or processing job as its owner,
    with a working driver, succeeds and rewrites exactly that row: status
    cancelled, [completed_at] the time of the update, and
    [progress_percentage] 100 (the update statement of [UpdateStatus]
    without an error message writes it for every terminal status); every
    other field of the job, every other job, the results and the documents
    are as before. *)
Theorem C6_cancel_effect
    (env : nat -> Env) (n : nat) (db : DB) (jobID : uuid) (job : OCRJob.t) :
  ocr_jobs db !! jobID = Some job ->
  OCRJob.Status job = JobStatusPending \/ OCRJob.Status job = JobStatusProcessing ->
  fault (env n) = None -> fault (env (S n)) = None ->
  let out := run (JobService.CancelJob jobID (OCRJob.UserID job)) env n db in
  result_of out = Ok tt
  /\ store_of out
     = mkDB (<[jobID :=
                OCRJob.mk (OCRJob.ID job) (OCRJob.DocumentID job)
                  (OCRJob.UserID job) JobStatusCancelled (OCRJob.Mode job)
                  (OCRJob.Resolution job) (OCRJob.Priority job)
                  (OCRJob.RetryCount job) (OCRJob.MaxRetries job) 100
                  (OCRJob.CreatedAt job) (OCRJob.StartedAt job)
                  (Some (now (env (S n)))) (OCRJob.ErrorMessage job)
                  (OCRJob.Metadata job)]> (ocr_jobs db))
            (ocr_results db) (documents db).
Proof.
  intros Hj Hst Hf0 Hf1. unfold JobService.CancelJob. cbn.
  rewrite (GetByID_found _ _ _ _ Hf0 Hj).
  destruct (decide (OCRJob.UserID job <> OCRJob.UserID job)) as [Hne|_];
    [congruence|].
  case_decide as Hterm.
  { destruct Hst as [Hs|Hs]; rewrite Hs in Hterm;
      destruct Hterm as [?|[?|?]]; discriminate. }
  cbn. rewrite (UpdateStatus_found _ _ _ _ _ _ Hf1 Hj). cbn.
  split; [reflexivity|]. reflexivity.
Qed.

Lemma C6_cancel_effect_witness :
  result_of (run (JobService.CancelJob 101%N alice) (fun _ => calm 9 0%N) 0
                 pending_store) = Ok tt
  /\ OCRJob.ProgressPercentage
       <$> job_row (store_of (run (JobService.CancelJob 101%N alice)
                                  (fun _ => calm 9 0%N) 0 pending_store)) 101%N
     = Some 100.
Proof.
  destruct (C6_cancel_effect (fun _ => calm 9 0%N) 0 pending_store 101%N
              pending_job eq_refl (or_introl eq_refl) eq_refl eq_refl)
    as [Hr Hs].
  split; [exact Hr|].
  change alice with (OCRJob.UserID pending_job).
  rewrite Hs. reflexivity.
Defined.

(** C6, as stated, fails on the job of the scenario: it is pending with
    progress 0 after the submission, and the owner's cancellation leaves it
    cancelled with progress 100. *)
Lemma C6_progress_not_preserved :
  (store <$> after submitted) = Some pending_store
  /\ OCRJob.ProgressPercentage <$> job_row pending_store 101%N = Some 0
  /\ result_of (run (JobService.CancelJob 101%N alice) (fun _ => calm 9 0%N) 0
                    pending_store) = Ok tt
  /\ OCRJob.ProgressPercentage
       <$> job_row (store_of (run (JobService.CancelJob 101%N alice)
                                  (fun _ => calm 9 0%N) 0 pending_store)) 101%N
     = Some 100.
Proof. vm_compute. repeat split; reflexivity. Qed.

(** ** Another user's job versus a missing job, at the HTTP boundary *)

(** C9 (amended). For a caller who is not the owner, [GetJob] and
    [GetJobResult] answer exactly as they do for a job that does not exist
    (404 with the fixed code and message), whatever the driver does.
    [CancelJob] and [DeleteJob] answer with the same HTTP status and error
    code in both cases but pass the service's error text on, so the message
    is "unauthorized: job does not belong to user" for another user's job
    and "job not found" for a missing one. *)
Theorem C9_foreign_versus_missing
    (env : nat -> Env) (n : nat) (db db' : DB) (jobID userID : uuid)
    (job : OCRJob.t) :
  ocr_jobs db !! jobID = Some job ->
  OCRJob.UserID job <> userID ->
  ocr_jobs db' !! jobID = None ->
  let foreign h := result_of (run (h (Ok userID) (Ok jobID)) env n db) in
  let missing h := result_of (run (h (Ok userID) (Ok jobID)) env n db') in
  let refused code msg :=
    mkResponse StatusBadRequest (ErrorResponse code msg (now (env (S n)))) in
  foreign JobHandler.GetJob = missing JobHandler.GetJob
  /\ foreign JobHandler.GetJobResult = missing JobHandler.GetJobResult
  /\ (fault (env n) = None ->
      foreign JobHandler.CancelJob
        = refused "JOB_002" "unauthorized: job does not belong to user"
      /\ missing JobHandler.CancelJob = refused "JOB_002" "job not found"
      /\ foreign JobHandler.DeleteJob
        = refused "JOB_003" "unauthorized: job does not belong to user"
      /\ missing JobHandler.DeleteJob = refused "JOB_003" "job not found").
Proof.
  intros Hj Hne Hmiss. cbn.
  unfold JobRepository.GetByID. rewrite Hj, Hmiss.
  destruct (fault (env n)) as [err|] eqn:Hf; cbn.
  - split; [reflexivity|]. split; [reflexivity|]. discriminate.
  - destruct (decide (OCRJob.UserID job <> userID)) as [_|Heq]; [|tauto].
    cbn. repeat split; reflexivity.
Qed.

Lemma C9_foreign_versus_missing_witness :
  result_of (run (JobHandler.GetJob (Ok mallory) (Ok 101%N))
                 (fun _ => calm 9 0%N) 0 pending_store)
  = result_of (run (JobHandler.GetJob (Ok mallory) (Ok 101%N))
                   (fun _ => calm 9 0%N) 0 (mkDB ∅ [] the_documents)).
Proof.
  refine (proj1 (C9_foreign_versus_missing (fun _ => calm 9 0%N) 0
                   pending_store (mkDB ∅ [] the_documents) 101%N mallory
                   pending_job eq_refl _ eq_refl)).
  vm_compute. discriminate.
Defined.

(** C9, as stated, fails for [CancelJob] (and [DeleteJob]): Mallory asks to
    cancel Alice's job 101, then a job that does not exist; the two
    responses carry different messages. *)
Lemma C9_cancel_discloses_existence :
  result_of (run (JobHandler.CancelJob (Ok mallory) (Ok 101%N))
                 (fun _ => calm 9 0%N) 0 pending_store)
  = mkResponse 400
      (ErrorResponse "JOB_002" "unauthorized: job does not belong to user" 9)
  /\ result_of (run (JobHandler.CancelJob (Ok mallory) (Ok 101%N))
                    (fun _ => calm 9 0%N) 0 (mkDB ∅ [] the_documents))
     = mkResponse 400 (ErrorResponse "JOB_002" "job not found" 9)
  /\ result_of (run (JobHandler.DeleteJob (Ok mallory) (Ok 101%N))
                    (fun _ => calm 9 0%N) 0 pending_store)
     = mkResponse 400
         (ErrorResponse "JOB_003" "unauthorized: job does not belong to user" 9)
  /\ result_of (run (JobHandler.DeleteJob (Ok mallory) (Ok 101%N))
                    (fun _ => calm 9 0%N) 0 (mkDB ∅ [] the_documents))
     = mkResponse 400 (ErrorResponse "JOB_003" "job not found" 9).
Proof. vm_compute. repeat split; reflexivity. Qed.

(** ** How one operation changes a job row *)

Lemma exec_row {R} (op : Op R) e db id j' :
  ocr_jobs (exec op e db).2 !! id = Some j' ->
  ocr_jobs db !! id = Some j'
  \/ (exists j status msg,
        write_of op = WStatus id status msg /\ ocr_jobs db !! id = Some j
        /\ j' = JobRepository.status_update status msg (now e) j)
  \/ (exists j,
        write_of op = WRetry id /\ ocr_jobs db !! id = Some j
        /\ j' = JobRepository.set_retry_incremented j)
  \/ (exists job,
        write_of op = WCreate job /\ ocr_jobs db !! id = None /\ id = fresh e
        /\ j' = JobRepository.stamped (fresh e) (now e) job).
Proof.
  destruct op; cbn; try (intros H; left; exact H).
  - (* Create *)
    unfold JobRepository.Create. destruct (fault e); [by left|]. cbn.
    destruct (ocr_jobs db !! fresh e) eqn:E; cbn; [by left|].
    destruct (decide (id = fresh e)) as [->|Hne].
    + rewrite lookup_insert_eq. intros [= <-]. right; right; right. eexists; repeat split; eauto.
    + rewrite lookup_insert_ne by done. by left.
  - (* UpdateStatus *)
    unfold JobRepository.UpdateStatus. destruct (fault e); [by left|].
    destruct (ocr_jobs db !! jobID) as [j|] eqn:E; cbn; [|by left].
    destruct (decide (id = jobID)) as [->|Hne].
    + rewrite lookup_insert_eq. intros [= <-]. right; left. do 3 eexists; repeat split; eauto.
    + rewrite lookup_insert_ne by done. by left.
  - (* IncrementRetryCount *)
    unfold JobRepository.IncrementRetryCount. destruct (fault e); [by left|].
    destruct (ocr_jobs db !! jobID) as [j|] eqn:E; cbn; [|by left].
    case_decide; cbn; [|by left].
    destruct (decide (id = jobID)) as [->|Hne].
    + rewrite lookup_insert_eq. intros [= <-]. right; right; left. eexists; repeat split; eauto.
    + rewrite lookup_insert_ne by done. by left.
  - (* Delete *)
    unfold JobRepository.Delete. destruct (fault e); [by left|].
    destruct (ocr_jobs db !! jobID) as [j|] eqn:E; cbn; [|by left].
    intros H. apply lookup_delete_Some in H as [_ H]. by left.
  - (* result Create *)
    unfold ResultRepository.Create. destruct (fault e); [by left|].
    destruct (decide (_ /\ _)); cbn; [|by left].
    destruct (ocr_jobs db !! OCRResult.JobID result); cbn; [|by left].
    case_decide; cbn; by left.
Qed.

(** ** started_at *)

(** C7 (amended). [started_at] is written by the update to processing and
    by nothing else: every execution of that update on an existing row sets
    it to the current time, also when it was set before (each dispatch, the
    first and every re-dispatch after a retry, begins with this update);
    any other operation leaves the [started_at] of every existing job as it
    was. *)
Theorem C7_started_at_written_by_each_claim :
  (forall e db jobID job msg,
     fault e = None -> ocr_jobs db !! jobID = Some job ->
     OCRJob.StartedAt
       <$> job_row (exec (JobUpdateStatus jobID JobStatusProcessing msg) e db).2 jobID
     = Some (Some (now e)))
  /\ (forall jobID job,
        exists k, JobService.processJob_claim jobID job
                  = Do (JobUpdateStatus jobID JobStatusProcessing None) k)
  /\ (forall R (op : Op R) e db id j j',
        ocr_jobs db !! id = Some j ->
        ocr_jobs (exec op e db).2 !! id = Some j' ->
        OCRJob.StartedAt j' = OCRJob.StartedAt j
        \/ exists msg, write_of op = WStatus id JobStatusProcessing msg
                       /\ OCRJob.StartedAt j' = Some (now e)).
Proof.
  split; [|split].
  - intros e db jobID job msg Hf Hj. cbn.
    rewrite (UpdateStatus_found _ _ _ _ _ _ Hf Hj). unfold job_row. cbn.
    rewrite lookup_insert_eq. reflexivity.
  - intros jobID job. eexists. reflexivity.
  - intros R op e db id j j' Hj Hj'.
    apply exec_row in Hj' as [H|[(j0 & st & msg & Hw & H0 & ->)|
                                 [(j0 & Hw & H0 & ->)|(job & Hw & H0 & _)]]].
    + left. congruence.
    + assert (j0 = j) as -> by congruence.
      destruct st; cbn; try (left; destruct msg; reflexivity).
      right. exists msg. split; [exact Hw|reflexivity].
    + left. assert (j0 = j) as -> by congruence. reflexivity.
    + congruence.
Qed.

Lemma C7_started_at_written_by_each_claim_witness :
  OCRJob.StartedAt
    <$> job_row (exec (JobUpdateStatus 101%N JobStatusProcessing None)
                      (calm 6 0%N) pending_store).2 101%N
  = Some (Some 6).
Proof.
  exact (proj1 C7_started_at_written_by_each_claim (calm 6 0%N) pending_store
           101%N pending_job None eq_refl eq_refl).
Defined.

(** C7, as stated, fails in the scenario with one retry: the first claim
    sets [started_at] to 6, the re-dispatch after the retry overwrites it
    with 30. *)
Lemma C7_started_at_overwritten_on_redispatch :
  started_after dispatched = Some (Some 6)
  /\ started_after retried = Some (Some 6)
  /\ started_after redispatched = Some (Some 30).
Proof. vm_compute. repeat split; reflexivity. Qed.

(** ** Running a program alone: one operation at a time *)

Lemma trace_of_Do {A R} (op : Op R) (k : R -> Prog A) env n db :
  trace_of (run (Do op k) env n db)
  = (Called op, (exec op (env n) db).2)
    :: trace_of (run (k (exec op (env n) db).1) env (S n) (exec op (env n) db).2).
Proof.
  cbn. destruct (exec op (env n) db) as [r db1]. cbn.
  destruct (run (k r) env (S n) db1) as [[a db2] tr]. reflexivity.
Qed.

Lemma store_of_Do {A R} (op : Op R) (k : R -> Prog A) env n db :
  store_of (run (Do op k) env n db)
  = store_of (run (k (exec op (env n) db).1) env (S n) (exec op (env n) db).2).
Proof.
  cbn. destruct (exec op (env n) db) as [r db1]. cbn.
  destruct (run (k r) env (S n) db1) as [[a db2] tr]. reflexivity.
Qed.

Lemma result_of_Do {A R} (op : Op R) (k : R -> Prog A) env n db :
  result_of (run (Do op k) env n db)
  = result_of (run (k (exec op (env n) db).1) env (S n) (exec op (env n) db).2).
Proof.
  cbn. destruct (exec op (env n) db) as [r db1]. cbn.
  destruct (run (k r) env (S n) db1) as [[a db2] tr]. reflexivity.
Qed.

Ltac run_op :=
  first [rewrite trace_of_Do | rewrite store_of_Do | rewrite result_of_Do];
  cbn [exec fst snd].

Lemma IncrementRetryCount_found e db id job :
  fault e = None -> ocr_jobs db !! id = Some job ->
  OCRJob.RetryCount job + 1 <= max_int4 ->
  JobRepository.IncrementRetryCount e db id
  = (Ok tt,
     with_jobs db (<[id := JobRepository.set_retry_incremented job]> (ocr_jobs db))).
Proof.
  intros Hf Hj Hm. unfold JobRepository.IncrementRetryCount. rewrite Hf, Hj.
  by case_decide.
Qed.

Lemma DocumentGetByID_found e db id doc :
  fault e = None -> documents db !! id = Some doc ->
  Document.DeletedAt doc = None ->
  DocumentRepository.GetByID e db id = Ok doc.
Proof.
  intros Hf Hd Hdel. unfold DocumentRepository.GetByID. by rewrite Hf, Hd, Hdel.
Qed.

Lemma lookup_with_jobs_insert db id j :
  ocr_jobs (with_jobs db (<[id := j]> (ocr_jobs db))) !! id = Some j.
Proof. cbn. apply lookup_insert_eq. Qed.

Lemma job_row_with_jobs_insert db m id j :
  job_row (with_jobs db (<[id := j]> m)) id = Some j.
Proof. unfold job_row. cbn. by rewrite lookup_insert_eq. Qed.

Lemma job_status_with_jobs_insert db m id j :
  job_status (with_jobs db (<[id := j]> m)) id = Some (OCRJob.Status j).
Proof. unfold job_status. by rewrite job_row_with_jobs_insert. Qed.

(** ** The engine fails: retry or give up *)

Section EngineFailure.
Context (env : nat -> Env) (n : nat) (db : DB) (jobID : uuid)
        (job : OCRJob.t) (doc : Document.t) (err : string).
Hypothesis Hjob : ocr_jobs db !! jobID = Some job.
Hypothesis Hpending : OCRJob.Status job = JobStatusPending.
Hypothesis Hdoc : documents db !! OCRJob.DocumentID job = Some doc.
Hypothesis Hlive : Document.DeletedAt doc = None.
Hypothesis Hdriver : forall i, (i < 9)%nat -> fault (env (n + i)%nat) = None.
Hypothesis Hengine : ocr (env (n + 3)%nat) = Err err.
Hypothesis Hint4 : OCRJob.MaxRetries job <= max_int4.

Let F i (Hi : (i < 9)%nat) : fault (env (i + n)%nat) = None.
Proof. rewrite Nat.add_comm. auto. Qed.

(** The walk through [processJob] up to the retry test. *)
Ltac walk_to_failure :=
  pose proof (F 0%nat ltac:(lia)) as F0; pose proof (F 1%nat ltac:(lia)) as F1;
  pose proof (F 2%nat ltac:(lia)) as F2; pose proof (F 4%nat ltac:(lia)) as F4;
  pose proof (F 5%nat ltac:(lia)) as F5; pose proof (F 6%nat ltac:(lia)) as F6;
  cbn in F0, F1, F2, F4, F5, F6;
  pose proof Hengine as Ho;
  replace (n + 3)%nat with (S (S (S n))) in Ho by lia;
  unfold JobService.processJob;
  run_op; rewrite (GetByID_found _ _ _ _ F0 Hjob);
  destruct (decide (OCRJob.Status job <> JobStatusPending)) as [?|_];
    [congruence|];
  unfold JobService.processJob_claim;
  run_op; rewrite (UpdateStatus_found _ _ _ _ _ _ F1 Hjob); cbn [fst snd];
  unfold JobService.processJob_document; run_op;
  erewrite DocumentGetByID_found by (first [eassumption|exact Hdoc]);
  unfold JobService.processJob_engine; run_op; rewrite Ho;
  unfold JobService.processJob_engine_failed; run_op;
  rewrite (UpdateStatus_found _ _ _ _ _ _ F4 (lookup_with_jobs_insert _ _ _));
  cbn [fst snd].

Ltac walk_through_retry :=
  walk_to_failure;
  destruct (decide (OCRJob.RetryCount job < OCRJob.MaxRetries job)) as [_|?];
    [|lia];
  unfold JobService.processJob_retry; run_op;
  (erewrite IncrementRetryCount_found;
    [|eassumption|apply lookup_with_jobs_insert|cbn; lia]);
  cbn [fst snd];
  unfold JobService.processJob_requeue; run_op;
  (erewrite UpdateStatus_found; [|eassumption|apply lookup_with_jobs_insert]);
  cbn [fst snd];
  unfold JobService.processJob_backoff; run_op; run_op.

Ltac walk_through_give_up :=
  walk_to_failure;
  destruct (decide (OCRJob.RetryCount job < OCRJob.MaxRetries job)) as [?|_];
    [lia|].

Lemma retry_history :
OCRJob.RetryCount job < OCRJob.MaxRetries job ->
job_history jobID (trace_of (run (JobService.processJob jobID) env n db))
= [(Called (JobGetByID jobID), Some JobStatusPending);
   (Called (JobUpdateStatus jobID JobStatusProcessing None),
    Some JobStatusProcessing);
   (Called (DocumentGetByID (OCRJob.DocumentID job)), Some JobStatusProcessing);
   (Called (ProcessDocument (Document.FilePath doc) (OCRJob.Mode job)
              (OCRJob.Resolution job)), Some JobStatusProcessing);
   (Called (JobUpdateStatus jobID JobStatusFailed
              (Some ("OCR processing failed: " ++ err))), Some JobStatusFailed);
   (Called (JobIncrementRetryCount jobID), Some JobStatusFailed);
   (Called (JobUpdateStatus jobID JobStatusPending None), Some JobStatusPending);
   (Called (Sleep (10 * Second)), Some JobStatusPending);
   (Called (Go jobID), Some JobStatusPending)].
Proof using All.
intros Hlt. walk_through_retry.
unfold job_history. cbn [fmap list_fmap fst snd trace_of run].
rewrite !job_status_with_jobs_insert.
unfold job_status, job_row. rewrite Hjob. cbn. rewrite Hpending. reflexivity.
Qed.

Lemma retry_final_row :
OCRJob.RetryCount job < OCRJob.MaxRetries job ->
job_row (store_of (run (JobService.processJob jobID) env n db)) jobID
= Some (OCRJob.mk (OCRJob.ID job) (OCRJob.DocumentID job) (OCRJob.UserID job)
          JobStatusPending (OCRJob.Mode job) (OCRJob.Resolution job)
          (OCRJob.Priority job) (OCRJob.RetryCount job + 1)
          (OCRJob.MaxRetries job) 0 (OCRJob.CreatedAt job)
          (Some (now (env (n + 1)%nat))) (Some (now (env (n + 4)%nat)))
          (Some ("OCR processing failed: " ++ err)) (OCRJob.Metadata job)).
Proof using All.
intros Hlt. walk_through_retry.
cbn [store_of run fst snd]. rewrite job_row_with_jobs_insert.
replace (n + 1)%nat with (S n) by lia.
replace (n + 4)%nat with (S (S (S (S n)))) by lia.
reflexivity.
Qed.

Lemma give_up_history :
OCRJob.MaxRetries job <= OCRJob.RetryCount job ->
job_history jobID (trace_of (run (JobService.processJob jobID) env n db))
= [(Called (JobGetByID jobID), Some JobStatusPending);
   (Called (JobUpdateStatus jobID JobStatusProcessing None),
    Some JobStatusProcessing);
   (Called (DocumentGetByID (OCRJob.DocumentID job)), Some JobStatusProcessing);
   (Called (ProcessDocument (Document.FilePath doc) (OCRJob.Mode job)
              (OCRJob.Resolution job)), Some JobStatusProcessing);
   (Called (JobUpdateStatus jobID JobStatusFailed
              (Some ("OCR processing failed: " ++ err))), Some JobStatusFailed)].
Proof using All.
intros Hge. walk_through_give_up.
unfold job_history. cbn [fmap list_fmap fst snd trace_of run].
rewrite !job_status_with_jobs_insert.
unfold job_status, job_row. rewrite Hjob. cbn. rewrite Hpending. reflexivity.
Qed.

Lemma give_up_final_row :
OCRJob.MaxRetries job <= OCRJob.RetryCount job ->
job_row (store_of (run (JobService.processJob jobID) env n db)) jobID
= Some (OCRJob.mk (OCRJob.ID job) (OCRJob.DocumentID job) (OCRJob.UserID job)
          JobStatusFailed (OCRJob.Mode job) (OCRJob.Resolution job)
          (OCRJob.Priority job) (OCRJob.RetryCount job)
          (OCRJob.MaxRetries job) 0 (OCRJob.CreatedAt job)
          (Some (now (env (n + 1)%nat))) (Some (now (env (n + 4)%nat)))
          (Some ("OCR processing failed: " ++ err)) (OCRJob.Metadata job)).
Proof using All.
intros Hge. walk_through_give_up.
cbn [store_of run fst snd]. rewrite job_row_with_jobs_insert.
replace (n + 1)%nat with (S n) by lia.
replace (n + 4)%nat with (S (S (S (S n)))) by lia.
reflexivity.
Qed.
End EngineFailure.

(** C3 (amended). A pending job is dispatched with a working driver and
    the engine call fails with [err].  The job is first written failed,
    with the message "OCR processing failed: err".  If the retry count read
    at the start of the dispatch is below the maximum, the count is then
    incremented by one, the status is set back to pending (the message
    stays), the goroutine sleeps 10 seconds and launches a new dispatch of
    the same job.  Otherwise nothing follows the failed write: the job
    stays failed with its retry count unchanged. *)
Theorem C3_engine_failure_retry_or_fail
    (env : nat -> Env) (n : nat) (db : DB) (jobID : uuid)
    (job : OCRJob.t) (doc : Document.t) (err : string) :
  ocr_jobs db !! jobID = Some job ->
  OCRJob.Status job = JobStatusPending ->
  documents db !! OCRJob.DocumentID job = Some doc ->
  Document.DeletedAt doc = None ->
  (forall i, (i < 9)%nat -> fault (env (n + i)%nat) = None) ->
  ocr (env (n + 3)%nat) = Err err ->
  OCRJob.MaxRetries job <= max_int4 ->
  let out := run (JobService.processJob jobID) env n db in
  let msg := "OCR processing failed: " ++ err in
  let dispatch_until_failure :=
    [(Called (JobGetByID jobID), Some JobStatusPending);
     (Called (JobUpdateStatus jobID JobStatusProcessing None),
      Some JobStatusProcessing);
     (Called (DocumentGetByID (OCRJob.DocumentID job)), Some JobStatusProcessing);
     (Called (ProcessDocument (Document.FilePath doc) (OCRJob.Mode job)
                (OCRJob.Resolution job)), Some JobStatusProcessing);
     (Called (JobUpdateStatus jobID JobStatusFailed (Some msg)),
      Some JobStatusFailed)] in
  (OCRJob.RetryCount job < OCRJob.MaxRetries job ->
   job_history jobID (trace_of out)
   = (dispatch_until_failure
      ++ [(Called (JobIncrementRetryCount jobID), Some JobStatusFailed);
          (Called (JobUpdateStatus jobID JobStatusPending None),
           Some JobStatusPending);
          (Called (Sleep (10 * Second)), Some JobStatusPending);
          (Called (Go jobID), Some JobStatusPending)])%list
   /\ exists row,
        job_row (store_of out) jobID = Some row
        /\ OCRJob.Status row = JobStatusPending
        /\ OCRJob.RetryCount row = OCRJob.RetryCount job + 1
        /\ OCRJob.ErrorMessage row = Some msg)
  /\ (OCRJob.MaxRetries job <= OCRJob.RetryCount job ->
      job_history jobID (trace_of out) = dispatch_until_failure
      /\ exists row,
           job_row (store_of out) jobID = Some row
           /\ OCRJob.Status row = JobStatusFailed
           /\ OCRJob.RetryCount row = OCRJob.RetryCount job
           /\ OCRJob.ErrorMessage row = Some msg).
Proof.
  intros Hj Hst Hd Hdel Hf Ho Hmax. cbn zeta. split.
  - intros Hlt. split.
    + apply (retry_history env n db jobID job doc err); assumption.
    + eexists. split;
        [apply (retry_final_row env n db jobID job doc err); assumption|].
      repeat split.
  - intros Hge. split.
    + apply (give_up_history env n db jobID job doc err); assumption.
    + eexists. split;
        [apply (give_up_final_row env n db jobID job doc err); assumption|].
      repeat split.
Qed.

Lemma C3_engine_failure_retry_or_fail_witness :
  (job_history 101%N (trace_of (run (JobService.processJob 101%N) outage 0
                                    pending_store))).*2
  = [Some JobStatusPending; Some JobStatusProcessing; Some JobStatusProcessing;
     Some JobStatusProcessing; Some JobStatusFailed; Some JobStatusFailed;
     Some JobStatusPending; Some JobStatusPending; Some JobStatusPending].
Proof.
  assert (Hint : OCRJob.MaxRetries pending_job <= max_int4)
    by (vm_compute; discriminate).
  assert (Hlt : OCRJob.RetryCount pending_job < OCRJob.MaxRetries pending_job)
    by reflexivity.
  destruct (C3_engine_failure_retry_or_fail outage 0 pending_store 101%N
              pending_job the_document "connection refused"
              eq_refl eq_refl eq_refl eq_refl (fun _ _ => eq_refl) eq_refl Hint)
    as [Hretry _].
  destruct (Hretry Hlt) as [Hh _].
  rewrite Hh. reflexivity.
Defined.

(** C3, as stated, fails: with retry count 0 below the maximum 3, the job
    of the scenario is failed between the engine's error and the write
    that returns it to pending (fifth and sixth operation of the dispatch). *)
Lemma C3_retry_passes_through_failed :
  OCRJob.RetryCount <$> job_row pending_store 101%N = Some 0
  /\ OCRJob.MaxRetries <$> job_row pending_store 101%N = Some 3
  /\ (job_history 101%N (trace_of (run (JobService.processJob 101%N) outage 0
                                       pending_store))).*2
     = [Some JobStatusPending; Some JobStatusProcessing; Some JobStatusProcessing;
        Some JobStatusProcessing; Some JobStatusFailed; Some JobStatusFailed;
        Some JobStatusPending; Some JobStatusPending; Some JobStatusPending].
Proof. vm_compute. repeat split; reflexivity. Qed.

(** ** completed_at on a retried job *)

(** C2 (evaluation at the failing input). After one failed engine call
    and the retry that follows it, the job of the scenario is pending again
    and still carries the [completed_at] (12) written with the intermediate
    failed status. *)
Lemma C2_pending_job_with_completed_at :
  OCRJob.Status <$> row_after retried = Some JobStatusPending
  /\ OCRJob.CompletedAt <$> row_after retried = Some (Some 12)
  /\ OCRJob.RetryCount <$> row_after retried = Some 1.
Proof. vm_compute. repeat split; reflexivity. Qed.

(** ** Cancellation against a dispatch *)

Lemma processJob_not_pending env n db jobID job :
  ocr_jobs db !! jobID = Some job ->
  OCRJob.Status job <> JobStatusPending ->
  run (JobService.processJob jobID) env n db
  = (tt, db, [(Called (JobGetByID jobID), db)]).
Proof.
  intros Hj Hst. cbn. unfold JobRepository.GetByID.
  destruct (fault (env n)); [reflexivity|]. rewrite Hj.
  destruct (decide (OCRJob.Status job <> JobStatusPending)); [reflexivity|tauto].
Qed.

(** C1 (amended). A job that is cancelled when a dispatch reads it at its
    start is left alone: the dispatch ends after that read, the store is
    unchanged and no goroutine is launched.  A dispatch that has passed
    that test does not read the status again: its status updates are keyed
    on the id alone and replace whatever status the row has, and its result
    insert only requires the job row to exist (and the two integers of the
    result to fit their [INTEGER] columns; otherwise it inserts nothing). *)
Theorem C1_cancelled_respected_only_at_start :
  (forall env n db jobID job,
     ocr_jobs db !! jobID = Some job ->
     OCRJob.Status job = JobStatusCancelled ->
     run (JobService.processJob jobID) env n db
     = (tt, db, [(Called (JobGetByID jobID), db)]))
  /\ (forall e db jobID job status msg,
        fault e = None -> ocr_jobs db !! jobID = Some job ->
        job_status (exec (JobUpdateStatus jobID status msg) e db).2 jobID
        = Some status)
  /\ (forall e db result job,
        fault e = None ->
        ocr_jobs db !! OCRResult.JobID result = Some job ->
        fresh e ∉ OCRResult.ID <$> ocr_results db ->
        ocr_results (exec (ResultCreate result) e db).2
        = if decide (fits_int4 (OCRResult.ProcessingTimeMs result)
                     /\ fits_int4 (OCRResult.NumPages result))
          then (ocr_results db
                ++ [ResultRepository.stamped (fresh e) (now e) result])%list
          else ocr_results db).
Proof.
  split; [|split].
  - intros env n db jobID job Hj Hst.
    apply processJob_not_pending with job; [exact Hj|]. rewrite Hst. discriminate.
  - intros e db jobID job status msg Hf Hj. cbn.
    rewrite (UpdateStatus_found _ _ _ _ _ _ Hf Hj). cbn.
    rewrite job_status_with_jobs_insert.
    destruct status; try reflexivity; destruct msg; reflexivity.
  - intros e db result job Hf Hj Hfresh. cbn.
    unfold ResultRepository.Create. rewrite Hf.
    change (OCRResult.ProcessingTimeMs
              (ResultRepository.stamped (fresh e) (now e) result))
      with (OCRResult.ProcessingTimeMs result).
    change (OCRResult.NumPages
              (ResultRepository.stamped (fresh e) (now e) result))
      with (OCRResult.NumPages result).
    destruct (decide (_ /\ _)); [|reflexivity].
    cbn. rewrite Hj. case_decide; [tauto|reflexivity].
Qed.

Lemma C1_cancelled_respected_only_at_start_witness :
  job_status
    (exec (JobUpdateStatus 101%N JobStatusCompleted None) (calm 13 0%N)
          (mkDB {[ 101%N := JobRepository.status_update JobStatusCancelled None 9
                               pending_job ]} [] the_documents)).2 101%N
  = Some JobStatusCompleted.
Proof.
  refine (proj1 (proj2 C1_cancelled_respected_only_at_start)
            (calm 13 0%N) _ 101%N _ JobStatusCompleted None eq_refl _).
  apply lookup_singleton_eq.
Defined.

(** C1, as stated, fails in the scenario: Alice cancels job 101 while the
    engine works on it; the job is cancelled and has no result.  The
    dispatch then inserts a result row for the cancelled job (id 111) and
    overwrites the status with completed. *)
Lemma C1_cancelled_job_overwritten :
  status_after cancelled_in_flight = Some JobStatusCancelled
  /\ results_after cancelled_in_flight = Some []
  /\ status_after (result_saved cancelled_in_flight) = Some JobStatusCancelled
  /\ results_after (result_saved cancelled_in_flight) = Some [111%N]
  /\ status_after (last_write cancelled_in_flight) = Some JobStatusCompleted.
Proof. vm_compute. repeat split; reflexivity. Qed.

(** * The running system *)

Local Close Scope string_scope.

(** ** Every operation is one of six kinds of store change *)

Lemma exec_cases {R} (op : Op R) e db :
  exec_case (write_of op) e db (exec op e db).2.
Proof.
  destruct op; cbn; try (by apply exec_same).
  - unfold JobRepository.Create. destruct (fault e); [by apply exec_same|]. cbn.
    destruct (ocr_jobs db !! fresh e) eqn:E; cbn; [by apply exec_same|].
    by eapply exec_create.
  - unfold JobRepository.UpdateStatus. destruct (fault e); [by apply exec_same|].
    destruct (ocr_jobs db !! jobID) eqn:E; cbn; [|by apply exec_same].
    by eapply exec_status.
  - unfold JobRepository.IncrementRetryCount.
    destruct (fault e); [by apply exec_same|].
    destruct (ocr_jobs db !! jobID) eqn:E; cbn; [|by apply exec_same].
    case_decide; cbn; [|by apply exec_same]. by eapply exec_retry.
  - unfold JobRepository.Delete. destruct (fault e); [by apply exec_same|].
    destruct (ocr_jobs db !! jobID) eqn:E; cbn; [|by apply exec_same].
    by eapply exec_delete.
  - unfold ResultRepository.Create. destruct (fault e); [by apply exec_same|].
    destruct (decide (_ /\ _)); cbn; [|by apply exec_same].
    destruct (ocr_jobs db !! OCRResult.JobID result) eqn:E; cbn;
      [|by apply exec_same].
    case_decide; cbn; [by apply exec_same|]. by eapply exec_result.
Qed.

Lemma status_update_retry status msg at_ j :
  OCRJob.RetryCount (JobRepository.status_update status msg at_ j) = OCRJob.RetryCount j
  /\ OCRJob.MaxRetries (JobRepository.status_update status msg at_ j) = OCRJob.MaxRetries j.
Proof. destruct status, msg; split; reflexivity. Qed.

Lemma status_update_status status msg at_ j :
  OCRJob.Status (JobRepository.status_update status msg at_ j) = status.
Proof. destruct status, msg; reflexivity. Qed.

Lemma results_for_app db id l :
  results_for (with_results db (ocr_results db ++ l)) id
  = (results_for db id ++ filter (fun r => OCRResult.JobID r = id) l)%list.
Proof. unfold results_for. cbn. apply filter_app. Qed.

Lemma results_for_delete_other (l : list OCRResult.t) id id' :
  id <> id' ->
  filter (fun r => OCRResult.JobID r = id)
         (filter (fun r => OCRResult.JobID r <> id') l)
  = filter (fun r => OCRResult.JobID r = id) l.
Proof.
  intros Hne. induction l as [|r l IH]; [done|].
  rewrite !filter_cons. destruct (decide (OCRResult.JobID r <> id')) as [H1|H1].
  - rewrite filter_cons. by rewrite IH.
  - rewrite IH. destruct (decide (OCRResult.JobID r = id)); [|done].
    exfalso. apply H1. congruence.
Qed.

Lemma results_for_delete_same (l : list OCRResult.t) id :
  filter (fun r => OCRResult.JobID r = id)
         (filter (fun r => OCRResult.JobID r <> id) l) = [].
Proof.
  induction l as [|r l IH]; [done|].
  rewrite filter_cons. destruct (decide (OCRResult.JobID r <> id)) as [H1|H1]; [|done].
  rewrite filter_cons. by rewrite decide_False.
Qed.

Lemma exec_case_undisturbed w e db db' id :
  exec_case w e db db' -> ~ disturbs w e id -> undisturbed id db db'.
Proof.
  intros Hc Hnd. destruct Hc as [->|job -> Hnone ->|id' st msg j -> Hj ->
                               |id' j -> Hj ->|id' j -> Hj ->|r j -> Hj ->];
    cbn in Hnd; unfold undisturbed, results_for; cbn.
  - split; [eauto|by left].
  - split; [|by left]. intros j'. rewrite lookup_insert_ne by done. eauto.
  - split; [|by left]. intros j'.
    destruct (decide (id' = id)) as [->|Hne].
    + rewrite lookup_insert_eq. intros [= <-]. exists j.
      split; [done|]. apply status_update_retry.
    + rewrite lookup_insert_ne by done. eauto.
  - split; [|by left]. intros j'. rewrite lookup_insert_ne by done. eauto.
  - destruct (decide (id' = id)) as [->|Hne].
    + split.
      * intros j'. rewrite lookup_delete_eq. done.
      * right. split; [apply lookup_delete_eq|apply results_for_delete_same].
    + split.
      * intros j'. rewrite lookup_delete_ne by done. eauto.
      * left. by apply results_for_delete_other.
  - split; [eauto|]. left. rewrite filter_app, filter_cons, filter_nil.
    change (OCRResult.JobID (ResultRepository.stamped (fresh e) (now e) r))
      with (OCRResult.JobID r).
    rewrite decide_False by done. by rewrite app_nil_r.
Qed.

Lemma undisturbed_refl id db : undisturbed id db db.
Proof. split; [eauto|by left]. Qed.

(** A stage of a dispatch survives whatever does not disturb its job. *)
Lemma dispatch_stage_undisturbed db db' id p :
  dispatch_stage db id p -> undisturbed id db db' -> dispatch_stage db' id p.
Proof.
  intros Hs [Hrow Hres].
  assert (Hno : results_for db id = [] -> results_for db' id = []).
  { intros H0. destruct Hres as [->|[_ ->]]; done. }
  assert (Hsnap : forall job, snapshot_agrees db id job -> snapshot_agrees db' id job).
  { intros job Hag j' Hj'. destruct (Hrow _ Hj') as (j & Hj & -> & ->). by apply Hag. }
  destruct Hs; try (constructor; eauto; fail).
  - constructor; [|eauto]. intros j' Hj'.
    destruct (Hrow _ Hj') as (j & Hj & -> & ->). by apply H.
  - constructor. intros [j' Hj']. destruct (Hrow _ Hj') as (j & Hj & _).
    destruct Hres as [->|[Hnone _]]; [|congruence]. apply H. eauto.
Qed.

Lemma task_ok_undisturbed db db' t :
  task_ok db t ->
  (forall id, owner t = Some id -> undisturbed id db db') ->
  task_ok db' t.
Proof.
  destruct t as [id p|p]; cbn.
  - intros Hs Hu. destruct (returned p) eqn:Hr.
    + destruct p as [[]|]; [constructor|discriminate].
    + eapply dispatch_stage_undisturbed; [exact Hs|]. by apply Hu.
  - intros [Hq|(id & Hl & Hres)] Hu; [by left|]. right. exists id.
    split; [exact Hl|].
    destruct p as [|R op k]; [done|]. destruct Hl as [Hl _].
    cbn in Hu. rewrite Hl in Hu. specialize (Hu id eq_refl).
    destruct Hu as [_ [->|[_ ->]]]; done.
Qed.

(** ** What a task may write *)

Lemma quiet_head_launch {A} (p : Prog A) : quiet p -> head_launch p = None.
Proof. destruct p as [|R op k]; [done|]. destruct op; cbn; try done. Qed.

Lemma launches_head_launch {A} (p : Prog A) id :
  launches id p -> head_launch p = Some id.
Proof. destruct p as [|R op k]; [done|]. cbn. by intros [-> _]. Qed.

Lemma launches_head_write {A} (p : Prog A) id :
  launches id p -> head_write p = WNothing.
Proof.
  destruct p as [|R op k]; [done|]. cbn. intros [H _].
  destruct op; cbn in *; try done; discriminate.
Qed.

Lemma task_ok_write_allowed db t : task_ok db t -> write_allowed db (next_write t).
Proof.
  destruct t as [id p|p]; cbn.
  - intros Hs. destruct Hs; cbn; try done.
  - intros [Hq|(id & Hl & _)].
    + destruct p as [|R op k]; [done|]. destruct op; cbn in *; try done.
      * tauto.
      * destruct Hq as [-> _]. done.
    + by rewrite (launches_head_write _ _ Hl).
Qed.

Lemma task_ok_disturbs db t e id :
  task_ok db t -> disturbs (next_write t) e id ->
  owner t = Some id \/ (id = fresh e /\ exists job, next_write t = WCreate job).
Proof.
  destruct t as [id0 p|p]; cbn.
  - intros Hs. destruct Hs; cbn; try done; intros ->; by left.
  - intros [Hq|(id' & Hl & _)].
    + destruct p as [|R op k]; [done|]. destruct op; cbn in *; try done.
      intros <-. right. eauto.
    + by rewrite (launches_head_write _ _ Hl).
Qed.

Lemma tables_ok_exec_case w e db db' :
  tables_ok db -> exec_case w e db db' -> write_allowed db w -> tables_ok db'.
Proof.
  intros [I1 I3 I4 I5] Hc Ha.
  destruct Hc as [->|job -> Hnone ->|id' st msg j -> Hj ->
                 |id' j -> Hj ->|id' j -> Hj ->|r j -> Hj ->]; cbn in Ha.
  - by constructor.
  - constructor; unfold results_for; cbn.
    + intros id j. destruct (decide (id = fresh e)) as [->|Hne].
      * rewrite lookup_insert_eq. intros [= <-]. exact Ha.
      * rewrite lookup_insert_ne by done. apply I1.
    + intros r Hr. destruct (decide (OCRResult.JobID r = fresh e)) as [->|Hne].
      * rewrite lookup_insert_eq. eauto.
      * rewrite lookup_insert_ne by done. by apply I3.
    + exact I4.
    + intros id j. destruct (decide (id = fresh e)) as [->|Hne].
      * rewrite lookup_insert_eq. intros [= <-]. discriminate.
      * rewrite lookup_insert_ne by done. apply I5.
  - constructor; unfold results_for; cbn.
    + intros id j'. destruct (decide (id = id')) as [->|Hne].
      * rewrite lookup_insert_eq. intros [= <-].
        destruct (status_update_retry st msg (now e) j) as [-> ->]. by eapply I1.
      * rewrite lookup_insert_ne by done. apply I1.
    + intros r Hr. destruct (decide (OCRResult.JobID r = id')) as [->|Hne].
      * rewrite lookup_insert_eq. eauto.
      * rewrite lookup_insert_ne by done. by apply I3.
    + exact I4.
    + intros id j'. destruct (decide (id = id')) as [->|Hne].
      * rewrite lookup_insert_eq. intros [= <-].
        rewrite status_update_status. intros ->. apply Ha; eauto.
      * rewrite lookup_insert_ne by done. apply I5.
  - constructor; unfold results_for; cbn.
    + intros id j'. destruct (decide (id = id')) as [->|Hne].
      * rewrite lookup_insert_eq. intros [= <-]. cbn.
        specialize (Ha _ Hj). lia.
      * rewrite lookup_insert_ne by done. apply I1.
    + intros r Hr. destruct (decide (OCRResult.JobID r = id')) as [->|Hne].
      * rewrite lookup_insert_eq. eauto.
      * rewrite lookup_insert_ne by done. by apply I3.
    + exact I4.
    + intros id j'. destruct (decide (id = id')) as [->|Hne].
      * rewrite lookup_insert_eq. intros [= <-]. cbn. by apply I5.
      * rewrite lookup_insert_ne by done. apply I5.
  - constructor; unfold results_for; cbn.
    + intros id j'. intros H. apply lookup_delete_Some in H as [_ H]. by eapply I1.
    + intros r Hr. apply list_elem_of_filter in Hr as [Hne Hr].
      rewrite lookup_delete_ne by done. by apply I3.
    + intros id. destruct (decide (id = id')) as [->|Hne].
      * rewrite results_for_delete_same. cbn. lia.
      * rewrite results_for_delete_other by done. apply I4.
    + intros id j'. intros H. apply lookup_delete_Some in H as [Hne H].
      rewrite results_for_delete_other by done. by eapply I5.
  - constructor; unfold results_for in *; cbn.
    + exact I1.
    + intros r' Hr'. apply elem_of_app in Hr' as [Hr'|Hr'].
      * by apply I3.
      * apply list_elem_of_singleton in Hr'. subst r'. cbn. eauto.
    + intros id. rewrite filter_app, filter_cons, filter_nil.
      change (OCRResult.JobID (ResultRepository.stamped (fresh e) (now e) r))
        with (OCRResult.JobID r).
      destruct (decide (OCRResult.JobID r = id)) as [<-|Hne].
      * rewrite Ha. cbn. lia.
      * rewrite app_nil_r. apply I4.
    + intros id j' Hj' Hst. rewrite filter_app.
      specialize (I5 _ _ Hj' Hst).
      destruct (filter _ (ocr_results db)); [done|]. done.
Qed.

(** ** One step of a dispatch goroutine *)

Lemma step_prog_exec_case {A} (p p' : Prog A) e db db' ids :
  step_prog p e db = Some (p', db', ids) -> exec_case (head_write p) e db db'.
Proof.
  destruct p as [|R op k]; [discriminate|]. cbn.
  pose proof (exec_cases op e db) as Hc.
  destruct (exec op e db) as [r db1]. intros [= _ <- _]. exact Hc.
Qed.

Lemma exec_undisturbed {R} (op : Op R) e db id :
  ~ disturbs (write_of op) e id -> undisturbed id db (exec op e db).2.
Proof. intros H. eapply exec_case_undisturbed; [apply exec_cases|exact H]. Qed.

Lemma goroutine_step db id p e p' db' ids :
  dispatch_stage db id p ->
  step_prog p e db = Some (p', db', ids) ->
  dispatch_stage db' id p'
  /\ (ids = [] \/ (ids = [id] /\ p' = Ret tt /\ results_for db' id = [])).
Proof.
  intros Hs Hstep.
  destruct Hs as [Hno|job Hsnap Hno|job Hsnap Hno|job doc Hsnap Hno
                 |job err Hsnap Hno|Hmay Hno|Hno|Hno|Hno|job resp Hno|msg|Hres| ];
    cbn in Hstep.
  - (* at_start *)
    injection Hstep as <- <- <-. split; [|by left].
    destruct (JobRepository.GetByID e db id) as [job|] eqn:E; [|constructor].
    apply GetByID_inv in E. case_decide; [constructor|].
    constructor; [|exact Hno]. intros j Hj. rewrite E in Hj.
    injection Hj as ->. done.
  - (* at_claim *)
    pose proof (exec_undisturbed (JobUpdateStatus id JobStatusProcessing None)
                  e db id (fun H => H)) as Hu. cbn in Hu.
    destruct (JobRepository.UpdateStatus e db id JobStatusProcessing None)
      as [r db1]. injection Hstep as <- <- <-. split; [|by left].
    destruct r; [|constructor].
    eapply dispatch_stage_undisturbed; [|exact Hu]. by constructor.
  - (* at_document *)
    injection Hstep as <- <- <-. split; [|by left].
    destruct (DocumentRepository.GetByID e db (OCRJob.DocumentID job));
      by constructor.
  - (* at_engine *)
    injection Hstep as <- <- <-. split; [|by left].
    destruct (ocr e); by constructor.
  - (* at_engine_failed *)
    pose proof (exec_undisturbed
                  (JobUpdateStatus id JobStatusFailed
                     (Some ("OCR processing failed: " ++ err)%string))
                  e db id (fun H => H)) as Hu. cbn in Hu.
    destruct (JobRepository.UpdateStatus e db id JobStatusFailed _) as [r db1].
    injection Hstep as <- <- <-. split; [|by left].
    case_decide as Hlt; [|constructor].
    eapply dispatch_stage_undisturbed; [|exact Hu].
    constructor; [|exact Hno]. intros j Hj. destruct (Hsnap _ Hj) as [-> ->].
    exact Hlt.
  - (* at_retry *)
    assert (Hkeep : results_for db' id = []).
    { unfold JobRepository.IncrementRetryCount in Hstep.
      destruct (fault e); [by injection Hstep as <- <- <-|].
      destruct (ocr_jobs db !! id); [|by injection Hstep as <- <- <-].
      case_decide; by injection Hstep as <- <- <-. }
    destruct (JobRepository.IncrementRetryCount e db id) as [r db1].
    injection Hstep as <- <- <-. split; [|by left]. by constructor.
  - (* at_requeue *)
    pose proof (exec_undisturbed (JobUpdateStatus id JobStatusPending None)
                  e db id (fun H => H)) as Hu. cbn in Hu.
    destruct (JobRepository.UpdateStatus e db id JobStatusPending None)
      as [r db1]. injection Hstep as <- <- <-. split; [|by left].
    eapply dispatch_stage_undisturbed; [|exact Hu]. by constructor.
  - (* at_backoff *)
    injection Hstep as <- <- <-. split; [|by left]. by constructor.
  - (* at_launch *)
    injection Hstep as <- <- <-. split; [constructor|]. right. done.
  - (* at_save *)
    unfold ResultRepository.Create in Hstep.
    destruct (fault e); [injection Hstep as <- <- <-; split; [constructor|by left]|].
    destruct (decide (_ /\ _));
      [|injection Hstep as <- <- <-; split; [constructor|by left]].
    cbn in Hstep.
    destruct (ocr_jobs db !! id) as [j|] eqn:Ej;
      [|injection Hstep as <- <- <-; split; [constructor|by left]].
    case_decide; injection Hstep as <- <- <-; (split; [|by left]);
      [constructor|].
    constructor. intros _. unfold results_for. cbn.
    rewrite filter_app, filter_cons. cbn. rewrite decide_True by done.
    intros H0. by apply app_eq_nil in H0 as [_ ?].
  - (* at_fail *)
    destruct (JobRepository.UpdateStatus e db id JobStatusFailed (Some msg))
      as [r db1]. injection Hstep as <- <- <-. split; [constructor|by left].
  - (* at_complete *)
    destruct (JobRepository.UpdateStatus e db id JobStatusCompleted None)
      as [r db1]. injection Hstep as <- <- <-. split; [constructor|by left].
  - discriminate.
Qed.

(** ** One step of a request handler *)

Lemma quiet_launched {A R} (op : Op R) (k : R -> Prog A) :
  quiet (Do op k) -> launched op = [].
Proof. destruct op; cbn; done. Qed.

Lemma fresh_has_no_result db (known : gset N) id :
  tables_ok db ->
  (forall id', is_Some (ocr_jobs db !! id') -> id' ∈ known) ->
  id ∉ known -> results_for db id = [].
Proof.
  intros Ht Hk Hid. unfold results_for.
  destruct (filter _ (ocr_results db)) as [|r l] eqn:E; [done|].
  assert (Hr : r ∈ filter (fun r => OCRResult.JobID r = id) (ocr_results db))
    by (rewrite E; left).
  apply list_elem_of_filter in Hr as [<- Hr].
  destruct Hid. apply Hk. by apply results_reference_jobs.
Qed.

Lemma handler_step {A} db (known : gset N) (p p' : Prog A) e db' ids :
  quiet p \/ (exists id, launches id p /\ results_for db id = []) ->
  tables_ok db ->
  (forall id', is_Some (ocr_jobs db !! id') -> id' ∈ known) ->
  fresh e ∉ known ->
  step_prog p e db = Some (p', db', ids) ->
  (quiet p' /\ ids = [])
  \/ (quiet p' /\ exists id, ids = [id] /\ head_launch p = Some id
                             /\ results_for db' id = [])
  \/ (launches (fresh e) p' /\ ids = [] /\ results_for db' (fresh e) = []
      /\ head_launch p = None).
Proof.
  intros Hp Ht Hk Hf Hstep. destruct p as [|R op k]; [discriminate|].
  destruct Hp as [Hq|(id & [Hl Hq] & Hno)].
  - pose proof (quiet_launched _ _ Hq) as Hl0.
    cbn in Hstep. rewrite Hl0 in Hstep.
    destruct op; cbn in Hq, Hstep; try done;
      try (injection Hstep as <- <- <-; left; split; [apply Hq|done]).
    + (* Create *)
      destruct Hq as (Hrc & Herr & Hok).
      unfold JobRepository.Create in Hstep.
      destruct (fault e); [injection Hstep as <- <- <-; left; split; [apply Herr|done]|].
      cbn in Hstep.
      destruct (ocr_jobs db !! fresh e);
        [injection Hstep as <- <- <-; left; split; [apply Herr|done]|].
      injection Hstep as <- <- <-. right; right.
      specialize (Hok (JobRepository.stamped (fresh e) (now e) job)).
      destruct (k (Ok (JobRepository.stamped (fresh e) (now e) job)))
        as [|R' op' k']; [done|].
      split; [exact Hok|]. split; [done|]. split; [|done].
      change (results_for db (fresh e) = []).
      eapply fresh_has_no_result; [exact Ht|exact Hk|exact Hf].
    + (* UpdateStatus *)
      destruct Hq as [_ Hq].
      destruct (JobRepository.UpdateStatus e db jobID status errorMessage).
      injection Hstep as <- <- <-. left. split; [apply Hq|done].
    + (* Delete *)
      destruct (JobRepository.Delete e db jobID).
      injection Hstep as <- <- <-. left. split; [apply Hq|done].
  - cbn in Hstep. rewrite Hl in Hstep.
    assert (Hsame : (exec op e db).2 = db).
    { destruct op; cbn in *; try done; discriminate. }
    destruct (exec op e db) as [r db1]. cbn in Hsame. subst db1.
    injection Hstep as <- <- <-. right; left. split; [apply Hq|].
    exists id. split; [done|]. split; [|done]. cbn. by rewrite Hl.
Qed.

Lemma exec_case_keys w e db db' id :
  exec_case w e db db' ->
  is_Some (ocr_jobs db' !! id) -> is_Some (ocr_jobs db !! id) \/ id = fresh e.
Proof.
  intros Hc. destruct Hc as [->|job -> Hnone ->|id' st msg j -> Hj ->
                            |id' j -> Hj ->|id' j -> Hj ->|r j -> Hj ->]; cbn.
  - by left.
  - destruct (decide (id = fresh e)) as [->|Hne]; [by right|].
    rewrite lookup_insert_ne by done. by left.
  - destruct (decide (id = id')) as [->|Hne]; [left; eauto|].
    rewrite lookup_insert_ne by done. by left.
  - destruct (decide (id = id')) as [->|Hne]; [left; eauto|].
    rewrite lookup_insert_ne by done. by left.
  - intros [j' H]. apply lookup_delete_Some in H as [_ H]. left. eauto.
  - by left.
Qed.

Ltac quiet_step :=
  first
    [ done
    | progress cbn
    | split
    | match goal with
      | |- forall r : Res _, _ => intros [?|?]
      | |- forall r : _, _ => intros ?
      | |- context [decide ?P] => destruct (decide P)
      | |- context [match ?x with _ => _ end] => destruct x
      end ].

(** Sequencing keeps programs quiet; the second half is what the case of
    a job creation needs of the continuation. *)
Lemma quiet_bind_both {A B} (p : Prog A) (f : A -> Prog B) :
  (forall a, quiet (f a)) ->
  (quiet p -> quiet (bind p f))
  /\ (forall id, launches id p -> launches id (bind p f)).
Proof.
  intros Hf. induction p as [a|R op k IH].
  - split; [intros _; apply Hf|]. intros id [].
  - split.
    + intros Hq. destruct op; cbn in Hq |- *; try done;
        try (intros r; by apply IH).
      * destruct Hq as (Hrc & Herr & Hok). split; [exact Hrc|]. split.
        -- intros err. by apply IH.
        -- intros j. apply (proj2 (IH (Ok j)) (OCRJob.ID j)), Hok.
      * destruct Hq as [Hs Hq]. split; [exact Hs|]. intros r. by apply IH.
    + intros id [Hl Hq]. cbn. split; [exact Hl|]. intros r. by apply IH.
Qed.

Lemma quiet_bind {A B} (p : Prog A) (f : A -> Prog B) :
  quiet p -> (forall a, quiet (f a)) -> quiet (bind p f).
Proof. intros Hp Hf. by apply quiet_bind_both. Qed.

Lemma SubmitJob_quiet req userID : quiet (JobService.SubmitJob req userID).
Proof. unfold JobService.SubmitJob. repeat quiet_step. Qed.

Lemma submit_each_quiet userID req documentIDs jobs errors :
  quiet (JobHandler.submit_each userID req documentIDs jobs errors).
Proof.
  revert jobs errors. induction documentIDs as [|documentID rest IH];
    intros jobs errors.
  - cbn. done.
  - cbn [JobHandler.submit_each]. apply quiet_bind; [apply SubmitJob_quiet|].
    intros [job|err]; apply IH.
Qed.

Lemma route_quiet rq : quiet (route rq).
Proof.
  destruct rq as [user req|user req|user page perPage|user idParam
                 |user idParam|user idParam|user idParam];
    destruct user as [userID|err]; try destruct idParam as [jobID|err'];
    try (cbn [route JobHandler.SubmitBatchJob]; apply submit_each_quiet);
    repeat quiet_step.
Qed.

(** ** One step of any task *)

Lemma step_task_exec_case t e db t' db' ids :
  step_task t e db = Some (t', db', ids) -> exec_case (next_write t) e db db'.
Proof.
  destruct t as [id p|p]; cbn;
    destruct (step_prog p e db) as [[[p1 db1] l1]|] eqn:E; try discriminate;
    intros [= _ <- _]; eapply step_prog_exec_case; exact E.
Qed.

Lemma task_step db (known : gset N) t e t' db' ids :
  task_ok db t -> tables_ok db ->
  (forall id, is_Some (ocr_jobs db !! id) -> id ∈ known) ->
  fresh e ∉ known ->
  step_task t e db = Some (t', db', ids) ->
  task_ok db' t'
  /\ ((ids = [] /\ (owner t' = None \/ owner t' = owner t
                    \/ owner t' = Some (fresh e)))
      \/ exists id, ids = [id] /\ owner t = Some id /\ owner t' = None
                    /\ results_for db' id = []).
Proof.
  intros Hok Ht Hk Hf Hstep. destruct t as [id p|p]; cbn in Hstep.
  - destruct (step_prog p e db) as [[[p1 db1] l1]|] eqn:E; [|discriminate].
    injection Hstep as <- <- <-.
    destruct (goroutine_step _ _ _ _ _ _ _ Hok E) as [Hs Hids].
    split; [exact Hs|].
    assert (Hown : owner (Goroutine id p) = Some id).
    { destruct p; [discriminate|reflexivity]. }
    destruct Hids as [->|(-> & -> & Hno)].
    + left. split; [done|]. rewrite Hown.
      change (owner (Goroutine id p1)) with (if returned p1 then None else Some id).
      destruct (returned p1); [by left|by (right; left)].
    + right. exists id. done.
  - destruct (step_prog p e db) as [[[p1 db1] l1]|] eqn:E; [|discriminate].
    injection Hstep as <- <- <-.
    destruct (handler_step _ _ _ _ _ _ _ Hok Ht Hk Hf E)
      as [[Hq ->]|[[Hq (id & -> & Hh & Hno)]|(Hl & -> & Hno & Hh)]].
    + split; [by left|]. left. split; [done|]. left.
      cbn. by apply quiet_head_launch.
    + split; [by left|]. right. exists id. cbn.
      split; [done|]. split; [done|]. split; [|done]. by apply quiet_head_launch.
    + split; [right; eauto|]. left. split; [done|]. right; right.
      cbn. by apply launches_head_launch.
Qed.

(** ** The invariant of the running system *)

Lemma sys_ok_boot docs : sys_ok (boot docs).
Proof.
  constructor; cbn.
  - constructor; unfold results_for; cbn.
    + intros id j H. by rewrite lookup_empty in H.
    + intros r H. by apply elem_of_nil in H.
    + intros _. lia.
    + intros id j H. by rewrite lookup_empty in H.
  - intros id [j H]. by rewrite lookup_empty in H.
  - constructor.
  - constructor.
  - intros t id H. by apply elem_of_nil in H.
Qed.

Lemma owner_spawn id : owner (spawn id) = Some id.
Proof. reflexivity. Qed.

Lemma owner_elem (l : list Task) t id :
  t ∈ l -> owner t = Some id -> id ∈ omap owner l.
Proof. intros Ht Ho. apply list_elem_of_omap. eauto. Qed.

Lemma sys_ok_run s i e t t' db' ids :
  sys_ok s -> fresh e ∉ issued s ->
  tasks s !! i = Some t ->
  step_task t e (store s) = Some (t', db', ids) ->
  sys_ok (mkSys db' (<[i := t']> (tasks s) ++ (spawn <$> ids))
                ({[fresh e]} ∪ issued s)).
Proof.
  intros [Ht Hk Hall Hnd Hiss] Hf Hi Hstep.
  pose proof (take_drop_middle _ _ _ Hi) as Hsplit.
  assert (Hins : <[i := t']> (tasks s)
                 = (take i (tasks s) ++ t' :: drop (S i) (tasks s))%list).
  { apply insert_take_drop. by eapply lookup_lt_Some. }
  set (l1 := take i (tasks s)) in *. set (l2 := drop (S i) (tasks s)) in *.
  rewrite Hins. clearbody l1 l2. clear Hins Hi.
  rewrite <- Hsplit in Hall, Hnd, Hiss. clear Hsplit.
  apply Forall_app in Hall as [Hall1 Hall2].
  apply Forall_cons in Hall2 as [Hokt Hall2].
  pose proof (step_task_exec_case _ _ _ _ _ _ Hstep) as Hc.
  destruct (task_step _ _ _ _ _ _ _ Hokt Ht Hk Hf Hstep) as [Hokt' Hown].
  rewrite omap_app in Hnd. cbn in Hnd.
  (* the other tasks are not disturbed *)
  assert (Hothers : forall t2, t2 ∈ l1 ++ l2 -> task_ok (store s) t2 ->
                      task_ok db' t2).
  { intros t2 Hin Hok2. eapply task_ok_undisturbed; [exact Hok2|].
    intros id2 Ho2. eapply exec_case_undisturbed; [exact Hc|].
    intros Hd. destruct (task_ok_disturbs _ _ _ _ Hokt Hd) as [Ho | [Heq _] ]; [|subst id2].
    - rewrite Ho in Hnd. apply NoDup_app in Hnd as (_ & Hdisj & Hnd2).
      apply NoDup_cons in Hnd2 as [Hnot2 _].
      apply elem_of_app in Hin as [Hin|Hin].
      + apply (Hdisj id2); [by eapply owner_elem|left].
      + apply Hnot2. by eapply owner_elem.
    - apply Hf. apply (Hiss t2); [|exact Ho2].
      apply elem_of_app in Hin as [Hin|Hin]; apply elem_of_app;
        [by left|right; by right]. }
  constructor; cbn.
  - eapply tables_ok_exec_case; [exact Ht|exact Hc|].
    by apply task_ok_write_allowed.
  - intros id Hid. destruct (exec_case_keys _ _ _ _ _ Hc Hid) as [H | ->].
    + apply elem_of_union_r. by apply Hk.
    + apply elem_of_union_l. by apply elem_of_singleton.
  - apply Forall_app. split; [apply Forall_app; split|].
    + apply Forall_forall. intros t2 Hin. apply Hothers.
      * apply elem_of_app. by left.
      * rewrite Forall_forall in Hall1. by apply Hall1.
    + apply Forall_cons. split; [exact Hokt'|].
      apply Forall_forall. intros t2 Hin. apply Hothers.
      * apply elem_of_app. by right.
      * rewrite Forall_forall in Hall2. by apply Hall2.
    + destruct Hown as [[-> _]|(id & -> & _ & _ & Hno)]; [constructor|].
      repeat constructor. exact Hno.
  - rewrite !omap_app. cbn.
    assert (Hsub : forall id, id ∈ omap owner l1 ++ omap owner l2 ->
                     id ∈ issued s).
    { intros id Hin. apply elem_of_app in Hin as [Hin|Hin];
        apply list_elem_of_omap in Hin as (t2 & Hin & Ho);
        apply (Hiss t2); try exact Ho; apply elem_of_app;
        [by left|right; by right]. }
    assert (Hnd12 : NoDup (omap owner l1 ++ omap owner l2)).
    { destruct (owner t); [|exact Hnd].
      apply NoDup_app in Hnd as (H1 & H2 & H3).
      apply NoDup_cons in H3 as [H3 H4].
      apply NoDup_app. split; [exact H1|]. split; [|exact H4].
      intros x Hx Hx2. apply (H2 x Hx). by right. }
    destruct Hown as [[-> [Ho|[Ho|Ho]]]|(id & -> & Ho & Ho' & _)]; cbn.
    + rewrite Ho, app_nil_r. exact Hnd12.
    + rewrite Ho, app_nil_r. exact Hnd.
    + rewrite Ho, app_nil_r.
      apply NoDup_app in Hnd12 as (H1 & H2 & H3).
      apply NoDup_app. split; [exact H1|]. split.
      * intros x Hx Hx2. apply elem_of_cons in Hx2 as [->|Hx2].
        -- apply Hf, Hsub. apply elem_of_app. by left.
        -- by apply (H2 x).
      * apply NoDup_cons. split; [|exact H3].
        intros Hx. apply Hf, Hsub. apply elem_of_app. by right.
    + rewrite Ho', Ho in *.
      apply NoDup_app in Hnd as (H1 & H2 & H3).
      apply NoDup_cons in H3 as [H3 H4].
      apply NoDup_app. split; [exact Hnd12|]. split; [|apply NoDup_singleton].
      intros x Hx Hx2. apply list_elem_of_singleton in Hx2 as ->.
      apply elem_of_app in Hx as [Hx|Hx]; [|done].
      apply (H2 id Hx). left.
  - intros t2 id Hin Ho.
    assert (Hold : forall t3, t3 ∈ l1 ++ l2 -> owner t3 = Some id ->
                     id ∈ {[fresh e]} ∪ issued s).
    { intros t3 Hin3 Ho3. apply elem_of_union_r. apply (Hiss t3); [|exact Ho3].
      apply elem_of_app in Hin3 as [?|?]; apply elem_of_app;
        [by left|right; by right]. }
    apply elem_of_app in Hin as [Hin|Hin].
    + apply elem_of_app in Hin as [Hin|Hin].
      * apply (Hold t2); [apply elem_of_app; by left|exact Ho].
      * apply elem_of_cons in Hin as [->|Hin].
        -- destruct Hown as [[_ [H|[H|H]]]|(id' & _ & _ & H & _)];
             rewrite H in Ho; try discriminate.
           ++ apply elem_of_union_r. apply (Hiss t); [|exact Ho].
              apply elem_of_app. right. left.
           ++ injection Ho as <-. apply elem_of_union_l. by apply elem_of_singleton.
        -- apply (Hold t2); [apply elem_of_app; by right|exact Ho].
    + destruct Hown as [[-> _]|(id' & -> & Hot & _ & _)].
      * by apply elem_of_nil in Hin.
      * cbn in Hin. apply list_elem_of_singleton in Hin as ->.
        cbn in Ho. injection Ho as <-.
        apply elem_of_union_r. apply (Hiss t); [|exact Hot].
        apply elem_of_app. right. left.
Qed.

Lemma sys_ok_step s l s' : sys_ok s -> sys_step s l = Some s' -> sys_ok s'.
Proof.
  intros Hok Hstep. destruct l as [i e|rq|doc| ]; cbn in Hstep.
  - case_decide as Hf; [discriminate|].
    destruct (tasks s !! i) as [t|] eqn:Hi; [|discriminate].
    destruct (step_task t e (store s)) as [[[t' db'] ids]|] eqn:Ht;
      [|discriminate].
    injection Hstep as <-. by eapply sys_ok_run.
  - injection Hstep as <-. destruct Hok as [Ht Hk Hall Hnd Hiss].
    pose proof (route_quiet rq) as Hq.
    constructor; cbn; try done.
    + apply Forall_app. split; [exact Hall|]. repeat constructor. exact Hq.
    + rewrite omap_app. cbn. rewrite (quiet_head_launch _ Hq).
      by rewrite app_nil_r.
    + intros t id Hin Ho. apply elem_of_app in Hin as [Hin|Hin].
      * by apply (Hiss t).
      * apply list_elem_of_singleton in Hin as ->. cbn in Ho.
        rewrite (quiet_head_launch _ Hq) in Ho. discriminate.
  - injection Hstep as <-. destruct Hok as [[I1 I3 I4 I5] Hk Hall Hnd Hiss].
    constructor; cbn; try done.
    eapply Forall_impl; [exact Hall|]. intros t Hokt.
    eapply task_ok_undisturbed; [exact Hokt|]. intros id _.
    split; [eauto|by left].
  - injection Hstep as <-. destruct Hok as [Ht Hk _ _ _].
    constructor; cbn; try done.
    + constructor.
    + intros t id Hin. by apply elem_of_nil in Hin.
Qed.

Lemma reachable_ok s : reachable s -> sys_ok s.
Proof.
  induction 1 as [docs|s l s' _ IH Hstep]; [apply sys_ok_boot|].
  by eapply sys_ok_step.
Qed.

Lemma sys_run_reachable ls s s' :
  reachable s -> sys_run s ls = Some s' -> reachable s'.
Proof.
  revert s. induction ls as [|l ls IH]; intros s Hr; cbn.
  - by intros [= <-].
  - destruct (sys_step s l) as [s1|] eqn:E; [|discriminate].
    apply IH. by eapply reachable_step.
Qed.

Lemma after_reachable ls s : after ls = Some s -> reachable s.
Proof. apply sys_run_reachable, reachable_boot. Qed.

(** ** completed_at on terminal jobs *)

Lemma exec_case_terminal w e db db' :
  exec_case w e db db' ->
  (forall id j, ocr_jobs db !! id = Some j -> terminal (OCRJob.Status j) ->
     is_Some (OCRJob.CompletedAt j)) ->
  forall id j, ocr_jobs db' !! id = Some j -> terminal (OCRJob.Status j) ->
    is_Some (OCRJob.CompletedAt j).
Proof.
  intros Hc Hold id j'.
  destruct Hc as [->|job -> Hnone ->|id' st msg j -> Hj ->
                 |id' j -> Hj ->|id' j -> Hj ->|r j -> Hj ->]; cbn.
  - apply Hold.
  - destruct (decide (id = fresh e)) as [->|Hne].
    + rewrite lookup_insert_eq. intros [= <-]. cbn.
      intros [?|[?|?]]; discriminate.
    + rewrite lookup_insert_ne by done. apply Hold.
  - destruct (decide (id = id')) as [->|Hne].
    + rewrite lookup_insert_eq. intros [= <-].
      destruct st, msg; cbn; eauto; intros [?|[?|?]]; discriminate.
    + rewrite lookup_insert_ne by done. apply Hold.
  - destruct (decide (id = id')) as [->|Hne].
    + rewrite lookup_insert_eq. intros [= <-]. cbn. by eapply Hold.
    + rewrite lookup_insert_ne by done. apply Hold.
  - intros H. apply lookup_delete_Some in H as [_ H]. by eapply Hold.
  - apply Hold.
Qed.

(** The half of the [completed_at] invariant that the code keeps: in every
    reachable state a completed, failed or cancelled job has [completed_at]
    set.  (The other half fails after a retry, see above.) *)
Lemma terminal_jobs_have_completed_at s :
  reachable s ->
  forall id j, ocr_jobs (store s) !! id = Some j ->
    terminal (OCRJob.Status j) -> is_Some (OCRJob.CompletedAt j).
Proof.
  induction 1 as [docs|s l s' _ IH Hstep].
  - intros id j H. cbn in H. by rewrite lookup_empty in H.
  - destruct l as [i e|rq|doc| ]; cbn in Hstep.
    + case_decide; [discriminate|].
      destruct (tasks s !! i) as [t|]; [|discriminate].
      destruct (step_task t e (store s)) as [[[t' db'] ids]|] eqn:Ht;
        [|discriminate].
      injection Hstep as <-. cbn.
      eapply exec_case_terminal; [|exact IH].
      eapply step_task_exec_case, Ht.
    + by injection Hstep as <-.
    + by injection Hstep as <-.
    + by injection Hstep as <-.
Qed.

(** ** The retry count *)

(** C4. In every state the process can reach (requests arriving at any
    time, tasks interleaved between any two store accesses, driver and
    engine failing at will), every job has [retry_count <= max_retries];
    a task about to increment the retry count of a job finds that job's
    current count strictly below its maximum; and a dispatch whose snapshot
    has the count at or above the maximum performs, whatever the driver
    does, exactly one operation after the engine's failure, the write of
    failed with the engine's message: it never writes pending, increments
    nothing and launches nothing.  When the driver performs that write the
    job is failed, with that message and its retry count unchanged; when
    it refuses (the code discards the error of this write) the store stays
    as it was. *)
Theorem C4_retry_count_bounded :
  (forall s, reachable s ->
     forall id j, ocr_jobs (store s) !! id = Some j ->
       OCRJob.RetryCount j <= OCRJob.MaxRetries j)
  /\ (forall s, reachable s ->
        forall i t id j,
          tasks s !! i = Some t -> next_write t = WRetry id ->
          ocr_jobs (store s) !! id = Some j ->
          OCRJob.RetryCount j < OCRJob.MaxRetries j)
  /\ (forall env n db jobID job err,
        OCRJob.MaxRetries job <= OCRJob.RetryCount job ->
        let out :=
          run (JobService.processJob_engine_failed jobID job err) env n db in
        let msg := ("OCR processing failed: " ++ err)%string in
        (trace_of out).*1
        = [Called (JobUpdateStatus jobID JobStatusFailed (Some msg))]
        /\ launched_in (trace_of out) = []
        /\ (forall j,
              ocr_jobs db !! jobID = Some j -> fault (env n) = None ->
              exists j',
                ocr_jobs (store_of out) !! jobID = Some j'
                /\ OCRJob.Status j' = JobStatusFailed
                /\ OCRJob.ErrorMessage j' = Some msg
                /\ OCRJob.RetryCount j' = OCRJob.RetryCount j
                /\ OCRJob.MaxRetries j' = OCRJob.MaxRetries j)
        /\ (fault (env n) <> None \/ ocr_jobs db !! jobID = None ->
            store_of out = db)).
Proof.
  split; [|split].
  - intros s Hr id j Hj. apply reachable_ok in Hr.
    by eapply retries_bounded; [apply sys_tables|].
  - intros s Hr i t id j Hi Hw Hj. apply reachable_ok in Hr.
    pose proof (sys_tasks _ Hr) as Hall. rewrite Forall_forall in Hall.
    assert (Hokt : task_ok (store s) t).
    { apply Hall. by eapply list_elem_of_lookup_2. }
    apply task_ok_write_allowed in Hokt. rewrite Hw in Hokt. by apply Hokt.
  - intros env n db jobID job err Hge. cbn zeta.
    unfold JobService.processJob_engine_failed.
    destruct (decide (OCRJob.RetryCount job < OCRJob.MaxRetries job)); [lia|].
    cbn. unfold JobRepository.UpdateStatus.
    destruct (fault (env n)) as [e0|] eqn:Hf; cbn.
    { repeat split; try done. }
    destruct (ocr_jobs db !! jobID) as [j0|] eqn:Hj; cbn.
    + split; [done|]. split; [done|]. split.
      * intros j [= <-] _. eexists. split; [apply lookup_insert_eq|].
        repeat split.
      * intros [?|?]; done.
    + repeat split; try done.
Qed.

Lemma C4_retry_count_bounded_witness :
  match after redispatched with
  | Some s =>
    forall id j, ocr_jobs (store s) !! id = Some j ->
      OCRJob.RetryCount j <= OCRJob.MaxRetries j
  | None => False
  end.
Proof.
  destruct (after redispatched) as [s|] eqn:E.
  - exact (proj1 C4_retry_count_bounded s (after_reachable _ _ E)).
  - vm_compute in E. discriminate E.
Defined.

(** ** Results and completed jobs *)




(** * Further properties of the code *)

Local Open Scope string_scope.

(** ** The repositories *)

(** *** Jobs: insert, look up, delete *)

(** X1. After a successful [Create], [GetByID] of the new id returns the
    inserted row: the caller's document, owner, modes, priority, retry
    columns and metadata, with the generated id, status pending, progress 0,
    the insertion time as [created_at] and no [started_at], [completed_at]
    or [error_message].  The id was not in the table before, every other
    job and both other tables are untouched. *)
Theorem X1_job_create_then_get
    (e e' : Env) (db db' : DB) (job job' : OCRJob.t) :
  JobRepository.Create e db job = (Ok job', db') ->
  fault e' = None ->
  JobRepository.GetByID e' db' (fresh e)
  = Ok (OCRJob.mk (fresh e) (OCRJob.DocumentID job) (OCRJob.UserID job)
          JobStatusPending (OCRJob.Mode job) (OCRJob.Resolution job)
          (OCRJob.Priority job) (OCRJob.RetryCount job) (OCRJob.MaxRetries job)
          0 (now e) None None None (OCRJob.Metadata job))
  /\ OCRJob.ID job' = fresh e
  /\ ocr_jobs db !! fresh e = None
  /\ (forall id, id <> fresh e -> ocr_jobs db' !! id = ocr_jobs db !! id)
  /\ ocr_results db' = ocr_results db
  /\ documents db' = documents db.
Proof.
  unfold JobRepository.Create. intros Hc Hf.
  destruct (fault e); [discriminate|]. cbn in Hc.
  destruct (ocr_jobs db !! fresh e) eqn:Hnew; [discriminate|].
  injection Hc as <- <-. unfold JobRepository.GetByID. rewrite Hf. cbn.
  rewrite lookup_insert_eq. repeat split; try reflexivity.
  intros id Hne. by rewrite lookup_insert_ne.
Qed.

(** X2. After a successful [Delete] of a job, the job is gone for every
    statement of the repository ([GetByID], [UpdateStatus],
    [UpdateProgress], [IncrementRetryCount] and a second [Delete] all report
    "job not found" and change nothing), its result rows are gone with it,
    and every other job and the results of every other job are as before. *)
Theorem X2_job_delete_then_gone
    (e e' : Env) (db db' : DB) (jobID : uuid) :
  JobRepository.Delete e db jobID = (Ok tt, db') ->
  fault e' = None ->
  JobRepository.GetByID e' db' jobID = Err "job not found"
  /\ (forall status msg,
        JobRepository.UpdateStatus e' db' jobID status msg
        = (Err "job not found", db'))
  /\ (forall progress,
        JobRepository.UpdateProgress e' db' jobID progress
        = (Err "job not found", db'))
  /\ JobRepository.IncrementRetryCount e' db' jobID = (Err "job not found", db')
  /\ JobRepository.Delete e' db' jobID = (Err "job not found", db')
  /\ ResultRepository.GetByJobID e' db' jobID = Err "result not found"
  /\ (forall id, id <> jobID ->
        ocr_jobs db' !! id = ocr_jobs db !! id
        /\ results_for db' id = results_for db id)
  /\ documents db' = documents db.
Proof.
  unfold JobRepository.Delete. intros Hd Hf.
  destruct (fault e); [discriminate|].
  destruct (ocr_jobs db !! jobID) eqn:Hj; [|discriminate].
  injection Hd as <-.
  unfold JobRepository.GetByID, JobRepository.UpdateStatus,
    JobRepository.UpdateProgress, JobRepository.IncrementRetryCount,
    JobRepository.Delete, ResultRepository.GetByJobID, results_for.
  rewrite Hf. cbn. rewrite lookup_delete_eq, results_for_delete_same.
  repeat split; try reflexivity.
  - by rewrite lookup_delete_ne.
  - by apply results_for_delete_other.
Qed.

Lemma same_identity_refl j : same_identity j j.
Proof. repeat split. Qed.

Lemma status_update_identity status msg at_ j :
  same_identity j (JobRepository.status_update status msg at_ j).
Proof. destruct status, msg; repeat split. Qed.

(** X3. No statement the service can issue, and no [UpdateProgress],
    changes the identity of a job: id, document, owner, mode, resolution,
    priority, [max_retries], [created_at] and metadata of an existing row
    stay as they are, and its [retry_count] stays or grows by exactly one. *)
Theorem X3_job_identity_is_immutable :
  (forall R (op : Op R) e db id j j',
     ocr_jobs db !! id = Some j ->
     ocr_jobs (exec op e db).2 !! id = Some j' ->
     same_identity j j'
     /\ OCRJob.RetryCount j <= OCRJob.RetryCount j' <= OCRJob.RetryCount j + 1)
  /\ (forall e db jobID progress id j j',
        ocr_jobs db !! id = Some j ->
        ocr_jobs (JobRepository.UpdateProgress e db jobID progress).2 !! id
          = Some j' ->
        same_identity j j' /\ OCRJob.RetryCount j' = OCRJob.RetryCount j).
Proof.
  split.
  - intros R op e db id j j' Hj Hj'.
    apply exec_row in Hj' as [H|[(j0 & st & msg & Hw & H0 & ->)|
                                 [(j0 & Hw & H0 & ->)|(job & Hw & H0 & _)]]].
    + assert (j' = j) as -> by congruence.
      split; [apply same_identity_refl|lia].
    + assert (j0 = j) as -> by congruence.
      split; [apply status_update_identity|].
      destruct (status_update_retry st msg (now e) j) as [-> _]. lia.
    + assert (j0 = j) as -> by congruence.
      split; [repeat split|cbn; lia].
    + congruence.
  - intros e db jobID progress id j j' Hj.
    unfold JobRepository.UpdateProgress.
    destruct (fault e); cbn; [intros; simplify_eq; by split; [apply same_identity_refl|]|].
    destruct (ocr_jobs db !! jobID) as [j0|] eqn:E; cbn;
      [|intros; simplify_eq; by split; [apply same_identity_refl|]].
    case_decide; cbn; [|intros; simplify_eq; by split; [apply same_identity_refl|]].
    destruct (decide (id = jobID)) as [->|Hne].
    + rewrite lookup_insert_eq. intros [= <-]. simplify_eq. by repeat split.
    + rewrite lookup_insert_ne by done. intros. simplify_eq.
      by split; [apply same_identity_refl|].
Qed.

#[local] Instance job_newest_first_total : Total JobRepository.newest_first.
Proof. intros a b. unfold JobRepository.newest_first. lia. Qed.
#[local] Instance job_newest_first_trans : Transitive JobRepository.newest_first.
Proof. intros a b c. unfold JobRepository.newest_first. lia. Qed.
#[local] Instance result_newest_first_total : Total ResultRepository.newest_first.
Proof. intros a b. unfold ResultRepository.newest_first. lia. Qed.
#[local] Instance result_newest_first_trans : Transitive ResultRepository.newest_first.
Proof. intros a b c. unfold ResultRepository.newest_first. lia. Qed.



(** ** Results: insert, look up, update, delete *)

Lemma result_filter_fresh (l : list OCRResult.t) id :
  id ∉ OCRResult.ID <$> l -> filter (fun r => OCRResult.ID r = id) l = [].
Proof.
  intros Hid. induction l as [|r l IH]; [done|].
  rewrite filter_cons. rewrite fmap_cons, not_elem_of_cons in Hid.
  destruct Hid as [Hne Hid]. rewrite decide_False by done. by apply IH.
Qed.

(** [GetByJobID] with a working driver: no row of the job, or one of its
    rows. *)
Lemma GetByJobID_cases e db jobID :
  fault e = None ->
  (results_for db jobID = []
   /\ ResultRepository.GetByJobID e db jobID = Err "result not found")
  \/ (exists r, ResultRepository.GetByJobID e db jobID = Ok r
                 /\ r ∈ results_for db jobID).
Proof.
  intros Hf. unfold ResultRepository.GetByJobID, results_for. rewrite Hf.
  destruct (filter _ (ocr_results db)) as [|r rest]; [by left|].
  right. eexists. split; [reflexivity|].
  destruct ((r :: rest) !! pick e) as [x|] eqn:E; cbn.
  - by eapply list_elem_of_lookup_2.
  - left.
Qed.

(** X5. After a successful result [Create], the row (the caller's job,
    document and payload, with the generated id and the insertion time) is
    appended to the table; [GetByID] of the new id returns it; [GetByJobID]
    returns one of the job's rows (which one is the server's choice), so the
    new one when the job had none.  The two integers of the row fit their
    [INTEGER] columns, the job row it references exists, and no job is
    changed. *)
Theorem X5_result_create_then_get
    (e e' : Env) (db db' : DB) (result r' : OCRResult.t) :
  ResultRepository.Create e db result = (Ok r', db') ->
  fault e' = None ->
  r' = OCRResult.mk (fresh e) (OCRResult.JobID result)
         (OCRResult.DocumentID result) (OCRResult.RawText result)
         (OCRResult.MarkdownText result) (OCRResult.JSONData result)
         (OCRResult.ConfidenceScore result) (OCRResult.ProcessingTimeMs result)
         (OCRResult.NumPages result) (now e)
  /\ ocr_results db' = (ocr_results db ++ [r'])%list
  /\ ResultRepository.GetByID e' db' (fresh e) = Ok r'
  /\ (exists r,
        ResultRepository.GetByJobID e' db' (OCRResult.JobID result) = Ok r
        /\ r ∈ (results_for db (OCRResult.JobID result) ++ [r'])%list)
  /\ (forall i r,
        (results_for db (OCRResult.JobID result) ++ [r'])%list !! i = Some r ->
        pick e' = i ->
        ResultRepository.GetByJobID e' db' (OCRResult.JobID result) = Ok r)
  /\ (results_for db (OCRResult.JobID result) = [] ->
      ResultRepository.GetByJobID e' db' (OCRResult.JobID result) = Ok r')
  /\ fits_int4 (OCRResult.ProcessingTimeMs result)
  /\ fits_int4 (OCRResult.NumPages result)
  /\ is_Some (ocr_jobs db !! OCRResult.JobID result)
  /\ ocr_jobs db' = ocr_jobs db
  /\ documents db' = documents db.
Proof.
  unfold ResultRepository.Create. intros Hc Hf.
  destruct (fault e); [discriminate|].
  destruct (decide (_ /\ _)) as [[Hfit1 Hfit2]|]; [|discriminate]. cbn in Hc.
  destruct (ocr_jobs db !! OCRResult.JobID result) eqn:Hj; [|discriminate].
  case_decide as Hfresh; [discriminate|]. injection Hc as <- <-.
  set (r' := ResultRepository.stamped (fresh e) (now e) result).
  assert (Hfor : results_for
                   (with_results db (ocr_results db ++ [r'])) (OCRResult.JobID result)
                 = (results_for db (OCRResult.JobID result) ++ [r'])%list).
  { rewrite results_for_app. rewrite filter_cons, filter_nil.
    by rewrite decide_True. }
  split; [reflexivity|]. split; [reflexivity|]. split.
  { unfold ResultRepository.GetByID. rewrite Hf. cbn.
    rewrite filter_app, filter_cons, filter_nil. cbn.
    rewrite decide_True by done. by rewrite (result_filter_fresh _ _ Hfresh). }
  destruct (GetByJobID_cases e' (with_results db (ocr_results db ++ [r']))
              (OCRResult.JobID result) Hf) as [[Hnil _]|(r & Hr & Hin)].
  { rewrite Hfor in Hnil. by destruct (results_for db _). }
  rewrite Hfor in Hin.
  split; [by exists r|]. split.
  { intros i r0 Hi Hpick. unfold ResultRepository.GetByJobID. rewrite Hf.
    fold (results_for (with_results db (ocr_results db ++ [r']))
            (OCRResult.JobID result)).
    rewrite Hfor, Hpick.
    destruct (results_for db (OCRResult.JobID result) ++ [r'])%list
      as [|r1 rest] eqn:El; [done|].
    by rewrite Hi. }
  split.
  { intros Hnone. rewrite Hnone in Hin. cbn in Hin.
    apply list_elem_of_singleton in Hin. by subst r. }
  split; [exact Hfit1|]. split; [exact Hfit2|]. split; [eauto|]. done.
Qed.

Lemma result_filter_update (l : list OCRResult.t) (result : OCRResult.t) id :
  filter (fun r => OCRResult.ID r = id)
    ((fun r => if decide (OCRResult.ID r = OCRResult.ID result)
               then ResultRepository.set_payload result r else r) <$> l)
  = (fun r => if decide (OCRResult.ID r = OCRResult.ID result)
              then ResultRepository.set_payload result r else r)
      <$> filter (fun r => OCRResult.ID r = id) l.
Proof.
  induction l as [|r l IH]; [done|].
  rewrite fmap_cons, !filter_cons.
  assert (Hid : OCRResult.ID (if decide (OCRResult.ID r = OCRResult.ID result)
                              then ResultRepository.set_payload result r else r)
                = OCRResult.ID r) by (case_decide; reflexivity).
  rewrite Hid. destruct (decide (OCRResult.ID r = id)); [|exact IH].
  rewrite fmap_cons. by rewrite IH.
Qed.

(** X6. A successful result [Update] replaces the six payload columns of
    the row with that id and nothing else: a following [GetByID] returns the
    new payload with the row's old id, job, document and creation time;
    rows with another id read as before, the table keeps its length and the
    job each row belongs to, and no job is changed. *)
Theorem X6_result_update_then_get
    (e e' : Env) (db db' : DB) (result : OCRResult.t) :
  ResultRepository.Update e db result = (Ok tt, db') ->
  fault e' = None ->
  (exists old,
     ResultRepository.GetByID e' db (OCRResult.ID result) = Ok old
     /\ ResultRepository.GetByID e' db' (OCRResult.ID result)
        = Ok (OCRResult.mk (OCRResult.ID old) (OCRResult.JobID old)
                (OCRResult.DocumentID old) (OCRResult.RawText result)
                (OCRResult.MarkdownText result) (OCRResult.JSONData result)
                (OCRResult.ConfidenceScore result)
                (OCRResult.ProcessingTimeMs result) (OCRResult.NumPages result)
                (OCRResult.CreatedAt old)))
  /\ (forall id, id <> OCRResult.ID result ->
        ResultRepository.GetByID e' db' id = ResultRepository.GetByID e' db id)
  /\ OCRResult.JobID <$> ocr_results db' = OCRResult.JobID <$> ocr_results db
  /\ ocr_jobs db' = ocr_jobs db
  /\ documents db' = documents db.
Proof.
  unfold ResultRepository.Update. intros Hu Hf.
  destruct (fault e); [discriminate|].
  destruct (filter _ (ocr_results db)) as [|old rest] eqn:E; [discriminate|].
  injection Hu as <-. unfold ResultRepository.GetByID. rewrite Hf. cbn.
  split; [|split; [|split; [|done]]].
  - exists old. rewrite result_filter_update, E. cbn.
    assert (Hold : old ∈ filter (fun r => OCRResult.ID r = OCRResult.ID result)
                           (ocr_results db)) by (rewrite E; left).
    apply list_elem_of_filter in Hold as [Hid _].
    rewrite decide_True by done. done.
  - intros id Hne. rewrite result_filter_update.
    destruct (filter (fun r => OCRResult.ID r = id) (ocr_results db))
      as [|r l] eqn:E'; [done|]. cbn.
    assert (Hr : r ∈ filter (fun r => OCRResult.ID r = id) (ocr_results db))
      by (rewrite E'; left).
    apply list_elem_of_filter in Hr as [Hid _].
    rewrite decide_False by congruence. done.
  - rewrite <- list_fmap_compose. apply list_fmap_ext.
    intros i r _. cbn. by case_decide.
Qed.

Lemma result_filter_other (l : list OCRResult.t) id id' :
  id' <> id ->
  filter (fun r => OCRResult.ID r = id')
         (filter (fun r => OCRResult.ID r <> id) l)
  = filter (fun r => OCRResult.ID r = id') l.
Proof.
  intros Hne. induction l as [|r l IH]; [done|].
  rewrite !filter_cons. destruct (decide (OCRResult.ID r <> id)) as [H1|H1].
  - rewrite filter_cons. by rewrite IH.
  - rewrite IH. destruct (decide (OCRResult.ID r = id')); [|done].
    exfalso. apply H1. congruence.
Qed.

Lemma result_filter_same (l : list OCRResult.t) id :
  filter (fun r => OCRResult.ID r = id)
         (filter (fun r => OCRResult.ID r <> id) l) = [].
Proof.
  induction l as [|r l IH]; [done|].
  rewrite filter_cons. destruct (decide (OCRResult.ID r <> id)) as [H1|H1]; [|done].
  rewrite filter_cons. by rewrite decide_False.
Qed.

(** X7. After a successful result [Delete] the id is gone ([GetByID] and a
    second [Delete] report "result not found"), rows with another id read
    as before, and the jobs table is untouched: the job the row belonged to
    stays, whatever its status. *)
Theorem X7_result_delete_then_gone
    (e e' : Env) (db db' : DB) (id : uuid) :
  ResultRepository.Delete e db id = (Ok tt, db') ->
  fault e' = None ->
  ResultRepository.GetByID e' db' id = Err "result not found"
  /\ ResultRepository.Delete e' db' id = (Err "result not found", db')
  /\ (forall id', id' <> id ->
        ResultRepository.GetByID e' db' id' = ResultRepository.GetByID e' db id')
  /\ ocr_jobs db' = ocr_jobs db
  /\ documents db' = documents db.
Proof.
  unfold ResultRepository.Delete at 1. intros Hd Hf.
  destruct (fault e); [discriminate|].
  destruct (filter _ (ocr_results db)) as [|old rest] eqn:E; [discriminate|].
  injection Hd as <-.
  unfold ResultRepository.GetByID, ResultRepository.Delete. rewrite Hf. cbn.
  rewrite result_filter_same. repeat split; try reflexivity.
  intros id' Hne. by rewrite result_filter_other.
Qed.

(** X8. [GetByDocumentID] returns an error only when [Query] itself
    fails.  Otherwise it returns result rows of that document, newest first,
    each once: all of them (possibly none) when the stream of rows is not
    cut, and when it breaks after [k] rows, the [k] newest ones without
    any error. *)
Theorem X8_results_by_document (e : Env) (db : DB) (documentID : uuid) :
  match ResultRepository.GetByDocumentID e db documentID with
  | Ok results =>
    fault e = None
    /\ StronglySorted ResultRepository.newest_first results
    /\ exists lost,
         (results ++ lost)%list
           ≡ₚ filter (fun r => OCRResult.DocumentID r = documentID)
                     (ocr_results db)
         /\ StronglySorted ResultRepository.newest_first (results ++ lost)
         /\ (cut e = None -> lost = [])
         /\ (forall k, cut e = Some k ->
               length results = (k `min` length (results ++ lost))%nat)
  | Err msg => exists err, fault e = Some err
                           /\ msg = "failed to get results: " ++ err
  end.
Proof.
  unfold ResultRepository.GetByDocumentID. destruct (fault e) as [err|]; [eauto|].
  set (all := merge_sort ResultRepository.newest_first
                (filter (fun r => OCRResult.DocumentID r = documentID)
                        (ocr_results db))).
  assert (Hs : StronglySorted ResultRepository.newest_first all)
    by (apply StronglySorted_merge_sort; apply _).
  assert (Hp : all ≡ₚ filter (fun r => OCRResult.DocumentID r = documentID)
                             (ocr_results db))
    by apply merge_sort_Permutation.
  split; [done|]. unfold rows_read. destruct (cut e) as [k|].
  - split.
    { rewrite <- (take_drop k all) in Hs. by apply StronglySorted_app_1_l in Hs. }
    exists (drop k all). rewrite take_drop.
    repeat split; try done. intros k' [= <-]. apply length_take.
  - split; [done|]. exists []. rewrite app_nil_r. repeat split; done.
Qed.

Lemma launched_in_cons {R} (op : Op R) db tr :
  launched_in ((Called op, db) :: tr) = (launched op ++ launched_in tr)%list.
Proof. reflexivity. Qed.

Lemma launched_in_app tr1 tr2 :
  launched_in (tr1 ++ tr2) = (launched_in tr1 ++ launched_in tr2)%list.
Proof. unfold launched_in. apply bind_app. Qed.

(** Running [p] and then [f] is running the sequence. *)
Lemma run_bind {A B} (p : Prog A) (f : A -> Prog B) env n db :
  run (bind p f) env n db
  = let '(a, db1, tr1) := run p env n db in
    let '(b, db2, tr2) := run (f a) env (n + length tr1) db1 in
    (b, db2, (tr1 ++ tr2)%list).
Proof.
  revert n db. induction p as [a|R op k IH]; intros n db; cbn.
  - rewrite Nat.add_0_r. by destruct (run (f a) env n db) as [[b db2] tr2].
  - destruct (exec op (env n) db) as [r db1]. rewrite IH.
    destruct (run (k r) env (S n) db1) as [[a db2] tr1]. cbn.
    replace (n + S (length tr1))%nat with (S (n + length tr1)) by lia.
    by destruct (run (f a) env (S (n + length tr1)) db2) as [[b db3] tr2].
Qed.

(** ** SubmitJob *)

(** What a submission leaves behind, whatever the environment does. *)
Lemma SubmitJob_outcome env n db req userID :
  let out := run (JobService.SubmitJob req userID) env n db in
  match result_of out with
  | Ok job =>
    exists doc,
      documents db !! JobSubmissionRequest.DocumentID req = Some doc
      /\ Document.DeletedAt doc = None /\ Document.UserID doc = userID
      /\ fault (env n) = None /\ fault (env (S n)) = None
      /\ ocr_jobs db !! fresh (env (S n)) = None
      /\ job = OCRJob.mk (fresh (env (S n))) (JobSubmissionRequest.DocumentID req)
                 userID JobStatusPending (JobSubmissionRequest.Mode req)
                 (JobSubmissionRequest.Resolution req)
                 (JobSubmissionRequest.Priority req) 0 3 0 (now (env (S n)))
                 None None None (JobSubmissionRequest.Metadata req)
      /\ store_of out = with_jobs db (<[fresh (env (S n)) := job]> (ocr_jobs db))
      /\ launched_in (trace_of out) = [fresh (env (S n))]
      /\ length (trace_of out) = 3%nat
  | Err _ =>
    store_of out = db /\ launched_in (trace_of out) = []
    /\ (length (trace_of out) <= 2)%nat
  end.
Proof.
  unfold JobService.SubmitJob. cbn.
  unfold DocumentRepository.GetByID.
  destruct (fault (env n)) eqn:Hf0; cbn; [repeat split; lia|].
  destruct (documents db !! JobSubmissionRequest.DocumentID req) as [doc|] eqn:Hd;
    cbn; [|repeat split; lia].
  destruct (Document.DeletedAt doc) eqn:Hdel; cbn; [repeat split; lia|].
  case_decide as Hown; cbn; [repeat split; lia|].
  unfold JobRepository.Create.
  destruct (fault (env (S n))) eqn:Hf1; cbn; [repeat split; lia|].
  destruct (ocr_jobs db !! fresh (env (S n))) eqn:Hnew; cbn; [repeat split; lia|].
  exists doc. repeat split; try done.
Qed.

(** X10. A submission for a live document of the caller, with a working
    driver and a fresh id, creates exactly one job and launches exactly one
    dispatch, of that job: the job is pending with retry count 0, maximum 3,
    progress 0, the caller as owner and the requested document, modes and
    priority; nothing else in the store changes. *)
Theorem X10_submit_creates_one_pending_job
    (env : nat -> Env) (n : nat) (db : DB)
    (req : JobSubmissionRequest.t) (userID : uuid) (doc : Document.t) :
  documents db !! JobSubmissionRequest.DocumentID req = Some doc ->
  Document.DeletedAt doc = None ->
  Document.UserID doc = userID ->
  fault (env n) = None -> fault (env (S n)) = None ->
  ocr_jobs db !! fresh (env (S n)) = None ->
  let out := run (JobService.SubmitJob req userID) env n db in
  let job :=
    OCRJob.mk (fresh (env (S n))) (JobSubmissionRequest.DocumentID req)
      userID JobStatusPending (JobSubmissionRequest.Mode req)
      (JobSubmissionRequest.Resolution req) (JobSubmissionRequest.Priority req)
      0 3 0 (now (env (S n))) None None None
      (JobSubmissionRequest.Metadata req) in
  result_of out = Ok job
  /\ store_of out
     = mkDB (<[fresh (env (S n)) := job]> (ocr_jobs db)) (ocr_results db)
            (documents db)
  /\ launched_in (trace_of out) = [fresh (env (S n))].
Proof.
  intros Hd Hdel Hown Hf0 Hf1 Hnew.
  pose proof (SubmitJob_outcome env n db req userID) as H. cbn zeta in H |- *.
  destruct (result_of (run (JobService.SubmitJob req userID) env n db))
    as [job|msg] eqn:Hr.
  - destruct H as (_ & _ & _ & _ & _ & _ & _ & -> & Hs & Hl & _).
    rewrite Hs, Hl. done.
  - exfalso. revert Hr. unfold JobService.SubmitJob. cbn.
    unfold DocumentRepository.GetByID. rewrite Hf0, Hd, Hdel. cbn.
    rewrite decide_False by (intros ?; done). cbn.
    unfold JobRepository.Create. rewrite Hf1. cbn. rewrite Hnew. cbn. done.
Qed.

(** X11. A submission that fails (document missing, soft-deleted or owned
    by someone else; driver fault; id collision) creates no job, launches
    nothing and leaves the store as it was.  With a working driver, a
    missing or soft-deleted document is reported as "document not found:
    document not found" and another user's document as "unauthorized:
    document does not belong to user", before any write is attempted. *)
Theorem X11_failed_submit_leaves_nothing
    (env : nat -> Env) (n : nat) (db : DB)
    (req : JobSubmissionRequest.t) (userID : uuid) :
  let out := run (JobService.SubmitJob req userID) env n db in
  (forall msg, result_of out = Err msg ->
     store_of out = db /\ launched_in (trace_of out) = [])
  /\ (fault (env n) = None ->
      DocumentRepository.GetByID (env n) db (JobSubmissionRequest.DocumentID req)
        = Err "document not found" ->
      run (JobService.SubmitJob req userID) env n db
      = (Err "document not found: document not found", db,
         [(Called (DocumentGetByID (JobSubmissionRequest.DocumentID req)), db)]))
  /\ (forall doc,
        DocumentRepository.GetByID (env n) db (JobSubmissionRequest.DocumentID req)
          = Ok doc ->
        Document.UserID doc <> userID ->
        run (JobService.SubmitJob req userID) env n db
        = (Err "unauthorized: document does not belong to user", db,
           [(Called (DocumentGetByID (JobSubmissionRequest.DocumentID req)), db)])).
Proof.
  cbn zeta. split; [|split].
  - intros msg Hr. pose proof (SubmitJob_outcome env n db req userID) as H.
    cbn zeta in H. rewrite Hr in H. tauto.
  - intros _ Hg. unfold JobService.SubmitJob. cbn. by rewrite Hg.
  - intros doc Hg Hne. unfold JobService.SubmitJob. cbn. rewrite Hg.
    by rewrite decide_True.
Qed.

(** ** DeleteJob *)

(** X12. [DeleteJob] never half-deletes: whenever it returns an error the
    store is exactly as before.  For the owner of a pending or processing
    job (driver working) the error is "cannot delete active job, cancel it
    first". *)
Theorem X12_delete_refused_changes_nothing
    (env : nat -> Env) (n : nat) (db : DB) (jobID userID : uuid) :
  let out := run (JobService.DeleteJob jobID userID) env n db in
  (forall msg, result_of out = Err msg -> store_of out = db)
  /\ (forall job,
        fault (env n) = None -> ocr_jobs db !! jobID = Some job ->
        OCRJob.UserID job = userID ->
        OCRJob.Status job = JobStatusPending
        \/ OCRJob.Status job = JobStatusProcessing ->
        result_of out = Err "cannot delete active job, cancel it first").
Proof.
  cbn zeta. unfold JobService.DeleteJob. cbn. split.
  - intros msg. destruct (JobRepository.GetByID (env n) db jobID) as [job|];
      cbn; [|done].
    repeat (case_decide; cbn; try done).
    unfold JobRepository.Delete. destruct (fault (env (S n))); cbn; [done|].
    destruct (ocr_jobs db !! jobID); cbn; done.
  - intros job Hf Hj Hown Hst. rewrite (GetByID_found _ _ _ _ Hf Hj).
    rewrite decide_False by (intros ?; done).
    by rewrite decide_True.
Qed.

(** X13. The owner's [DeleteJob] of a job that is neither pending nor
    processing (driver working) removes the job row and every result row of
    that job and nothing else; afterwards the job is "job not found" for
    [GetJob] and for [GetJobResult]. *)
Theorem X13_delete_removes_job_and_results
    (env : nat -> Env) (n : nat) (db : DB) (jobID : uuid) (job : OCRJob.t) :
  ocr_jobs db !! jobID = Some job ->
  OCRJob.Status job <> JobStatusPending ->
  OCRJob.Status job <> JobStatusProcessing ->
  fault (env n) = None -> fault (env (S n)) = None ->
  let out := run (JobService.DeleteJob jobID (OCRJob.UserID job)) env n db in
  result_of out = Ok tt
  /\ store_of out
     = mkDB (delete jobID (ocr_jobs db))
            (filter (fun r => OCRResult.JobID r <> jobID) (ocr_results db))
            (documents db)
  /\ (forall env' n',
        fault (env' n') = None ->
        result_of (run (JobService.GetJob jobID (OCRJob.UserID job)) env' n'
                       (store_of out)) = Err "job not found"
        /\ result_of (run (JobService.GetJobResult jobID (OCRJob.UserID job))
                          env' n' (store_of out)) = Err "job not found").
Proof.
  intros Hj Hp Hq Hf0 Hf1.
  assert (Hrun : run (JobService.DeleteJob jobID (OCRJob.UserID job)) env n db
                 = (Ok tt,
                    mkDB (delete jobID (ocr_jobs db))
                         (filter (fun r => OCRResult.JobID r <> jobID)
                                 (ocr_results db))
                         (documents db),
                    [(Called (JobGetByID jobID), db);
                     (Called (JobDelete jobID),
                      mkDB (delete jobID (ocr_jobs db))
                           (filter (fun r => OCRResult.JobID r <> jobID)
                                   (ocr_results db))
                           (documents db))])).
  { unfold JobService.DeleteJob. cbn. rewrite (GetByID_found _ _ _ _ Hf0 Hj).
    rewrite decide_False by (intros ?; done).
    rewrite decide_False by tauto. cbn.
    unfold JobRepository.Delete. rewrite Hf1, Hj. reflexivity. }
  cbn zeta. rewrite Hrun. cbn [result_of store_of fst snd].
  split; [done|]. split; [done|].
  intros env' n' Hf. unfold JobService.GetJob, JobService.GetJobResult. cbn.
  unfold JobRepository.GetByID. rewrite Hf. cbn. rewrite lookup_delete_eq. done.
Qed.

Lemma CancelJob_ok_inv
    (env : nat -> Env) (n : nat) (db : DB) (jobID userID : uuid) :
  result_of (run (JobService.CancelJob jobID userID) env n db) = Ok tt ->
  exists job,
    ocr_jobs db !! jobID = Some job /\ OCRJob.UserID job = userID
    /\ ~ terminal (OCRJob.Status job)
    /\ fault (env n) = None /\ fault (env (S n)) = None
    /\ store_of (run (JobService.CancelJob jobID userID) env n db)
       = with_jobs db
           (<[jobID := JobRepository.status_update JobStatusCancelled None
                         (now (env (S n))) job]> (ocr_jobs db)).
Proof.
  unfold JobService.CancelJob. cbn.
  destruct (JobRepository.GetByID (env n) db jobID) as [job|] eqn:Hg;
    cbn; [|done].
  case_decide as Hown; cbn; [done|]. case_decide as Hterm; cbn; [done|].
  unfold JobRepository.UpdateStatus.
  destruct (fault (env (S n))) eqn:Hf1; cbn; [done|].
  pose proof Hg as Hg'. apply GetByID_inv in Hg'.
  assert (Hf0 : fault (env n) = None).
  { unfold JobRepository.GetByID in Hg. by destruct (fault (env n)). }
  rewrite Hg'. cbn. intros _. exists job.
  repeat split; try done.
Qed.

(** ** CancelJob on a finished job *)

(** X14. [CancelJob] returns an error without touching the store whenever
    it returns an error.  For the owner of a completed, failed or cancelled
    job the error names the status; in particular a second cancellation of
    the same job fails with "cannot cancel job with status: cancelled" and
    leaves the job as the first one left it. *)
Theorem X14_cancel_refused_changes_nothing
    (env : nat -> Env) (n : nat) (db : DB) (jobID userID : uuid) :
  let out := run (JobService.CancelJob jobID userID) env n db in
  (forall msg, result_of out = Err msg -> store_of out = db)
  /\ (forall job,
        fault (env n) = None -> ocr_jobs db !! jobID = Some job ->
        OCRJob.UserID job = userID -> terminal (OCRJob.Status job) ->
        result_of out
        = Err ("cannot cancel job with status: "
               ++ JobStatus_string (OCRJob.Status job)))
  /\ (forall env' n',
        result_of out = Ok tt -> fault (env' n') = None ->
        let again :=
          run (JobService.CancelJob jobID userID) env' n' (store_of out) in
        result_of again = Err "cannot cancel job with status: cancelled"
        /\ store_of again = store_of out).
Proof.
  cbn zeta. unfold JobService.CancelJob. cbn. split; [|split].
  - intros msg. destruct (JobRepository.GetByID (env n) db jobID) as [job|];
      cbn; [|done].
    repeat (case_decide; cbn; try done).
    unfold JobRepository.UpdateStatus. destruct (fault (env (S n))); cbn; [done|].
    destruct (ocr_jobs db !! jobID); cbn; done.
  - intros job Hf Hj Hown Hst. rewrite (GetByID_found _ _ _ _ Hf Hj).
    rewrite decide_False by (intros ?; done).
    by rewrite decide_True.
  - intros env' n' Hok Hf'.
    apply CancelJob_ok_inv in Hok as (job & Hj & Hown & Hterm & _ & _ & Hs).
    unfold JobService.CancelJob in Hs. cbn in Hs. rewrite Hs.
    unfold JobRepository.GetByID. rewrite Hf'. cbn.
    rewrite lookup_insert_eq. cbn.
    rewrite decide_False by (intros ?; done).
    rewrite decide_True by tauto. done.
Qed.

Lemma GetByJobID_inv e db jobID r :
  ResultRepository.GetByJobID e db jobID = Ok r ->
  fault e = None /\ r ∈ results_for db jobID.
Proof.
  intros Hr. destruct (fault e) as [err|] eqn:Hf.
  { unfold ResultRepository.GetByJobID in Hr. by rewrite Hf in Hr. }
  split; [done|].
  destruct (GetByJobID_cases e db jobID Hf) as [[_ H]|(r0 & H & Hin)];
    congruence.
Qed.

(** X15. [GetJob] and [GetJobResult] never change the store.  A job
    returned by [GetJob] is the stored row of that id and belongs to the
    caller; a result returned by [GetJobResult] is a result row of that job
    (the server's choice if the job has several), and the job exists and
    belongs to the caller. *)
Theorem X15_reads_return_the_callers_rows
    (env : nat -> Env) (n : nat) (db : DB) (jobID userID : uuid) :
  let got := run (JobService.GetJob jobID userID) env n db in
  let res := run (JobService.GetJobResult jobID userID) env n db in
  store_of got = db /\ store_of res = db
  /\ (forall job, result_of got = Ok job ->
        ocr_jobs db !! jobID = Some job /\ OCRJob.UserID job = userID)
  /\ (forall r, result_of res = Ok r ->
        r ∈ ocr_results db
        /\ OCRResult.JobID r = jobID
        /\ exists job, ocr_jobs db !! jobID = Some job
                       /\ OCRJob.UserID job = userID).
Proof.
  cbn zeta. unfold JobService.GetJob, JobService.GetJobResult. cbn.
  destruct (JobRepository.GetByID (env n) db jobID) as [job|] eqn:Hg; cbn;
    [|done].
  apply GetByID_inv in Hg.
  case_decide as Hown; cbn; [done|].
  assert (OCRJob.UserID job = userID) by (by destruct (decide (OCRJob.UserID job = userID))).
  split; [done|]. split.
  { by destruct (ResultRepository.GetByJobID _ _ _). }
  split; [by intros ? [= <-]|].
  intros r.
  destruct (ResultRepository.GetByJobID (env (S n)) db jobID) as [r0|] eqn:Hr;
    cbn; [|done].
  intros [= <-]. apply GetByJobID_inv in Hr as [_ Hin].
  unfold results_for in Hin. apply list_elem_of_filter in Hin as [? ?]. eauto.
Qed.



(** ** Programs whose operations all satisfy a predicate *)

Lemma all_ops_bind {A B} (P : forall R, Op R -> Prop)
    (p : Prog A) (f : A -> Prog B) :
  all_ops P p -> (forall a, all_ops P (f a)) -> all_ops P (bind p f).
Proof.
  intros Hp Hf. induction p as [a|R op k IH]; cbn; [apply Hf|].
  destruct Hp as [Hop Hk]. split; [exact Hop|]. intros r. apply IH, Hk.
Qed.

Ltac all_ops_step :=
  match goal with
  | |- all_ops _ (Ret _) => exact I
  | |- all_ops _ (Do _ _) =>
    split; [first [exact I|reflexivity|by split|cbn; eauto]|intros ?]
  | |- all_ops _ (match ?x with _ => _ end) => destruct x
  | |- all_ops _ (bind _ _) => apply all_ops_bind; [|intros ?]
  | |- all_ops _ _ => progress cbn
  | |- all_ops _ _ =>
    progress (unfold JobHandler.success_json, JobHandler.error_json)
  end.

Ltac all_ops_solve := repeat all_ops_step; try done.

Lemma processJob_confined id : all_ops (confined_to id) (JobService.processJob id).
Proof.
  unfold JobService.processJob, JobService.processJob_claim,
    JobService.processJob_document, JobService.processJob_engine,
    JobService.processJob_engine_failed, JobService.processJob_retry,
    JobService.processJob_requeue, JobService.processJob_backoff,
    JobService.processJob_save, JobService.processJob_fail,
    JobService.processJob_complete.
  repeat all_ops_step.
Qed.

(** What a run of operations confined to job [id] leaves as it was. *)
Lemma confined_run {A} (p : Prog A) id env n db :
  all_ops (confined_to id) p ->
  let out := run p env n db in
  (forall id', id' <> id ->
     ocr_jobs (store_of out) !! id' = ocr_jobs db !! id'
     /\ results_for (store_of out) id' = results_for db id')
  /\ documents (store_of out) = documents db
  /\ (is_Some (ocr_jobs (store_of out) !! id) <-> is_Some (ocr_jobs db !! id))
  /\ results_for db id `prefix_of` results_for (store_of out) id
  /\ (forall x, x ∈ launched_in (trace_of out) -> x = id).
Proof.
  cbn zeta. revert n db. induction p as [a|R op k IH]; intros n db Hall.
  - cbn. repeat split; try done. intros x Hx. by apply elem_of_nil in Hx.
  - destruct Hall as [Hop Hk].
    rewrite store_of_Do, trace_of_Do, launched_in_cons.
    specialize (IH (exec op (env n) db).1 (S n) (exec op (env n) db).2
                   (Hk _)).
    destruct IH as (I1 & I2 & I3 & I4 & I5).
    set (db1 := (exec op (env n) db).2) in *.
    assert (Hstep :
      (forall id', id' <> id ->
         ocr_jobs db1 !! id' = ocr_jobs db !! id'
         /\ results_for db1 id' = results_for db id')
      /\ documents db1 = documents db
      /\ (is_Some (ocr_jobs db1 !! id) <-> is_Some (ocr_jobs db !! id))
      /\ results_for db id `prefix_of` results_for db1 id).
    { subst db1. pose proof (exec_cases op (env n) db) as Hc.
      destruct Hc as [->|job Hw Hnone ->|id0 st msg j Hw Hj ->
                     |id0 j Hw Hj ->|id0 j Hw Hj ->|r j Hw Hj ->].
      - repeat split; done.
      - destruct op; cbn in Hop, Hw; done.
      - assert (id0 = id) as -> by (destruct op; cbn in Hop, Hw; congruence).
        split; [|split; [done|split; [|done]]].
        + intros id' Hne. cbn. by rewrite lookup_insert_ne.
        + cbn. rewrite lookup_insert_eq, Hj. split; eauto.
      - assert (id0 = id) as -> by (destruct op; cbn in Hop, Hw; congruence).
        split; [|split; [done|split; [|done]]].
        + intros id' Hne. cbn. by rewrite lookup_insert_ne.
        + cbn. rewrite lookup_insert_eq, Hj. split; eauto.
      - destruct op; cbn in Hop, Hw; done.
      - assert (OCRResult.JobID r = id) as Hr
          by (destruct op; cbn in Hop, Hw; congruence).
        split; [|split; [done|split; [done|]]].
        + intros id' Hne. split; [done|].
          rewrite results_for_app. rewrite filter_cons, filter_nil.
          change (OCRResult.JobID (ResultRepository.stamped (fresh (env n))
                                     (now (env n)) r))
            with (OCRResult.JobID r).
          rewrite decide_False by congruence. by rewrite app_nil_r.
        + rewrite results_for_app. by apply prefix_app_r. }
    destruct Hstep as (S1 & S2 & S3 & S4).
    split; [|split; [|split; [|split]]].
    + intros id' Hne. destruct (I1 id' Hne) as [-> ->]. by apply S1.
    + congruence.
    + by rewrite I3.
    + by etrans.
    + intros x Hx. apply elem_of_app in Hx as [Hx|Hx]; [|by apply I5].
      destruct op; cbn in Hx, Hop; try (by apply elem_of_nil in Hx).
      apply list_elem_of_singleton in Hx. congruence.
Qed.

(** X21. Whatever the driver and the engine do, a dispatch of job [id]
    writes to no other job and to no other job's results, leaves the
    documents alone, neither creates nor deletes the row of [id], only adds
    to its results, and launches no dispatch but of [id]. *)
Theorem X21_dispatch_confined_to_its_job
    (env : nat -> Env) (n : nat) (db : DB) (id : uuid) :
  let out := run (JobService.processJob id) env n db in
  (forall id', id' <> id ->
     ocr_jobs (store_of out) !! id' = ocr_jobs db !! id'
     /\ results_for (store_of out) id' = results_for db id')
  /\ documents (store_of out) = documents db
  /\ (is_Some (ocr_jobs (store_of out) !! id) <-> is_Some (ocr_jobs db !! id))
  /\ results_for db id `prefix_of` results_for (store_of out) id
  /\ (forall x, x ∈ launched_in (trace_of out) -> x = id).
Proof. apply confined_run, processJob_confined. Qed.

(** ** The dispatch of a pending job, path by path *)

Section Dispatch.
Context (env : nat -> Env) (n : nat) (db : DB) (jobID : uuid) (job : OCRJob.t).
Hypothesis Hjob : ocr_jobs db !! jobID = Some job.
Hypothesis Hpending : OCRJob.Status job = JobStatusPending.
Hypothesis Hread : fault (env n) = None.
Hypothesis Hclaim : fault (env (S n)) = None.

Ltac walk_to_document :=
  unfold JobService.processJob;
  run_op; rewrite (GetByID_found _ _ _ _ Hread Hjob);
  destruct (decide (OCRJob.Status job <> JobStatusPending)) as [?|_];
    [congruence|];
  unfold JobService.processJob_claim;
  run_op; rewrite (UpdateStatus_found _ _ _ _ _ _ Hclaim Hjob); cbn [fst snd];
  unfold JobService.processJob_document; run_op.

Ltac fail_with :=
  unfold JobService.processJob_fail; run_op;
  (erewrite UpdateStatus_found; [|eassumption|apply lookup_with_jobs_insert]);
  cbn [fst snd].

Ltac history :=
  unfold job_history; cbn [fmap list_fmap fst snd trace_of run];
  rewrite ?job_status_with_jobs_insert;
  unfold job_status, job_row; cbn [ocr_jobs with_results with_jobs];
  rewrite ?lookup_insert_eq, ?Hjob; cbn; rewrite ?Hpending.

Lemma document_gone_lookup :
  fault (env (S (S n))) = None ->
  (forall doc, documents db !! OCRJob.DocumentID job = Some doc ->
     Document.DeletedAt doc <> None) ->
  DocumentRepository.GetByID (env (S (S n)))
    (with_jobs db
       (<[jobID := JobRepository.status_update JobStatusProcessing None
                     (now (env (S n))) job]> (ocr_jobs db)))
    (OCRJob.DocumentID job)
  = Err "document not found".
Proof using.
  intros Hf Hgone. unfold DocumentRepository.GetByID. rewrite Hf. cbn.
  destruct (documents db !! OCRJob.DocumentID job) as [doc|] eqn:Hd; [|done].
  specialize (Hgone doc eq_refl). by destruct (Document.DeletedAt doc).
Qed.

Lemma dispatch_document_gone :
  fault (env (S (S n))) = None -> fault (env (S (S (S n)))) = None ->
  (forall doc, documents db !! OCRJob.DocumentID job = Some doc ->
     Document.DeletedAt doc <> None) ->
  let out := run (JobService.processJob jobID) env n db in
  let msg := "Failed to get document: document not found" in
  job_history jobID (trace_of out)
  = [(Called (JobGetByID jobID), Some JobStatusPending);
     (Called (JobUpdateStatus jobID JobStatusProcessing None),
      Some JobStatusProcessing);
     (Called (DocumentGetByID (OCRJob.DocumentID job)), Some JobStatusProcessing);
     (Called (JobUpdateStatus jobID JobStatusFailed (Some msg)),
      Some JobStatusFailed)]
  /\ store_of out
     = with_jobs db
         (<[jobID :=
              OCRJob.mk (OCRJob.ID job) (OCRJob.DocumentID job) (OCRJob.UserID job)
                JobStatusFailed (OCRJob.Mode job) (OCRJob.Resolution job)
                (OCRJob.Priority job) (OCRJob.RetryCount job)
                (OCRJob.MaxRetries job) 0 (OCRJob.CreatedAt job)
                (Some (now (env (S n)))) (Some (now (env (S (S (S n))))))
                (Some msg) (OCRJob.Metadata job)]> (ocr_jobs db))
  /\ launched_in (trace_of out) = [].
Proof using All.
  intros Hf2 Hf3 Hgone. cbn zeta.
  split; [|split].
  - walk_to_document. rewrite (document_gone_lookup Hf2 Hgone).
    fail_with. history. reflexivity.
  - walk_to_document. rewrite (document_gone_lookup Hf2 Hgone).
    fail_with. cbn [store_of run fst snd]. unfold with_jobs. cbn.
    by rewrite insert_insert_eq.
  - walk_to_document. rewrite (document_gone_lookup Hf2 Hgone).
    fail_with. reflexivity.
Qed.

Context (doc : Document.t) (answer : OCRResponse.t).
Hypothesis Hdoc : documents db !! OCRJob.DocumentID job = Some doc.
Hypothesis Hlive : Document.DeletedAt doc = None.
Hypothesis Hfetch : fault (env (S (S n))) = None.
Hypothesis Hengine : ocr (env (S (S (S n)))) = Ok answer.

Ltac walk_to_save :=
  walk_to_document;
  erewrite DocumentGetByID_found by (first [eassumption|exact Hdoc]);
  unfold JobService.processJob_engine; run_op; rewrite Hengine;
  unfold JobService.processJob_save; run_op.

Lemma result_saved_in :
  fault (env (4 + n)%nat) = None ->
  fits_int4 (OCRResponse.ProcessingTime answer) ->
  fits_int4 (OCRResponse.NumPages answer) ->
  fresh (env (4 + n)%nat) ∉ OCRResult.ID <$> ocr_results db ->
  ResultRepository.Create (env (4 + n)%nat)
    (with_jobs db
       (<[jobID := JobRepository.status_update JobStatusProcessing None
                     (now (env (S n))) job]> (ocr_jobs db)))
    (dispatch_result jobID job answer 0%N 0)
  = (Ok (dispatch_result jobID job answer (fresh (env (4 + n)%nat)) (now (env (4 + n)%nat))),
     with_results
       (with_jobs db
          (<[jobID := JobRepository.status_update JobStatusProcessing None
                        (now (env (S n))) job]> (ocr_jobs db)))
       (ocr_results db
        ++ [dispatch_result jobID job answer (fresh (env (4 + n)%nat)) (now (env (4 + n)%nat))])%list).
Proof using.
  intros Hf Hfit1 Hfit2 Hnew. unfold ResultRepository.Create. rewrite Hf.
  rewrite decide_True by (split; [exact Hfit1|exact Hfit2]). cbn.
  rewrite lookup_insert_eq. by rewrite decide_False.
Qed.

Lemma dispatch_success :
  fault (env (4 + n)%nat) = None -> fault (env (5 + n)%nat) = None ->
  fits_int4 (OCRResponse.ProcessingTime answer) ->
  fits_int4 (OCRResponse.NumPages answer) ->
  fresh (env (4 + n)%nat) ∉ OCRResult.ID <$> ocr_results db ->
  let out := run (JobService.processJob jobID) env n db in
  let result := dispatch_result jobID job answer (fresh (env (4 + n)%nat)) (now (env (4 + n)%nat)) in
  job_history jobID (trace_of out)
  = [(Called (JobGetByID jobID), Some JobStatusPending);
     (Called (JobUpdateStatus jobID JobStatusProcessing None),
      Some JobStatusProcessing);
     (Called (DocumentGetByID (OCRJob.DocumentID job)), Some JobStatusProcessing);
     (Called (ProcessDocument (Document.FilePath doc) (OCRJob.Mode job)
                (OCRJob.Resolution job)), Some JobStatusProcessing);
     (Called (ResultCreate (dispatch_result jobID job answer 0%N 0)), Some JobStatusProcessing);
     (Called (JobUpdateStatus jobID JobStatusCompleted None),
      Some JobStatusCompleted)]
  /\ store_of out
     = mkDB
         (<[jobID :=
              OCRJob.mk (OCRJob.ID job) (OCRJob.DocumentID job) (OCRJob.UserID job)
                JobStatusCompleted (OCRJob.Mode job) (OCRJob.Resolution job)
                (OCRJob.Priority job) (OCRJob.RetryCount job)
                (OCRJob.MaxRetries job) 100 (OCRJob.CreatedAt job)
                (Some (now (env (S n)))) (Some (now (env (5 + n)%nat)))
                (OCRJob.ErrorMessage job) (OCRJob.Metadata job)]> (ocr_jobs db))
         (ocr_results db ++ [result])
         (documents db)
  /\ launched_in (trace_of out) = [].
Proof using All.
  intros Hf4 Hf5 Hfit1 Hfit2 Hnew. cbn zeta. cbn [Nat.add] in *.
  pose proof (result_saved_in Hf4 Hfit1 Hfit2 Hnew) as Hsave. cbn [Nat.add] in Hsave.
  unfold dispatch_result in Hsave.
  split; [|split].
  - walk_to_save. unfold dispatch_result. rewrite Hsave. cbn [fst snd].
    unfold JobService.processJob_complete. run_op.
    (erewrite UpdateStatus_found; [|eassumption|apply lookup_insert_eq]).
    cbn [fst snd]. history. reflexivity.
  - walk_to_save. rewrite Hsave. cbn [fst snd].
    unfold JobService.processJob_complete. run_op.
    (erewrite UpdateStatus_found; [|eassumption|apply lookup_insert_eq]).
    cbn [store_of run fst snd]. unfold with_jobs, with_results. cbn.
    by rewrite insert_insert_eq.
  - walk_to_save. rewrite Hsave. cbn [fst snd].
    unfold JobService.processJob_complete. run_op.
    (erewrite UpdateStatus_found; [|eassumption|apply lookup_insert_eq]).
    reflexivity.
Qed.

Lemma dispatch_save_fails (err : string) :
  fault (env (4 + n)%nat) = Some err -> fault (env (5 + n)%nat) = None ->
  let out := run (JobService.processJob jobID) env n db in
  let msg := "Failed to save result: failed to create result: " ++ err in
  job_history jobID (trace_of out)
  = [(Called (JobGetByID jobID), Some JobStatusPending);
     (Called (JobUpdateStatus jobID JobStatusProcessing None),
      Some JobStatusProcessing);
     (Called (DocumentGetByID (OCRJob.DocumentID job)), Some JobStatusProcessing);
     (Called (ProcessDocument (Document.FilePath doc) (OCRJob.Mode job)
                (OCRJob.Resolution job)), Some JobStatusProcessing);
     (Called (ResultCreate (dispatch_result jobID job answer 0%N 0)), Some JobStatusProcessing);
     (Called (JobUpdateStatus jobID JobStatusFailed (Some msg)),
      Some JobStatusFailed)]
  /\ store_of out
     = with_jobs db
         (<[jobID :=
              OCRJob.mk (OCRJob.ID job) (OCRJob.DocumentID job) (OCRJob.UserID job)
                JobStatusFailed (OCRJob.Mode job) (OCRJob.Resolution job)
                (OCRJob.Priority job) (OCRJob.RetryCount job)
                (OCRJob.MaxRetries job) 0 (OCRJob.CreatedAt job)
                (Some (now (env (S n)))) (Some (now (env (5 + n)%nat)))
                (Some msg) (OCRJob.Metadata job)]> (ocr_jobs db))
  /\ launched_in (trace_of out) = [].
Proof using All.
  intros Hf4 Hf5. cbn zeta. cbn [Nat.add] in *.
  assert (Hsave : forall d r,
            ResultRepository.Create (env (S (S (S (S n))))) d r
            = (Err ("failed to create result: " ++ err), d)).
  { intros d r. unfold ResultRepository.Create. by rewrite Hf4. }
  split; [|split].
  - walk_to_save. rewrite Hsave. cbn [fst snd].
    fail_with. history. reflexivity.
  - walk_to_save. rewrite Hsave. cbn [fst snd].
    fail_with. cbn [store_of run fst snd]. unfold with_jobs. cbn.
    by rewrite insert_insert_eq.
  - walk_to_save. rewrite Hsave. cbn [fst snd]. fail_with. reflexivity.
Qed.
End Dispatch.

(** X20. A dispatch that does not find its job pending, or whose first
    read or whose claim is refused by the driver, ends there: it performs at
    most those two statements, the store is as before and nothing is
    launched. *)
Theorem X20_dispatch_needs_pending_and_claim
    (env : nat -> Env) (n : nat) (db : DB) (jobID : uuid) :
  fault (env n) <> None \/ fault (env (S n)) <> None
  \/ (forall job, ocr_jobs db !! jobID = Some job ->
        OCRJob.Status job <> JobStatusPending) ->
  let out := run (JobService.processJob jobID) env n db in
  store_of out = db /\ launched_in (trace_of out) = []
  /\ (length (trace_of out) <= 2)%nat.
Proof.
  intros H. cbn zeta. unfold JobService.processJob. cbn.
  unfold JobRepository.GetByID.
  destruct (fault (env n)) as [e0|] eqn:Hf0; cbn; [repeat split; lia|].
  destruct (ocr_jobs db !! jobID) as [job|] eqn:Hj; cbn; [|repeat split; lia].
  case_decide as Hst; cbn; [repeat split; lia|].
  unfold JobRepository.UpdateStatus.
  destruct (fault (env (S n))) as [e1|] eqn:Hf1; cbn; [repeat split; lia|].
  exfalso. destruct H as [H|[H|H]]; [done|done|].
  apply (H job eq_refl). by destruct (decide (OCRJob.Status job = JobStatusPending)).
Qed.

(** ** ProcessNextJob *)

#[local] Instance pending_order_total' : Total JobRepository.pending_order.
Proof. intros a b. unfold JobRepository.pending_order. lia. Qed.

(** X22. [ProcessNextJob] never changes the store and launches at most
    one dispatch, never of a job other than the first of the pending queue:
    a pending job such that no pending job has a higher priority and none
    of the same priority was created earlier.  When [Query] returns no
    error it succeeds, and launches that dispatch unless no job is pending
    or the stream of rows breaks before the first row, in which case it
    succeeds without launching anything.  When [Query] returns an error it
    returns "failed to get pending jobs: " with the driver's message. *)
Theorem X22_next_job_is_head_of_queue
    (env : nat -> Env) (n : nat) (db : DB) :
  let out := run JobService.ProcessNextJob env n db in
  store_of out = db
  /\ (launched_in (trace_of out) = []
      \/ launched_in (trace_of out) = OCRJob.ID <$> take 1 (pending_queue db))
  /\ (fault (env n) = None ->
      result_of out = Ok tt
      /\ (cut (env n) <> Some 0%nat ->
          launched_in (trace_of out) = OCRJob.ID <$> take 1 (pending_queue db))
      /\ (cut (env n) = Some 0%nat -> launched_in (trace_of out) = []))
  /\ (forall job, head (pending_queue db) = Some job ->
        job ∈ JobRepository.rows db /\ OCRJob.Status job = JobStatusPending
        /\ forall other, other ∈ JobRepository.rows db ->
             OCRJob.Status other = JobStatusPending ->
             JobRepository.pending_order job other)
  /\ (forall err, fault (env n) = Some err ->
      result_of out = Err ("failed to get pending jobs: " ++ err)
      /\ launched_in (trace_of out) = []).
Proof.
  cbn zeta. unfold JobService.ProcessNextJob, JobService.GetPendingJobs. cbn.
  assert (Hread : forall q : list OCRJob.t,
            rows_read (env n) (JobRepository.limit_offset 1 0 q)
            = if decide (cut (env n) = Some 0%nat) then [] else take 1 q).
  { intros q. rewrite limit_offset_ok by lia. change (Z.to_nat 1) with 1%nat.
    change (drop (Z.to_nat 0) q) with q. unfold rows_read.
    destruct (cut (env n)) as [[|k]|].
    - by rewrite decide_True.
    - rewrite decide_False by done.
      destruct q as [|? [|? ?]]; cbn; by rewrite ?take_nil.
    - by rewrite decide_False. }
  split; [|split; [|split; [|split]]].
  - destruct (JobRepository.GetPendingJobs (env n) db 1) as [[|j l]|]; done.
  - destruct (fault (env n)) as [err|] eqn:Hf.
    + unfold JobRepository.GetPendingJobs. rewrite Hf. by left.
    + rewrite (GetPendingJobs_queue _ _ _ Hf), Hread.
      case_decide; [by left|]. right.
      by destruct (pending_queue db) as [|j l].
  - intros Hf. rewrite (GetPendingJobs_queue _ _ _ Hf), Hread.
    case_decide as Hcut.
    + repeat split; done.
    + destruct (pending_queue db) as [|j l]; repeat split; done.
  - intros job Hhead.
    pose proof (pending_queue_sorted db) as Hs.
    destruct (pending_queue db) as [|j l] eqn:Hq; [done|].
    injection Hhead as <-.
    assert (Hin : j ∈ pending_queue db) by (rewrite Hq; left).
    apply pending_queue_elem in Hin as [Hin Hst]. split; [done|]. split; [done|].
    intros other Ho Hso.
    assert (Hin' : other ∈ pending_queue db) by (by apply pending_queue_elem).
    rewrite Hq in Hin'. apply elem_of_cons in Hin' as [->|Hin'].
    * unfold JobRepository.pending_order. lia.
    * apply StronglySorted_inv in Hs as [_ Hall].
      rewrite Forall_forall in Hall. by apply Hall.
  - intros err Hf. unfold JobRepository.GetPendingJobs. rewrite Hf. done.
Qed.

(** ** The handlers *)

Lemma error_json_run status code message env n db :
  run (JobHandler.error_json status code message) env n db
  = (mkResponse status (ErrorResponse code message (now (env n))), db,
     [(Called TimeNow, db)]).
Proof. reflexivity. Qed.

Lemma success_json_run status data message env n db :
  run (JobHandler.success_json status data message) env n db
  = (mkResponse status (APIResponse data message (now (env n))), db,
     [(Called TimeNow, db)]).
Proof. reflexivity. Qed.

(** What a cancellation leaves behind, whatever the environment does. *)
Lemma CancelJob_outcome env n db jobID userID :
  let out := run (JobService.CancelJob jobID userID) env n db in
  launched_in (trace_of out) = []
  /\ match result_of out with
     | Ok _ =>
       exists job,
         ocr_jobs db !! jobID = Some job /\ OCRJob.UserID job = userID
         /\ ~ terminal (OCRJob.Status job)
         /\ fault (env n) = None /\ fault (env (S n)) = None
         /\ store_of out
            = with_jobs db
                (<[jobID := JobRepository.status_update JobStatusCancelled None
                              (now (env (S n))) job]> (ocr_jobs db))
     | Err _ => store_of out = db
     end.
Proof.
  cbn zeta. unfold JobService.CancelJob. cbn.
  destruct (JobRepository.GetByID (env n) db jobID) as [job|] eqn:Hg;
    cbn; [|done].
  case_decide as Hown; cbn; [done|]. case_decide as Hterm; cbn; [done|].
  unfold JobRepository.UpdateStatus.
  destruct (fault (env (S n))) eqn:Hf1; cbn; [done|].
  pose proof Hg as Hg'. apply GetByID_inv in Hg'.
  assert (Hf0 : fault (env n) = None).
  { unfold JobRepository.GetByID in Hg. by destruct (fault (env n)). }
  rewrite Hg'. cbn. split; [done|]. exists job. repeat split; try done.
Qed.

(** What a deletion leaves behind, whatever the environment does. *)
Lemma DeleteJob_outcome env n db jobID userID :
  let out := run (JobService.DeleteJob jobID userID) env n db in
  launched_in (trace_of out) = []
  /\ match result_of out with
     | Ok _ =>
       exists job,
         ocr_jobs db !! jobID = Some job /\ OCRJob.UserID job = userID
         /\ OCRJob.Status job <> JobStatusPending
         /\ OCRJob.Status job <> JobStatusProcessing
         /\ fault (env n) = None /\ fault (env (S n)) = None
         /\ store_of out
            = mkDB (delete jobID (ocr_jobs db))
                   (filter (fun r => OCRResult.JobID r <> jobID) (ocr_results db))
                   (documents db)
     | Err _ => store_of out = db
     end.
Proof.
  cbn zeta. unfold JobService.DeleteJob. cbn.
  destruct (JobRepository.GetByID (env n) db jobID) as [job|] eqn:Hg;
    cbn; [|done].
  case_decide as Hown; cbn; [done|]. case_decide as Hact; cbn; [done|].
  unfold JobRepository.Delete.
  destruct (fault (env (S n))) eqn:Hf1; cbn; [done|].
  pose proof Hg as Hg'. apply GetByID_inv in Hg'.
  assert (Hf0 : fault (env n) = None).
  { unfold JobRepository.GetByID in Hg. by destruct (fault (env n)). }
  rewrite Hg'. cbn. split; [done|]. exists job. repeat split; try done; tauto.
Qed.

(** X23. A request without an authenticated user is answered 401 with
    code AUTH_003 and the middleware's message, on every route; a request
    whose job id does not parse is answered 400 with code VAL_008 and
    "Invalid job ID".  In both cases the handler performs no statement on
    the store and launches nothing: its only operation is reading the clock
    for the timestamp of the response. *)
Theorem X23_rejected_before_any_statement
    (env : nat -> Env) (n : nat) (db : DB) :
  (forall rq err,
     request_user rq = Err err ->
     run (route rq) env n db
     = (mkResponse StatusUnauthorized (ErrorResponse "AUTH_003" err (now (env n))),
        db, [(Called TimeNow, db)]))
  /\ (forall userID err,
        let rejected :=
          (mkResponse StatusBadRequest
             (ErrorResponse "VAL_008" "Invalid job ID" (now (env n))),
           db, [(Called TimeNow, db)]) in
        run (route (ReqGet (Ok userID) (Err err))) env n db = rejected
        /\ run (route (ReqCancel (Ok userID) (Err err))) env n db = rejected
        /\ run (route (ReqDelete (Ok userID) (Err err))) env n db = rejected
        /\ run (route (ReqResult (Ok userID) (Err err))) env n db = rejected).
Proof.
  split.
  - intros rq err Hu. destruct rq; cbn in Hu; subst; reflexivity.
  - intros userID err. repeat split.
Qed.

(** ** Batch submission *)

(** What the loop of [SubmitBatchJob] leaves behind: [jobs'] and
    [errors'] are what it adds to the two accumulators. *)
Lemma submit_each_outcome userID req ids :
  forall jobs errors env n db,
  let out := run (JobHandler.submit_each userID req ids jobs errors) env n db in
  exists jobs' errors' ts,
    result_of out
    = mkResponse StatusCreated
        (APIResponse
           (DataBatch (jobs ++ jobs') (Z.of_nat (length (jobs ++ jobs')))
              (Z.of_nat (length (errors ++ errors'))) (errors ++ errors'))
           "Batch OCR jobs submitted" ts)
    /\ (length jobs' + length errors')%nat = length ids
    /\ launched_in (trace_of out) = OCRJob.ID <$> jobs'
    /\ Forall (fun j => OCRJob.UserID j = userID
                        /\ OCRJob.Status j = JobStatusPending
                        /\ OCRJob.DocumentID j ∈ ids
                        /\ ocr_jobs db !! OCRJob.ID j = None
                        /\ ocr_jobs (store_of out) !! OCRJob.ID j = Some j) jobs'
    /\ NoDup (OCRJob.ID <$> jobs')
    /\ (forall id j, ocr_jobs db !! id = Some j ->
          ocr_jobs (store_of out) !! id = Some j)
    /\ (forall id j, ocr_jobs (store_of out) !! id = Some j ->
          ocr_jobs db !! id = Some j \/ j ∈ jobs')
    /\ ocr_results (store_of out) = ocr_results db
    /\ documents (store_of out) = documents db.
Proof.
  induction ids as [|d rest IH]; intros jobs errors env n db; cbn zeta.
  - exists [], [], (now (env n)). cbn. rewrite !app_nil_r.
    repeat split; try done. apply NoDup_nil_2. eauto.
  - cbn [JobHandler.submit_each]. rewrite run_bind.
    set (sub := JobSubmissionRequest.mk d (BatchOCRJobRequest.Mode req)
                  (BatchOCRJobRequest.Resolution req) 0 "").
    pose proof (SubmitJob_outcome env n db sub userID) as Hsub.
    cbn zeta in Hsub.
    destruct (run (JobService.SubmitJob sub userID) env n db)
      as [[r db1] tr1] eqn:Erun.
    cbn [result_of store_of trace_of fst snd] in Hsub.
    destruct r as [job|err].
    + destruct Hsub as (doc & _ & _ & _ & _ & _ & Hnew & Hjob & Hdb1 & Hl & _).
      specialize (IH (jobs ++ [job])%list errors env (n + length tr1)%nat db1).
      cbn zeta in IH.
      destruct (run (JobHandler.submit_each userID req rest (jobs ++ [job]) errors)
                    env (n + length tr1) db1) as [[resp db2] tr2] eqn:Erest.
      cbn [result_of store_of trace_of fst snd] in IH |- *.
      destruct IH as (jobs' & errors' & ts & Hr & Hlen & Hlaunch & Hall & Hnd
                      & Hkeep & Hsrc & Hres & Hdocs).
      assert (Hid : OCRJob.ID job = fresh (env (S n))) by (by rewrite Hjob).
      assert (Hin1 : ocr_jobs db1 !! OCRJob.ID job = Some job).
      { rewrite Hdb1, Hid. cbn. apply lookup_insert_eq. }
      exists (job :: jobs'), errors', ts.
      rewrite <- app_assoc in Hr. cbn [app] in Hr.
      split; [exact Hr|]. split; [cbn; lia|].
      split; [rewrite launched_in_app, Hl, Hlaunch, <- Hid; reflexivity|].
      split.
      { constructor.
        - split; [by rewrite Hjob|]. split; [by rewrite Hjob|].
          split; [rewrite Hjob; cbn; left|].
          split; [by rewrite Hid|]. by apply Hkeep.
        - eapply Forall_impl; [exact Hall|]. cbn.
          intros j (? & ? & ? & Hn1 & ?). repeat split; try done.
          + by right.
          + rewrite Hdb1 in Hn1. cbn in Hn1.
            by apply lookup_insert_None in Hn1 as [? _]. }
      split.
      { cbn. constructor; [|exact Hnd]. intros Hin.
        apply list_elem_of_fmap in Hin as (j & Hj & Hjin).
        rewrite Forall_forall in Hall. destruct (Hall j Hjin) as (_ & _ & _ & Hn1 & _).
        rewrite <- Hj in Hn1. congruence. }
      split.
      { intros id j Hj. apply Hkeep. rewrite Hdb1. cbn.
        rewrite lookup_insert_ne; [done|]. intros <-. congruence. }
      split.
      { intros id j Hj. apply Hsrc in Hj as [Hj|Hj]; [|right; by right].
        rewrite Hdb1 in Hj. cbn in Hj.
        apply lookup_insert_Some in Hj as [[_ <-]|[_ Hj]]; [right; left|by left]. }
      split; [by rewrite Hres, Hdb1|]. by rewrite Hdocs, Hdb1.
    + destruct Hsub as (Hdb1 & Hl & _). subst db1.
      specialize (IH jobs (errors ++ [err])%list env (n + length tr1)%nat db).
      cbn zeta in IH.
      destruct (run (JobHandler.submit_each userID req rest jobs (errors ++ [err]))
                    env (n + length tr1) db) as [[resp db2] tr2] eqn:Erest.
      cbn [result_of store_of trace_of fst snd] in IH |- *.
      destruct IH as (jobs' & errors' & ts & Hr & Hlen & Hlaunch & Hall & Hnd
                      & Hkeep & Hsrc & Hres & Hdocs).
      exists jobs', (err :: errors'), ts.
      rewrite <- app_assoc in Hr. cbn [app] in Hr.
      split; [exact Hr|]. split; [cbn; lia|].
      split; [by rewrite launched_in_app, Hl, Hlaunch|].
      split.
      { eapply Forall_impl; [exact Hall|]. cbn.
        intros j (? & ? & ? & ? & ?). repeat split; try done. by right. }
      repeat split; done.
Qed.

(** X24. [SubmitBatchJob] for an authenticated user always answers 201.
    The lists of jobs and of error messages it returns together have one
    entry per document id of the request, in [success] and [failed] it
    reports their lengths, and it launches exactly one dispatch per job it
    returns, in order.  Every returned job is a new pending job of the
    caller for a document of the request and is in the store afterwards;
    the jobs that were there before are untouched, and so are results and
    documents. *)
Theorem X24_batch_accounts_for_every_document
    (env : nat -> Env) (n : nat) (db : DB) (userID : uuid)
    (req : BatchOCRJobRequest.t) :
  let out := run (JobHandler.SubmitBatchJob (Ok userID) req) env n db in
  exists jobs errors ts,
    result_of out
    = mkResponse StatusCreated
        (APIResponse
           (DataBatch jobs (Z.of_nat (length jobs))
              (Z.of_nat (length errors)) errors)
           "Batch OCR jobs submitted" ts)
    /\ (length jobs + length errors)%nat
       = length (BatchOCRJobRequest.DocumentIDs req)
    /\ launched_in (trace_of out) = OCRJob.ID <$> jobs
    /\ NoDup (OCRJob.ID <$> jobs)
    /\ Forall (fun j => OCRJob.UserID j = userID
                        /\ OCRJob.Status j = JobStatusPending
                        /\ OCRJob.DocumentID j ∈ BatchOCRJobRequest.DocumentIDs req
                        /\ ocr_jobs db !! OCRJob.ID j = None
                        /\ ocr_jobs (store_of out) !! OCRJob.ID j = Some j) jobs
    /\ (forall id j, ocr_jobs db !! id = Some j ->
          ocr_jobs (store_of out) !! id = Some j)
    /\ ocr_results (store_of out) = ocr_results db
    /\ documents (store_of out) = documents db.
Proof.
  cbn zeta. unfold JobHandler.SubmitBatchJob.
  destruct (submit_each_outcome userID req (BatchOCRJobRequest.DocumentIDs req)
              [] [] env n db)
    as (jobs & errors & ts & Hr & Hlen & Hl & Hall & Hnd & Hkeep & _ & Hres & Hdocs).
  exists jobs, errors, ts. cbn [app] in Hr. repeat split; assumption.
Qed.


(** ** One user's requests and another user's jobs *)

Lemma reads_only_run {A} (p : Prog A) env n db :
  all_ops reads_only p ->
  store_of (run p env n db) = db /\ launched_in (trace_of (run p env n db)) = [].
Proof.
  revert n db. induction p as [a|R op k IH]; intros n db Hall; [done|].
  destruct Hall as [[Hw Hl] Hk].
  rewrite store_of_Do, trace_of_Do, launched_in_cons, Hl.
  assert (Hsame : (exec op (env n) db).2 = db).
  { pose proof (exec_cases op (env n) db) as Hc. rewrite Hw in Hc.
    destruct Hc; done. }
  rewrite Hsame. apply IH, Hk.
Qed.

Lemma read_routes_read_only rq :
  match rq with
  | ReqList _ _ _ | ReqGet _ _ | ReqResult _ _ => all_ops reads_only (route rq)
  | _ => True
  end.
Proof.
  destruct rq as [| |user page perPage|user idParam| | |user idParam];
    try exact I; cbn [route].
  - unfold JobHandler.ListJobs, JobService.ListJobs, JobService.GetByUserID,
      JobHandler.error_json, JobHandler.success_json.
    destruct user; [|repeat all_ops_step].
    repeat all_ops_step.
  - unfold JobHandler.GetJob, JobHandler.with_user_and_id, JobService.GetJob,
      JobHandler.error_json, JobHandler.success_json.
    repeat all_ops_step.
  - unfold JobHandler.GetJobResult, JobHandler.with_user_and_id,
      JobService.GetJobResult, JobHandler.error_json, JobHandler.success_json.
    repeat all_ops_step.
Qed.

(** X25. A request served for user [userID], on any route and whatever
    the driver does, leaves every job of another user and the results of
    that job exactly as they were; a job row that is new afterwards belongs
    to [userID]; the documents are untouched; and the three GET routes
    change nothing at all and launch nothing. *)
Theorem X25_requests_touch_only_the_callers_jobs
    (env : nat -> Env) (n : nat) (db : DB) (rq : Request) (userID : uuid) :
  request_user rq = Ok userID ->
  let out := run (route rq) env n db in
  (forall id j, ocr_jobs db !! id = Some j -> OCRJob.UserID j <> userID ->
     ocr_jobs (store_of out) !! id = Some j
     /\ results_for (store_of out) id = results_for db id)
  /\ (forall id j, ocr_jobs (store_of out) !! id = Some j ->
        ocr_jobs db !! id = None -> OCRJob.UserID j = userID)
  /\ documents (store_of out) = documents db
  /\ match rq with
     | ReqList _ _ _ | ReqGet _ _ | ReqResult _ _ =>
       store_of out = db /\ launched_in (trace_of out) = []
     | _ => True
     end.
Proof.
  intros Hu. cbn zeta.
  assert (Hsame : forall out : HTTPResponse * DB * list Event,
            store_of out = db ->
            (forall id j, ocr_jobs db !! id = Some j -> OCRJob.UserID j <> userID ->
               ocr_jobs (store_of out) !! id = Some j
               /\ results_for (store_of out) id = results_for db id)
            /\ (forall id j, ocr_jobs (store_of out) !! id = Some j ->
                  ocr_jobs db !! id = None -> OCRJob.UserID j = userID)
            /\ documents (store_of out) = documents db).
  { intros out ->. repeat split; try done. intros; congruence. }
  pose proof (read_routes_read_only rq) as Hread.
  destruct rq as [user req|user req|user page perPage|user idParam
                 |user idParam|user idParam|user idParam];
    cbn in Hu; subst user.
  - (* submit *)
    split; [|split; [|split; [|exact I]]]; cbn [route JobHandler.SubmitJob];
      rewrite run_bind;
      match goal with
      | |- context [run (JobService.SubmitJob ?s userID) env n db] =>
        pose proof (SubmitJob_outcome env n db s userID) as Hsub;
        cbn zeta in Hsub;
        destruct (run (JobService.SubmitJob s userID) env n db)
          as [[r db1] tr1] eqn:Erun
      end;
      cbn [result_of store_of trace_of fst snd] in Hsub;
      (destruct r as [job|err];
       [destruct Hsub as (doc & _ & _ & _ & _ & _ & Hnew & Hjob & -> & _)
       |destruct Hsub as (-> & _)]); cbn.
    + intros id j Hj Hne. split; [|done].
      rewrite lookup_insert_ne; [done|]. intros <-. congruence.
    + done.
    + intros id j Hj Hnone.
      apply lookup_insert_Some in Hj as [[_ <-]|[_ Hj]]; [|congruence].
      by rewrite Hjob.
    + intros; congruence.
    + done.
    + done.
  - (* batch *)
    pose proof (submit_each_outcome userID req (BatchOCRJobRequest.DocumentIDs req)
                  [] [] env n db)
      as (jobs & errors & ts & _ & _ & _ & Hall & _ & Hkeep & Hsrc & Hres & Hdocs).
    cbn [route JobHandler.SubmitBatchJob].
    split; [|split; [|split; [|exact I]]].
    + intros id j Hj Hne. split; [by apply Hkeep|].
      unfold results_for. by rewrite Hres.
    + intros id j Hj Hnone. apply Hsrc in Hj as [Hj|Hj]; [congruence|].
      rewrite Forall_forall in Hall. by destruct (Hall j Hj).
    + exact Hdocs.
  - destruct (reads_only_run _ env n db Hread) as [Hs Hl].
    destruct (Hsame _ Hs) as (? & ? & ?). done.
  - destruct (reads_only_run _ env n db Hread) as [Hs Hl].
    destruct (Hsame _ Hs) as (? & ? & ?). done.
  - (* cancel *)
    destruct idParam as [jobID|err]; [|by destruct (Hsame (run (route (ReqCancel (Ok userID) (Err err))) env n db) eq_refl) as (? & ? & ?)].
    cbn [route JobHandler.CancelJob JobHandler.with_user_and_id].
    rewrite run_bind.
    pose proof (CancelJob_outcome env n db jobID userID) as [_ Hc].
    cbn zeta in Hc.
    destruct (run (JobService.CancelJob jobID userID) env n db)
      as [[r db1] tr1] eqn:Erun.
    cbn [result_of store_of trace_of fst snd] in Hc.
    destruct r as [[]|err]; cbn.
    + destruct Hc as (job & Hj & Hown & _ & _ & _ & ->). cbn.
      split; [|split; [|done]].
      * intros id j Hj' Hne. split; [|done].
        rewrite lookup_insert_ne; [done|]. intros <-. congruence.
      * intros id j Hj' Hnone.
        apply lookup_insert_Some in Hj' as [[<- _]|[_ Hj']]; congruence.
    + subst db1. repeat split; try done. intros; congruence.
  - (* delete *)
    destruct idParam as [jobID|err]; [|by destruct (Hsame (run (route (ReqDelete (Ok userID) (Err err))) env n db) eq_refl) as (? & ? & ?)].
    cbn [route JobHandler.DeleteJob JobHandler.with_user_and_id].
    rewrite run_bind.
    pose proof (DeleteJob_outcome env n db jobID userID) as [_ Hc].
    cbn zeta in Hc.
    destruct (run (JobService.DeleteJob jobID userID) env n db)
      as [[r db1] tr1] eqn:Erun.
    cbn [result_of store_of trace_of fst snd] in Hc.
    destruct r as [[]|err]; cbn.
    + destruct Hc as (job & Hj & Hown & _ & _ & _ & _ & ->). cbn.
      split; [|split; [|done]].
      * intros id j Hj' Hne.
        assert (id <> jobID) by (intros ->; congruence).
        split; [by rewrite lookup_delete_ne|].
        unfold results_for. cbn. by apply results_for_delete_other.
      * intros id j Hj' Hnone.
        apply lookup_delete_Some in Hj' as [_ Hj']. congruence.
    + subst db1. repeat split; try done. intros; congruence.
  - destruct (reads_only_run _ env n db Hread) as [Hs Hl].
    destruct (Hsame _ Hs) as (? & ? & ?). done.
Qed.

(** ** The rows of the job table in every reachable state *)

Lemma processJob_service id : all_ops service_op (JobService.processJob id).
Proof.
  unfold JobService.processJob, JobService.processJob_claim,
    JobService.processJob_document, JobService.processJob_engine,
    JobService.processJob_engine_failed, JobService.processJob_retry,
    JobService.processJob_requeue, JobService.processJob_backoff,
    JobService.processJob_save, JobService.processJob_fail,
    JobService.processJob_complete.
  all_ops_solve.
Qed.

Lemma SubmitJob_service req userID :
  all_ops service_op (JobService.SubmitJob req userID).
Proof. unfold JobService.SubmitJob. all_ops_solve. Qed.

Lemma submit_each_service userID req ids jobs errors :
  all_ops service_op (JobHandler.submit_each userID req ids jobs errors).
Proof.
  revert jobs errors. induction ids as [|d rest IH]; intros jobs errors.
  - by cbn.
  - cbn [JobHandler.submit_each]. apply all_ops_bind; [apply SubmitJob_service|].
    intros [job|err]; apply IH.
Qed.

Lemma route_service rq : all_ops service_op (route rq).
Proof.
  destruct rq as [user req|user req|user page perPage|user idParam
                 |user idParam|user idParam|user idParam]; cbn [route].
  - unfold JobHandler.SubmitJob. destruct user; [|all_ops_solve].
    apply all_ops_bind; [apply SubmitJob_service|].
    intros [job|err]; all_ops_solve.
  - unfold JobHandler.SubmitBatchJob. destruct user; [|all_ops_solve].
    apply submit_each_service.
  - unfold JobHandler.ListJobs, JobService.ListJobs, JobService.GetByUserID.
    destruct user; all_ops_solve.
  - unfold JobHandler.GetJob, JobHandler.with_user_and_id, JobService.GetJob.
    all_ops_solve.
  - unfold JobHandler.CancelJob, JobHandler.with_user_and_id, JobService.CancelJob.
    all_ops_solve.
  - unfold JobHandler.DeleteJob, JobHandler.with_user_and_id, JobService.DeleteJob.
    all_ops_solve.
  - unfold JobHandler.GetJobResult, JobHandler.with_user_and_id,
      JobService.GetJobResult.
    all_ops_solve.
Qed.

Lemma step_task_service t e db t' db' ids :
  task_prog_ok t -> step_task t e db = Some (t', db', ids) ->
  task_prog_ok t'
  /\ exists R (op : Op R), service_op R op /\ db' = (exec op e db).2.
Proof.
  intros Hok Hstep.
  destruct t as [id [a|R op k]|[a|R op k]]; cbn in Hstep; try discriminate;
    destruct (exec op e db) as [r db1] eqn:E; injection Hstep as <- <- <-;
    destruct Hok as [Hop Hk]; (split; [apply Hk|]);
    exists R, op; rewrite E; done.
Qed.

Lemma reachable_task_progs s : reachable s -> Forall task_prog_ok (tasks s).
Proof.
  induction 1 as [docs|s l s' _ IH Hstep]; [constructor|].
  destruct l as [i e|rq|doc| ]; cbn in Hstep.
  - case_decide; [discriminate|].
    destruct (tasks s !! i) as [t|] eqn:Ht; [|discriminate].
    destruct (step_task t e (store s)) as [[[t' db'] ids]|] eqn:Est;
      [|discriminate].
    injection Hstep as <-. cbn.
    rewrite Forall_forall in IH.
    assert (Hin : t ∈ tasks s) by (by eapply list_elem_of_lookup_2).
    destruct (step_task_service _ _ _ _ _ _ (IH t Hin) Est) as [Hok' _].
    apply Forall_app. split.
    + apply Forall_insert; [by apply Forall_forall|done].
    + apply Forall_fmap, Forall_true. intros id. apply processJob_service.
  - injection Hstep as <-. cbn. apply Forall_app. split; [done|].
    constructor; [apply route_service|constructor].
  - by injection Hstep as <-.
  - injection Hstep as <-. constructor.
Qed.

Lemma row_ok_exec {R} (op : Op R) e db :
  service_op R op ->
  (forall id j, ocr_jobs db !! id = Some j -> row_ok id j) ->
  forall id j, ocr_jobs (exec op e db).2 !! id = Some j -> row_ok id j.
Proof.
  intros Hop Hold id j' Hj'.
  apply exec_row in Hj' as [H|[(j & st & msg & Hw & Hj & ->)|
                               [(j & Hw & Hj & ->)|(job & Hw & Hnone & -> & ->)]]].
  - by apply Hold.
  - destruct op; cbn in Hw; try discriminate. injection Hw as -> -> ->.
    cbn in Hop. specialize (Hold _ _ Hj).
    destruct Hold as (H1 & H2 & H3 & H4 & H5 & H6 & H7 & H8).
    destruct st; [subst msg|subst msg|subst msg|destruct Hop as [m ->]|subst msg];
      cbn; unfold row_ok; cbn; repeat split; eauto; try discriminate; tauto.
  - specialize (Hold _ _ Hj).
    destruct Hold as (H1 & H2 & H3 & H4 & H5 & H6 & H7 & H8).
    unfold row_ok; cbn. repeat split; eauto; try lia; try tauto.
    all: intros Hs; first [destruct (H6 Hs)|destruct (H7 Hs) as (? & ? & ?)
                           |destruct (H8 Hs)]; done.
  - destruct op; cbn in Hw; try discriminate. injection Hw as ->.
    destruct Hop as [Hrc Hmax].
    unfold row_ok; cbn. repeat split; eauto; try lia; discriminate.
Qed.

Lemma reachable_rows s :
  reachable s -> forall id j, ocr_jobs (store s) !! id = Some j -> row_ok id j.
Proof.
  induction 1 as [docs|s l s' Hreach IH Hstep].
  - intros id j H. cbn in H. by rewrite lookup_empty in H.
  - destruct l as [i e|rq|doc| ]; cbn in Hstep.
    + case_decide; [discriminate|].
      destruct (tasks s !! i) as [t|] eqn:Ht; [|discriminate].
      destruct (step_task t e (store s)) as [[[t' db'] ids]|] eqn:Est;
        [|discriminate].
      injection Hstep as <-. cbn.
      pose proof (reachable_task_progs s Hreach) as Hall.
      rewrite Forall_forall in Hall.
      assert (Hin : t ∈ tasks s) by (by eapply list_elem_of_lookup_2).
      destruct (step_task_service _ _ _ _ _ _ (Hall t Hin) Est)
        as [_ (R & op & Hop & ->)].
      by apply row_ok_exec.
    + by injection Hstep as <-.
    + by injection Hstep as <-.
    + by injection Hstep as <-.
Qed.

(** X26. In every reachable state a job row is stored under its own id,
    allows 3 retries, and has a retry count between 0 and 3. *)
Theorem X26_retry_columns_in_reachable_states (s : Sys) :
  reachable s ->
  forall id j, ocr_jobs (store s) !! id = Some j ->
    OCRJob.ID j = id /\ OCRJob.MaxRetries j = 3
    /\ 0 <= OCRJob.RetryCount j <= 3.
Proof.
  intros Hreach id j Hj.
  destruct (reachable_rows s Hreach id j Hj) as (H1 & H2 & H3 & _).
  pose proof (retries_bounded _ (sys_tables _ (reachable_ok s Hreach)) id j Hj).
  repeat split; try done. lia.
Qed.

(** X27. In every reachable state the progress of a job is 0 or 100 (no
    caller of [UpdateProgress] exists); a processing job has a
    [started_at]; a completed job has progress 100 and a [completed_at]; a
    failed job has progress 0, a [completed_at] and an error message; a
    cancelled job has progress 100 and a [completed_at]. *)
Theorem X27_status_columns_in_reachable_states (s : Sys) :
  reachable s ->
  forall id j, ocr_jobs (store s) !! id = Some j ->
    (OCRJob.ProgressPercentage j = 0 \/ OCRJob.ProgressPercentage j = 100)
    /\ (OCRJob.Status j = JobStatusProcessing -> is_Some (OCRJob.StartedAt j))
    /\ (OCRJob.Status j = JobStatusCompleted ->
        OCRJob.ProgressPercentage j = 100 /\ is_Some (OCRJob.CompletedAt j))
    /\ (OCRJob.Status j = JobStatusFailed ->
        OCRJob.ProgressPercentage j = 0 /\ is_Some (OCRJob.CompletedAt j)
        /\ is_Some (OCRJob.ErrorMessage j))
    /\ (OCRJob.Status j = JobStatusCancelled ->
        OCRJob.ProgressPercentage j = 100 /\ is_Some (OCRJob.CompletedAt j)).
Proof.
  intros Hreach id j Hj.
  destruct (reachable_rows s Hreach id j Hj) as (_ & _ & _ & H). exact H.
Qed.

(** X28. In every reachable state no job has two dispatches in
    progress: two different tasks are never both goroutines of the same job
    that have not returned, and a handler about to launch the dispatch of a
    job is never accompanied by a goroutine of that job that has not
    returned. *)
Theorem X28_one_dispatch_per_job (s : Sys) :
  reachable s ->
  forall i1 i2 t1 t2 id,
    tasks s !! i1 = Some t1 -> tasks s !! i2 = Some t2 ->
    owner t1 = Some id -> owner t2 = Some id -> i1 = i2.
Proof.
  intros Hreach i1 i2 t1 t2 id H1 H2 Ho1 Ho2.
  pose proof (sys_owners _ (reachable_ok s Hreach)) as Hnd.
  revert i1 i2 H1 H2 Hnd. generalize (tasks s) as ts.
  induction ts as [|t ts IH]; intros i1 i2 H1 H2 Hnd; [done|].
  assert (Hmem : forall i t', ts !! i = Some t' -> owner t' = Some id ->
                              id ∈ omap owner ts).
  { intros i t' Hi Ho. apply list_elem_of_omap. exists t'. split; [|done].
    by eapply list_elem_of_lookup_2. }
  destruct i1 as [|i1], i2 as [|i2]; cbn in H1, H2; simplify_eq; cbn in Hnd.
  - done.
  - rewrite Ho1 in Hnd. apply NoDup_cons in Hnd as [Hn _].
    exfalso. apply Hn. by eapply Hmem.
  - rewrite Ho2 in Hnd. apply NoDup_cons in Hnd as [Hn _].
    exfalso. apply Hn. by eapply Hmem.
  - f_equal. apply IH; [done|done|].
    destruct (owner t); [by apply NoDup_cons in Hnd as [_ ?]|done].
Qed.

(** ** Soft-deleted documents *)

(** X9. After a successful [SoftDelete] the document row is still there
    with its id, owner and path, marked deleted at the time of the
    statement, and no other document, no job and no result has changed.
    From then on [GetByID] and a second [SoftDelete] report "document not
    found", and [SubmitJob] for that document fails with "document not
    found: document not found" after that one read, creating and launching
    nothing. *)
Theorem X9_soft_deleted_document_is_gone
    (e e' : Env) (db db' : DB) (id : uuid) :
  DocumentRepository.SoftDelete e db id = (Ok tt, db') ->
  fault e' = None ->
  (exists doc,
     documents db !! id = Some doc /\ Document.DeletedAt doc = None
     /\ documents db' !! id
        = Some (Document.mk (Document.ID doc) (Document.UserID doc)
                  (Document.FilePath doc) (Some (now e))))
  /\ (forall id', id' <> id -> documents db' !! id' = documents db !! id')
  /\ ocr_jobs db' = ocr_jobs db /\ ocr_results db' = ocr_results db
  /\ DocumentRepository.GetByID e' db' id = Err "document not found"
  /\ DocumentRepository.SoftDelete e' db' id = (Err "document not found", db')
  /\ (forall env n req userID,
        JobSubmissionRequest.DocumentID req = id -> fault (env n) = None ->
        run (JobService.SubmitJob req userID) env n db'
        = (Err "document not found: document not found", db',
           [(Called (DocumentGetByID id), db')])).
Proof.
  unfold DocumentRepository.SoftDelete. intros Hd Hf.
  destruct (fault e); [discriminate|].
  destruct (documents db !! id) as [doc|] eqn:Hdoc; [|discriminate].
  destruct (Document.DeletedAt doc) eqn:Hdel; [discriminate|].
  injection Hd as <-.
  split; [exists doc; cbn; by rewrite lookup_insert_eq|].
  split; [intros id' Hne; cbn; by rewrite lookup_insert_ne|].
  split; [done|]. split; [done|].
  unfold DocumentRepository.GetByID. rewrite Hf. cbn. rewrite lookup_insert_eq.
  cbn. split; [done|]. split; [done|].
  intros env n req userID Hreq Hfn. unfold JobService.SubmitJob. cbn.
  unfold DocumentRepository.GetByID. rewrite Hfn, Hreq. cbn.
  rewrite lookup_insert_eq. reflexivity.
Qed.

(** ** The three ways a claimed dispatch ends without a retry *)

(** X17. A pending job whose document exists is dispatched with a
    working driver and the engine answers, with a processing time and a
    page count that fit the [INTEGER] columns.  The dispatch performs six
    operations: read, claim, document read, engine call, result insert,
    completion.  Afterwards the job is completed with progress 100,
    [started_at] the time of the claim and [completed_at] the time of the
    last update, its other columns unchanged; exactly one result row has
    been added, carrying the engine's answer, the job's id and document and
    the id and time of the insert; nothing is launched. *)
Theorem X17_dispatch_success
    (env : nat -> Env) (n : nat) (db : DB) (jobID : uuid)
    (job : OCRJob.t) (doc : Document.t) (answer : OCRResponse.t) :
  ocr_jobs db !! jobID = Some job ->
  OCRJob.Status job = JobStatusPending ->
  documents db !! OCRJob.DocumentID job = Some doc ->
  Document.DeletedAt doc = None ->
  (forall i, (i < 6)%nat -> fault (env (n + i)%nat) = None) ->
  ocr (env (n + 3)%nat) = Ok answer ->
  fits_int4 (OCRResponse.ProcessingTime answer) ->
  fits_int4 (OCRResponse.NumPages answer) ->
  fresh (env (n + 4)%nat) ∉ OCRResult.ID <$> ocr_results db ->
  let out := run (JobService.processJob jobID) env n db in
  job_history jobID (trace_of out)
  = [(Called (JobGetByID jobID), Some JobStatusPending);
     (Called (JobUpdateStatus jobID JobStatusProcessing None),
      Some JobStatusProcessing);
     (Called (DocumentGetByID (OCRJob.DocumentID job)), Some JobStatusProcessing);
     (Called (ProcessDocument (Document.FilePath doc) (OCRJob.Mode job)
                (OCRJob.Resolution job)), Some JobStatusProcessing);
     (Called (ResultCreate (dispatch_result jobID job answer 0%N 0)),
      Some JobStatusProcessing);
     (Called (JobUpdateStatus jobID JobStatusCompleted None),
      Some JobStatusCompleted)]
  /\ store_of out
     = mkDB
         (<[jobID :=
              OCRJob.mk (OCRJob.ID job) (OCRJob.DocumentID job) (OCRJob.UserID job)
                JobStatusCompleted (OCRJob.Mode job) (OCRJob.Resolution job)
                (OCRJob.Priority job) (OCRJob.RetryCount job)
                (OCRJob.MaxRetries job) 100 (OCRJob.CreatedAt job)
                (Some (now (env (n + 1)%nat))) (Some (now (env (n + 5)%nat)))
                (OCRJob.ErrorMessage job) (OCRJob.Metadata job)]> (ocr_jobs db))
         (ocr_results db
          ++ [dispatch_result jobID job answer (fresh (env (n + 4)%nat))
                (now (env (n + 4)%nat))])
         (documents db)
  /\ launched_in (trace_of out) = [].
Proof.
  intros Hjob Hpending Hdoc Hlive Hdriver Hengine Hfit1 Hfit2 Hnew.
  pose proof (Hdriver 0%nat ltac:(lia)) as F0.
  pose proof (Hdriver 1%nat ltac:(lia)) as F1.
  pose proof (Hdriver 2%nat ltac:(lia)) as F2.
  pose proof (Hdriver 4%nat ltac:(lia)) as F4.
  pose proof (Hdriver 5%nat ltac:(lia)) as F5.
  replace (n + 0)%nat with n in F0 by lia.
  replace (n + 1)%nat with (S n) in * by lia.
  replace (n + 2)%nat with (S (S n)) in * by lia.
  replace (n + 3)%nat with (S (S (S n))) in * by lia.
  replace (n + 4)%nat with (4 + n)%nat in * by lia.
  replace (n + 5)%nat with (5 + n)%nat in * by lia.
  exact (dispatch_success env n db jobID job Hjob Hpending F0 F1 doc answer
           Hdoc Hlive F2 Hengine F4 F5 Hfit1 Hfit2 Hnew).
Qed.

(** X18. A pending job whose document is missing or soft-deleted is
    dispatched with a working driver.  After the claim and the failed
    document read the job is written failed with the message "Failed to get
    document: document not found", progress 0 and a [completed_at]; the
    engine is not called, the retry count is not touched, no result is
    written and nothing is launched: this failure is not retried. *)
Theorem X18_dispatch_without_document
    (env : nat -> Env) (n : nat) (db : DB) (jobID : uuid) (job : OCRJob.t) :
  ocr_jobs db !! jobID = Some job ->
  OCRJob.Status job = JobStatusPending ->
  (forall doc, documents db !! OCRJob.DocumentID job = Some doc ->
     Document.DeletedAt doc <> None) ->
  (forall i, (i < 4)%nat -> fault (env (n + i)%nat) = None) ->
  let out := run (JobService.processJob jobID) env n db in
  let msg := "Failed to get document: document not found" in
  job_history jobID (trace_of out)
  = [(Called (JobGetByID jobID), Some JobStatusPending);
     (Called (JobUpdateStatus jobID JobStatusProcessing None),
      Some JobStatusProcessing);
     (Called (DocumentGetByID (OCRJob.DocumentID job)), Some JobStatusProcessing);
     (Called (JobUpdateStatus jobID JobStatusFailed (Some msg)),
      Some JobStatusFailed)]
  /\ store_of out
     = with_jobs db
         (<[jobID :=
              OCRJob.mk (OCRJob.ID job) (OCRJob.DocumentID job) (OCRJob.UserID job)
                JobStatusFailed (OCRJob.Mode job) (OCRJob.Resolution job)
                (OCRJob.Priority job) (OCRJob.RetryCount job)
                (OCRJob.MaxRetries job) 0 (OCRJob.CreatedAt job)
                (Some (now (env (n + 1)%nat))) (Some (now (env (n + 3)%nat)))
                (Some msg) (OCRJob.Metadata job)]> (ocr_jobs db))
  /\ launched_in (trace_of out) = [].
Proof.
  intros Hjob Hpending Hgone Hdriver.
  pose proof (Hdriver 0%nat ltac:(lia)) as F0.
  pose proof (Hdriver 1%nat ltac:(lia)) as F1.
  pose proof (Hdriver 2%nat ltac:(lia)) as F2.
  pose proof (Hdriver 3%nat ltac:(lia)) as F3.
  replace (n + 0)%nat with n in F0 by lia.
  replace (n + 1)%nat with (S n) in * by lia.
  replace (n + 2)%nat with (S (S n)) in * by lia.
  replace (n + 3)%nat with (S (S (S n))) in * by lia.
  exact (dispatch_document_gone env n db jobID job Hjob Hpending F0 F1 F2 F3
           Hgone).
Qed.

(** X19. A pending job is dispatched, the engine answers, and the driver
    refuses the insert of the result with [err].  The job is written failed
    with the message "Failed to save result: failed to create result: err",
    progress 0 and a [completed_at]; the engine's answer is lost, the retry
    count is not touched and nothing is launched: this failure is not
    retried either. *)
Theorem X19_dispatch_result_not_saved
    (env : nat -> Env) (n : nat) (db : DB) (jobID : uuid)
    (job : OCRJob.t) (doc : Document.t) (answer : OCRResponse.t) (err : string) :
  ocr_jobs db !! jobID = Some job ->
  OCRJob.Status job = JobStatusPending ->
  documents db !! OCRJob.DocumentID job = Some doc ->
  Document.DeletedAt doc = None ->
  (forall i, (i < 6)%nat -> i <> 4%nat -> fault (env (n + i)%nat) = None) ->
  ocr (env (n + 3)%nat) = Ok answer ->
  fault (env (n + 4)%nat) = Some err ->
  let out := run (JobService.processJob jobID) env n db in
  let msg := "Failed to save result: failed to create result: " ++ err in
  job_history jobID (trace_of out)
  = [(Called (JobGetByID jobID), Some JobStatusPending);
     (Called (JobUpdateStatus jobID JobStatusProcessing None),
      Some JobStatusProcessing);
     (Called (DocumentGetByID (OCRJob.DocumentID job)), Some JobStatusProcessing);
     (Called (ProcessDocument (Document.FilePath doc) (OCRJob.Mode job)
                (OCRJob.Resolution job)), Some JobStatusProcessing);
     (Called (ResultCreate (dispatch_result jobID job answer 0%N 0)),
      Some JobStatusProcessing);
     (Called (JobUpdateStatus jobID JobStatusFailed (Some msg)),
      Some JobStatusFailed)]
  /\ store_of out
     = with_jobs db
         (<[jobID :=
              OCRJob.mk (OCRJob.ID job) (OCRJob.DocumentID job) (OCRJob.UserID job)
                JobStatusFailed (OCRJob.Mode job) (OCRJob.Resolution job)
                (OCRJob.Priority job) (OCRJob.RetryCount job)
                (OCRJob.MaxRetries job) 0 (OCRJob.CreatedAt job)
                (Some (now (env (n + 1)%nat))) (Some (now (env (n + 5)%nat)))
                (Some msg) (OCRJob.Metadata job)]> (ocr_jobs db))
  /\ launched_in (trace_of out) = [].
Proof.
  intros Hjob Hpending Hdoc Hlive Hdriver Hengine Hrefused.
  pose proof (Hdriver 0%nat ltac:(lia) ltac:(lia)) as F0.
  pose proof (Hdriver 1%nat ltac:(lia) ltac:(lia)) as F1.
  pose proof (Hdriver 2%nat ltac:(lia) ltac:(lia)) as F2.
  pose proof (Hdriver 5%nat ltac:(lia) ltac:(lia)) as F5.
  replace (n + 0)%nat with n in F0 by lia.
  replace (n + 1)%nat with (S n) in * by lia.
  replace (n + 2)%nat with (S (S n)) in * by lia.
  replace (n + 3)%nat with (S (S (S n))) in * by lia.
  replace (n + 4)%nat with (4 + n)%nat in * by lia.
  replace (n + 5)%nat with (5 + n)%nat in * by lia.
  exact (dispatch_save_fails env n db jobID job Hjob Hpending F0 F1 doc answer
           Hdoc Hlive F2 Hengine err Hrefused F5).
Qed.

(** ** The rate limiter *)

Lemma allow_settings rl now ip :
  RateLimiter.rate (RateLimiter.allow rl now ip).2 = RateLimiter.rate rl
  /\ RateLimiter.window (RateLimiter.allow rl now ip).2 = RateLimiter.window rl.
Proof.
  unfold RateLimiter.allow.
  destruct (RateLimiter.visitors rl !! ip); [|done].
  cbn zeta. by repeat case_decide.
Qed.

Lemma allow_other rl now ip ip' :
  ip' <> ip ->
  RateLimiter.visitors (RateLimiter.allow rl now ip').2 !! ip
  = RateLimiter.visitors rl !! ip.
Proof.
  intros Hne. unfold RateLimiter.allow.
  destruct (RateLimiter.visitors rl !! ip'); cbn zeta;
    repeat case_decide; cbn; by rewrite lookup_insert_ne.
Qed.

(** A client whose bucket holds [T] tokens and is not refilled. *)
Lemma serve_without_refill requests :
  forall rl ip v,
  RateLimiter.visitors rl !! ip = Some v ->
  RateLimiter.tokens v <= max_int ->
  (forall t, (t, ip) ∈ requests ->
     Sub t (RateLimiter.lastRefill v) < RateLimiter.window rl) ->
  let k := length (filter (fun r : time * string => r.2 = ip) requests) in
  RateLimiter.answers_to ip requests (RateLimiter.serve rl requests).1
  = (replicate (k `min` Z.to_nat (RateLimiter.tokens v)) true
     ++ replicate (k - Z.to_nat (RateLimiter.tokens v)) false)%list.
Proof.
  induction requests as [|[t ip'] rest IH]; intros rl ip v Hv HT Hwin; [done|].
  cbn zeta. cbn [RateLimiter.serve].
  destruct (RateLimiter.allow rl t ip') as [ok rl1] eqn:Ea.
  destruct (RateLimiter.serve rl1 rest) as [oks rl2] eqn:Es.
  cbn [fst]. unfold RateLimiter.answers_to. cbn [zip zip_with].
  rewrite !filter_cons. cbn [fst snd].
  pose proof (allow_settings rl t ip') as [Hrate Hwindow]. rewrite Ea in Hrate, Hwindow.
  cbn [snd] in Hrate, Hwindow.
  destruct (decide (ip' = ip)) as [->|Hne].
  - revert Ea. unfold RateLimiter.allow. rewrite Hv. cbn zeta.
    pose proof (Hwin t ltac:(left)) as Hwt.
    rewrite (decide_False (P := Sub t (RateLimiter.lastRefill v)
                                >= RateLimiter.window rl)) by lia.
    cbn [RateLimiter.tokens RateLimiter.lastSeen RateLimiter.lastRefill].
    case_decide as Hpos; intros [= <- <-].
    + specialize (IH (RateLimiter.with_visitor rl ip
                        (RateLimiter.mkVisitor
                           (wrap_int (RateLimiter.tokens v - 1)) t
                           (RateLimiter.lastRefill v)))
                     ip _ (lookup_insert_eq _ _ _)).
      cbn [RateLimiter.tokens RateLimiter.lastRefill RateLimiter.with_visitor
           RateLimiter.window] in IH.
      rewrite Es in IH. cbn [fst] in IH. unfold RateLimiter.answers_to in IH.
      rewrite wrap_int_id in IH by (unfold min_int, max_int in *; lia).
      cbn [fmap list_fmap snd length]. rewrite IH.
      * replace (Z.to_nat (RateLimiter.tokens v))
          with (S (Z.to_nat (RateLimiter.tokens v - 1))) by lia.
        reflexivity.
      * lia.
      * intros t' Ht'. apply Hwin. by right.
    + specialize (IH (RateLimiter.with_visitor rl ip
                        (RateLimiter.mkVisitor (RateLimiter.tokens v) t
                           (RateLimiter.lastRefill v)))
                     ip _ (lookup_insert_eq _ _ _)).
      cbn [RateLimiter.tokens RateLimiter.lastRefill RateLimiter.with_visitor
           RateLimiter.window] in IH.
      rewrite Es in IH. cbn [fst] in IH. unfold RateLimiter.answers_to in IH.
      cbn [fmap list_fmap snd length]. rewrite IH.
      * replace (Z.to_nat (RateLimiter.tokens v)) with 0%nat by lia.
        rewrite !Nat.min_0_r, !Nat.sub_0_r. reflexivity.
      * done.
      * intros t' Ht'. apply Hwin. by right.
  - assert (Hv1 : RateLimiter.visitors rl1 !! ip = Some v).
    { pose proof (allow_other rl t ip ip' Hne) as H. rewrite Ea in H. cbn in H.
      by rewrite H. }
    specialize (IH rl1 ip v Hv1 HT). rewrite Hwindow in IH.
    rewrite Es in IH. cbn [fst] in IH. unfold RateLimiter.answers_to in IH.
    apply IH. intros t' Ht'. apply Hwin. by right.
Qed.

(** X29. A client the limiter has not seen makes a first request at time
    [t0], and further requests less than one window after [t0], interleaved
    in any way with requests of other clients.  Its first request is
    allowed whatever the rate is; of the later ones the first [rate - 1] are
    allowed and all others refused.  So with a rate of at least 1 exactly
    [rate] requests pass per window, and with a rate of 0 or less one
    still passes. *)
Theorem X29_rate_limit_within_a_window
    (rl : RateLimiter.t) (ip : string) (t0 : time)
    (requests : list (time * string)) :
  RateLimiter.visitors rl !! ip = None ->
  min_int < RateLimiter.rate rl <= max_int ->
  (forall t, (t, ip) ∈ requests -> Sub t t0 < RateLimiter.window rl) ->
  let answers := (RateLimiter.serve rl ((t0, ip) :: requests)).1 in
  let k := length (filter (fun r : time * string => r.2 = ip) requests) in
  RateLimiter.answers_to ip ((t0, ip) :: requests) answers
  = (true :: replicate (k `min` Z.to_nat (RateLimiter.rate rl - 1)) true
     ++ replicate (k - Z.to_nat (RateLimiter.rate rl - 1)) false)%list.
Proof.
  intros Hnew Hrate Hwin. cbn zeta. cbn [RateLimiter.serve].
  unfold RateLimiter.allow at 1. rewrite Hnew.
  set (rl1 := RateLimiter.with_visitor rl ip _).
  pose proof (serve_without_refill requests rl1 ip _ (lookup_insert_eq _ _ _))
    as Hrest.
  cbn [RateLimiter.tokens RateLimiter.lastRefill] in Hrest.
  rewrite wrap_int_id in Hrest by (unfold min_int, max_int in *; lia).
  specialize (Hrest ltac:(lia) Hwin). cbn zeta in Hrest.
  destruct (RateLimiter.serve rl1 requests) as [oks rl2].
  cbn [fst] in Hrest |- *. unfold RateLimiter.answers_to in Hrest |- *.
  cbn [zip zip_with]. rewrite filter_cons. cbn [fst snd].
  rewrite decide_True by done. cbn [fmap list_fmap snd]. by rewrite Hrest.
Qed.

(** X30. One round of the cleanup removes exactly the clients last seen
    more than ten minutes before the tick and leaves the others as they
    are.  If the rate is at least 1, the window at most ten minutes and the
    clock does not run backwards, the cleanup is invisible to a client: its
    next request gets the same answer, and leaves it with the same bucket,
    as if no cleanup had happened. *)
Theorem X30_cleanup_is_invisible
    (rl : RateLimiter.t) (tick now : time) (ip : string)
    (v : RateLimiter.Visitor) :
  1 <= RateLimiter.rate rl <= max_int ->
  RateLimiter.window rl <= 10 * Minute ->
  RateLimiter.visitors rl !! ip = Some v ->
  RateLimiter.lastRefill v <= RateLimiter.lastSeen v ->
  tick <= now ->
  let rl' := RateLimiter.cleanup rl tick in
  (forall ip' v',
     RateLimiter.visitors rl' !! ip' = Some v'
     <-> RateLimiter.visitors rl !! ip' = Some v'
         /\ Sub tick (RateLimiter.lastSeen v') <= 10 * Minute)
  /\ (RateLimiter.allow rl' now ip).1 = (RateLimiter.allow rl now ip).1
  /\ RateLimiter.visitors (RateLimiter.allow rl' now ip).2 !! ip
     = RateLimiter.visitors (RateLimiter.allow rl now ip).2 !! ip.
Proof.
  intros Hrate Hwindow Hv Hseen Hclock. cbn zeta.
  assert (Hchar : forall ip' v',
            RateLimiter.visitors (RateLimiter.cleanup rl tick) !! ip' = Some v'
            <-> RateLimiter.visitors rl !! ip' = Some v'
                /\ Sub tick (RateLimiter.lastSeen v') <= 10 * Minute).
  { intros ip' v'. unfold RateLimiter.cleanup. cbn [RateLimiter.visitors].
    rewrite map_lookup_filter_Some. cbn. split; intros [? ?]; split; try done; lia. }
  split; [exact Hchar|].
  destruct (decide (Sub tick (RateLimiter.lastSeen v) <= 10 * Minute)) as [Hkeep|Hidle].
  - assert (Hv' : RateLimiter.visitors (RateLimiter.cleanup rl tick) !! ip = Some v)
      by (by apply Hchar).
    unfold RateLimiter.allow. rewrite Hv, Hv'. cbn zeta.
    cbn [RateLimiter.cleanup RateLimiter.window RateLimiter.rate].
    repeat case_decide; cbn; by rewrite !lookup_insert_eq.
  - assert (Hv' : RateLimiter.visitors (RateLimiter.cleanup rl tick) !! ip = None).
    { destruct (RateLimiter.visitors (RateLimiter.cleanup rl tick) !! ip) as [v'|] eqn:E;
        [|done].
      apply Hchar in E as [E1 E2]. rewrite Hv in E1. injection E1 as <-. done. }
    unfold RateLimiter.allow. rewrite Hv, Hv'. cbn zeta.
    cbn [RateLimiter.cleanup RateLimiter.window RateLimiter.rate].
    assert (Hrefill : Sub now (RateLimiter.lastRefill v) >= RateLimiter.window rl).
    { unfold Sub, Minute, Second, min_int, max_int in *. lia. }
    rewrite (decide_True (P := Sub now (RateLimiter.lastRefill v)
                               >= RateLimiter.window rl)) by exact Hrefill.
    cbn [RateLimiter.tokens RateLimiter.lastSeen RateLimiter.lastRefill].
    rewrite decide_True by lia. cbn. by rewrite !lookup_insert_eq.
Qed.

(** ** The properties at work on the scenario *)

Lemma X1_job_create_then_get_witness :
  JobRepository.GetByID (calm 3 0%N) pending_store 101%N = Ok pending_job.
Proof.
  refine (proj1 (X1_job_create_then_get (calm 2 101%N) (calm 3 0%N)
                   (mkDB ∅ [] the_documents) pending_store
                   pending_job pending_job _ eq_refl)).
  vm_compute. reflexivity.
Defined.

Lemma X2_job_delete_then_gone_witness :
  JobRepository.GetByID (calm 21 0%N) (mkDB ∅ [] the_documents) 101%N
  = Err "job not found".
Proof.
  refine (proj1 (X2_job_delete_then_gone (calm 20 0%N) (calm 21 0%N)
                   finished_store (mkDB ∅ [] the_documents) 101%N _ eq_refl)).
  vm_compute. reflexivity.
Defined.

Lemma X3_job_identity_is_immutable_witness :
  same_identity pending_job
    (JobRepository.status_update JobStatusCancelled None 9 pending_job).
Proof.
  refine (proj1 (proj1 X3_job_identity_is_immutable _
                   (JobUpdateStatus 101%N JobStatusCancelled None)
                   (calm 9 0%N) pending_store 101%N pending_job _ _ _)).
  - vm_compute. reflexivity.
  - vm_compute. reflexivity.
Defined.


Lemma X5_result_create_then_get_witness :
  ResultRepository.GetByID (calm 13 0%N)
    (mkDB {[ 101%N := pending_job ]} [the_result_row] the_documents) 300%N
  = Ok the_result_row.
Proof.
  refine (proj1 (proj2 (proj2
            (X5_result_create_then_get (calm 12 300%N) (calm 13 0%N)
               pending_store
               (mkDB {[ 101%N := pending_job ]} [the_result_row] the_documents)
               (dispatch_result 101%N pending_job engine_answer 0%N 0)
               the_result_row _ eq_refl)))).
  vm_compute. reflexivity.
Defined.

Lemma X6_result_update_then_get_witness :
  OCRResult.JobID
    <$> ocr_results
          (ResultRepository.Update (calm 14 0%N) finished_store
             (OCRResult.mk 300%N 0%N 0%N "new text" "" "" 1 1 1 0)).2
  = OCRResult.JobID <$> ocr_results finished_store.
Proof.
  refine (proj1 (proj2 (proj2
            (X6_result_update_then_get (calm 14 0%N) (calm 15 0%N)
               finished_store _
               (OCRResult.mk 300%N 0%N 0%N "new text" "" "" 1 1 1 0) _ eq_refl)))).
  vm_compute. reflexivity.
Defined.

Lemma X7_result_delete_then_gone_witness :
  ResultRepository.GetByID (calm 16 0%N)
    (mkDB {[ 101%N := finished_job ]} [] the_documents) 300%N
  = Err "result not found".
Proof.
  refine (proj1 (X7_result_delete_then_gone (calm 15 0%N) (calm 16 0%N)
                   finished_store
                   (mkDB {[ 101%N := finished_job ]} [] the_documents)
                   300%N _ eq_refl)).
  vm_compute. reflexivity.
Defined.

Lemma X8_results_by_document_witness :
  fault (interrupted 14) = None
  /\ StronglySorted ResultRepository.newest_first []
  /\ exists lost,
       lost ≡ₚ [the_result_row]
       /\ StronglySorted ResultRepository.newest_first lost
       /\ (cut (interrupted 14) = None -> lost = [])
       /\ (forall k, cut (interrupted 14) = Some k ->
             0%nat = (k `min` length lost)%nat).
Proof.
  exact (X8_results_by_document (interrupted 14) finished_store 7%N).
Defined.

Lemma X10_submit_creates_one_pending_job_witness :
  launched_in (trace_of (run (JobService.SubmitJob the_submission alice) steady 0
                             (mkDB ∅ [] the_documents)))
  = [201%N].
Proof.
  refine (proj2 (proj2
            (X10_submit_creates_one_pending_job steady 0 (mkDB ∅ [] the_documents)
               the_submission alice the_document
               eq_refl eq_refl eq_refl eq_refl eq_refl eq_refl))).
Defined.

Lemma X11_failed_submit_leaves_nothing_witness :
  run (JobService.SubmitJob the_submission mallory) steady 0 pending_store
  = (Err "unauthorized: document does not belong to user", pending_store,
     [(Called (DocumentGetByID 7%N), pending_store)]).
Proof.
  refine (proj2 (proj2 (X11_failed_submit_leaves_nothing steady 0 pending_store
                          the_submission mallory)) the_document eq_refl _).
  vm_compute. discriminate.
Defined.

Lemma X12_delete_refused_changes_nothing_witness :
  result_of (run (JobService.DeleteJob 101%N alice) steady 0 pending_store)
  = Err "cannot delete active job, cancel it first".
Proof.
  refine (proj2 (X12_delete_refused_changes_nothing steady 0 pending_store
                   101%N alice) pending_job eq_refl eq_refl eq_refl _).
  left. reflexivity.
Defined.

Lemma X13_delete_removes_job_and_results_witness :
  result_of (run (JobService.DeleteJob 101%N alice) steady 0 finished_store)
  = Ok tt.
Proof.
  refine (proj1 (X13_delete_removes_job_and_results steady 0 finished_store
                   101%N finished_job eq_refl _ _ eq_refl eq_refl)).
  - vm_compute. discriminate.
  - vm_compute. discriminate.
Defined.

Lemma X14_cancel_refused_changes_nothing_witness :
  result_of (run (JobService.CancelJob 101%N alice) steady 0 finished_store)
  = Err "cannot cancel job with status: completed".
Proof.
  refine (proj1 (proj2 (X14_cancel_refused_changes_nothing steady 0
                          finished_store 101%N alice))
            finished_job eq_refl eq_refl eq_refl _).
  left. reflexivity.
Defined.

Lemma X15_reads_return_the_callers_rows_witness :
  the_result_row ∈ ocr_results finished_store
  /\ OCRResult.JobID the_result_row = 101%N
  /\ exists job, ocr_jobs finished_store !! 101%N = Some job
                 /\ OCRJob.UserID job = alice.
Proof.
  refine (proj2 (proj2 (proj2 (X15_reads_return_the_callers_rows steady 0
                                 finished_store 101%N alice)))
            the_result_row _).
  vm_compute. reflexivity.
Defined.


Lemma X17_dispatch_success_witness :
  launched_in (trace_of (run (JobService.processJob 101%N) steady 0 pending_store))
  = [].
Proof.
  refine (proj2 (proj2
            (X17_dispatch_success steady 0 pending_store 101%N pending_job
               the_document engine_answer eq_refl eq_refl eq_refl eq_refl
               _ eq_refl _ _ _))).
  - intros i _. reflexivity.
  - unfold fits_int4, min_int4, max_int4. cbn. lia.
  - unfold fits_int4, min_int4, max_int4. cbn. lia.
  - cbn. apply not_elem_of_nil.
Defined.

Lemma X18_dispatch_without_document_witness :
  launched_in (trace_of (run (JobService.processJob 101%N) steady 0 orphaned_store))
  = [].
Proof.
  refine (proj2 (proj2
            (X18_dispatch_without_document steady 0 orphaned_store 101%N
               pending_job eq_refl eq_refl _ _))).
  - intros doc H. vm_compute in H. injection H as <-. discriminate.
  - intros i _. reflexivity.
Defined.

Lemma X19_dispatch_result_not_saved_witness :
  launched_in (trace_of (run (JobService.processJob 101%N) flaky 0 pending_store))
  = [].
Proof.
  refine (proj2 (proj2
            (X19_dispatch_result_not_saved flaky 0 pending_store 101%N pending_job
               the_document engine_answer "connection reset"
               eq_refl eq_refl eq_refl eq_refl _ eq_refl eq_refl))).
  intros i Hi Hne. unfold flaky. cbn. by rewrite decide_False.
Defined.

Lemma X20_dispatch_needs_pending_and_claim_witness :
  store_of (run (JobService.processJob 101%N) steady 0 finished_store)
  = finished_store.
Proof.
  refine (proj1 (X20_dispatch_needs_pending_and_claim steady 0 finished_store
                   101%N _)).
  right. right. intros job H. vm_compute in H. injection H as <-. discriminate.
Defined.

Lemma X22_next_job_is_head_of_queue_witness :
  launched_in (trace_of (run JobService.ProcessNextJob steady 0 queue_example))
  = OCRJob.ID <$> take 1 (pending_queue queue_example).
Proof.
  refine (proj1 (proj2 (proj1 (proj2 (proj2
            (X22_next_job_is_head_of_queue steady 0 queue_example)))
            eq_refl)) _).
  vm_compute. discriminate.
Defined.

Lemma X23_rejected_before_any_statement_witness :
  run (route (ReqDelete (Err "user not authenticated") (Ok 101%N))) steady 0
      pending_store
  = (mkResponse StatusUnauthorized
       (ErrorResponse "AUTH_003" "user not authenticated" 0),
     pending_store, [(Called TimeNow, pending_store)]).
Proof.
  refine (proj1 (X23_rejected_before_any_statement steady 0 pending_store)
            (ReqDelete (Err "user not authenticated") (Ok 101%N))
            "user not authenticated" eq_refl).
Defined.

Lemma X25_requests_touch_only_the_callers_jobs_witness :
  ocr_jobs (store_of (run (route (ReqCancel (Ok mallory) (Ok 101%N))) steady 0
                          pending_store)) !! 101%N
  = Some pending_job.
Proof.
  refine (proj1 (proj1 (X25_requests_touch_only_the_callers_jobs steady 0
                          pending_store (ReqCancel (Ok mallory) (Ok 101%N))
                          mallory eq_refl)
                   101%N pending_job eq_refl _)).
  vm_compute. discriminate.
Defined.

Lemma X26_retry_columns_in_reachable_states_witness :
  OCRJob.ID pending_job = 101%N /\ OCRJob.MaxRetries pending_job = 3
  /\ 0 <= OCRJob.RetryCount pending_job <= 3.
Proof.
  refine (X26_retry_columns_in_reachable_states submitted_state _
            101%N pending_job _).
  - apply (after_reachable submitted). vm_compute. reflexivity.
  - vm_compute. reflexivity.
Defined.

Lemma X27_status_columns_in_reachable_states_witness :
  OCRJob.ProgressPercentage pending_job = 0
  \/ OCRJob.ProgressPercentage pending_job = 100.
Proof.
  refine (proj1 (X27_status_columns_in_reachable_states submitted_state _
                   101%N pending_job _)).
  - apply (after_reachable submitted). vm_compute. reflexivity.
  - vm_compute. reflexivity.
Defined.

Lemma X28_one_dispatch_per_job_witness :
  owner (spawn 101%N) = Some 101%N /\ 1%nat = 1%nat.
Proof.
  split; [reflexivity|].
  refine (X28_one_dispatch_per_job submitted_state _ 1%nat 1%nat
            (spawn 101%N) (spawn 101%N) 101%N _ _ eq_refl eq_refl).
  - apply (after_reachable submitted). vm_compute. reflexivity.
  - vm_compute. reflexivity.
  - vm_compute. reflexivity.
Defined.

Lemma X9_soft_deleted_document_is_gone_witness :
  DocumentRepository.GetByID (calm 51 0%N) orphaned_store 7%N
  = Err "document not found".
Proof.
  refine (proj1 (proj2 (proj2 (proj2 (proj2
            (X9_soft_deleted_document_is_gone (calm 50 0%N) (calm 51 0%N)
               pending_store orphaned_store 7%N _ eq_refl)))))).
  vm_compute. reflexivity.
Defined.

Lemma X29_rate_limit_within_a_window_witness :
  RateLimiter.answers_to client ((0, client) :: burst)
    (RateLimiter.serve auth_limiter ((0, client) :: burst)).1
  = (replicate 10 true ++ [false])%list.
Proof.
  refine (X29_rate_limit_within_a_window auth_limiter client 0 burst
            eq_refl _ _).
  - unfold min_int, max_int. cbn. lia.
  - intros t Ht. apply list_elem_of_fmap in Ht as (i & Heq & Hi).
    injection Heq as ->. apply elem_of_seq in Hi.
    change (RateLimiter.window auth_limiter) with Minute.
    unfold Sub, Minute, Second, min_int, max_int. lia.
Defined.

Lemma X30_cleanup_is_invisible_witness :
  (RateLimiter.allow (RateLimiter.cleanup idle_limiter (11 * Minute))
     (11 * Minute + 1) client).1
  = (RateLimiter.allow idle_limiter (11 * Minute + 1) client).1.
Proof.
  refine (proj1 (proj2 (X30_cleanup_is_invisible idle_limiter (11 * Minute)
                          (11 * Minute + 1) client
                          (RateLimiter.mkVisitor 9 0 0) _ _ eq_refl _ _))).
  - unfold max_int. cbn. lia.
  - change (RateLimiter.window idle_limiter) with Minute.
    unfold Minute, Second. lia.
  - cbn. lia.
  - lia.
Defined.
